(** * nn-tools-services: the Gemini chat endpoint

    A shallow embedding of [src/endpoints/llm/base.ts] and
    [src/endpoints/llm/geminiChat.ts] (both the [fetch] based endpoint and the
    variant built on the provider SDK), with the properties of the response
    translation layer stated and proved over it.

    JavaScript strings are represented by their UTF-8 bytes ([string]); byte
    arrays ([Uint8Array]) are [list Byte.byte].  JSON numbers are exact
    rationals; IEEE rounding is not modelled. *)

From Stdlib Require Import List String Ascii ZArith QArith Bool.
From Stdlib Require Import Numbers.DecimalString Numbers.DecimalZ.
Import ListNotations.

Set Warnings "-register-all,-notation-for-abbreviation".

Open Scope string_scope.
Open Scope Z_scope.

(* ================================================================== *)
(** * The JavaScript fragment the endpoint is written in               *)
(* ================================================================== *)

Module JS.

(** Values of type [any]: what [JSON.parse] and [response.json()] return,
    plus [undefined], which property access produces for a missing key. *)
Inductive value : Type :=
| VUndefined
| VNull
| VBool (b : bool)
| VNumber (q : Q)
| VString (s : string)
| VArray (xs : list value)
| VObject (fields : list (string * value)).

(** One violated constraint of a zod schema: the field, and the message
    when the schema gives one. *)
Inductive ZodIssue : Type :=
| invalid_type (path expected : string)
| too_small (path : string) (message : option string)
| too_big (path : string) (message : option string).

(** Things that can be thrown. *)
Inductive exn : Type :=
| TypeError (msg : string)
| RangeError (msg : string)
| SyntaxError (msg : string)
| ZodError (issues : list ZodIssue)
| NetworkError (msg : string).

(** The outcome of evaluating an expression or awaiting a promise. *)
Inductive completion (A : Type) : Type :=
| Normal (a : A)
| Throw (e : exn).

Arguments Normal {A} a.
Arguments Throw {A} e.

Definition bind {A B} (m : completion A) (k : A -> completion B) : completion B :=
  match m with
  | Normal a => k a
  | Throw e => Throw e
  end.

(** [try { m } catch (e) { h e }] *)
Definition try_catch {A} (m : completion A) (h : exn -> completion A) : completion A :=
  match m with
  | Normal a => Normal a
  | Throw e => h e
  end.

(** Code that also updates a state [S] (a stream controller, the trace of a
    request): the state survives a [throw]. *)
Definition eff (S A : Type) : Type := S -> completion A * S.

Definition eret {S A} (a : A) : eff S A := fun s => (Normal a, s).

Definition ebind {S A B} (m : eff S A) (k : A -> eff S B) : eff S B :=
  fun s =>
    match m s with
    | (Normal a, s') => k a s'
    | (Throw e, s') => (Throw e, s')
    end.

Definition lift {S A} (m : completion A) : eff S A := fun s => (m, s).

Definition etry_catch {S A} (m : eff S A) (h : exn -> eff S A) : eff S A :=
  fun s =>
    match m s with
    | (Normal a, s') => (Normal a, s')
    | (Throw e, s') => h e s'
    end.

(** ** Truthiness ([ToBoolean]) *)
Definition truthy (v : value) : bool :=
  match v with
  | VUndefined | VNull => false
  | VBool b => b
  | VNumber q => negb (Qeq_bool q 0)
  | VString s => negb (s =? "")%string
  | VArray _ | VObject _ => true
  end.

(** ** Property access *)

(** An object built by [JSON.parse] keeps the last of several bindings of
    one key. *)
Fixpoint lookup (k : string) (fields : list (string * value)) : option value :=
  match fields with
  | [] => None
  | (k', v) :: rest =>
      match lookup k rest with
      | Some v' => Some v'
      | None => if (k =? k')%string then Some v else None
      end
  end.

(** [v.name], for the property names the endpoint reads ([candidates],
    [content], [parts], [text], [usageMetadata] and the three token counters),
    none of which is a built-in property of strings, arrays, numbers or
    booleans. *)
Definition get (v : value) (name : string) : completion value :=
  match v with
  | VUndefined => Throw (TypeError ("Cannot read properties of undefined (reading '" ++ name ++ "')"))
  | VNull => Throw (TypeError ("Cannot read properties of null (reading '" ++ name ++ "')"))
  | VObject fields =>
      match lookup name fields with
      | Some x => Normal x
      | None => Normal VUndefined
      end
  | VBool _ | VNumber _ | VString _ | VArray _ => Normal VUndefined
  end.

(** [v[0]].  On a string it is the first character (here: the first byte,
    which is all the endpoint can observe of it: whether it is there). *)
Definition index0 (v : value) : completion value :=
  match v with
  | VUndefined => Throw (TypeError "Cannot read properties of undefined (reading '0')")
  | VNull => Throw (TypeError "Cannot read properties of null (reading '0')")
  | VArray xs =>
      match xs with
      | [] => Normal VUndefined
      | x :: _ => Normal x
      end
  | VString s =>
      match s with
      | EmptyString => Normal VUndefined
      | String ch _ => Normal (VString (String ch EmptyString))
      end
  | VObject fields =>
      match lookup "0" fields with
      | Some x => Normal x
      | None => Normal VUndefined
      end
  | VBool _ | VNumber _ => Normal VUndefined
  end.

(** [a && b]: [b] is evaluated only when [a] is truthy. *)
Definition and_then (a b : completion value) : completion value :=
  bind a (fun x => if truthy x then b else Normal x).

(** [a || b] on values. *)
Definition or_else (a b : value) : value :=
  if truthy a then a else b.

(** ** Strings *)

Definition LF : ascii := "010"%char.

(** [s.split(sep)] for a one-character separator. *)
Fixpoint split (sep : ascii) (s : string) : list string :=
  match s with
  | EmptyString => [EmptyString]
  | String ch rest =>
      if (ch =? sep)%char then EmptyString :: split sep rest
      else
        match split sep rest with
        | [] => [String ch EmptyString]
        | l :: ls => String ch l :: ls
        end
  end.

(** [s.startsWith(p)] *)
Fixpoint startsWith (s p : string) : bool :=
  match p with
  | EmptyString => true
  | String a p' =>
      match s with
      | EmptyString => false
      | String b s' => (a =? b)%char && startsWith s' p'
      end
  end.

(** [s.slice(n)] for [n >= 0]. *)
Fixpoint slice (n : nat) (s : string) : string :=
  match n, s with
  | O, _ => s
  | S _, EmptyString => EmptyString
  | S n', String _ rest => slice n' rest
  end.

Definition of_codes (l : list N) : string :=
  fold_right (fun n acc => String (ascii_of_N n) acc) EmptyString l.

(** The code points [String.prototype.trim] strips (WhiteSpace and
    LineTerminator), each by its UTF-8 encoding. *)
Definition whitespace : list string :=
  map of_codes
    [ [9]; [10]; [11]; [12]; [13]; [32];                  (* TAB LF VT FF CR SP *)
      [194; 160];                                          (* U+00A0 *)
      [225; 154; 128];                                     (* U+1680 *)
      [226; 128; 128]; [226; 128; 129]; [226; 128; 130];   (* U+2000 .. *)
      [226; 128; 131]; [226; 128; 132]; [226; 128; 133];
      [226; 128; 134]; [226; 128; 135]; [226; 128; 136];
      [226; 128; 137]; [226; 128; 138];                    (* .. U+200A *)
      [226; 128; 168]; [226; 128; 169];                    (* U+2028 U+2029 *)
      [226; 128; 175];                                     (* U+202F *)
      [226; 129; 159];                                     (* U+205F *)
      [227; 128; 128];                                     (* U+3000 *)
      [239; 187; 191] ]%N.                                 (* U+FEFF *)

(** The rest of [s] after one leading white space character, if it has one. *)
Fixpoint strip_one (ws : list string) (s : string) : option string :=
  match ws with
  | [] => None
  | w :: ws' =>
      if startsWith s w then Some (slice (String.length w) s)
      else strip_one ws' s
  end.

Fixpoint trimStart_fuel (fuel : nat) (s : string) : string :=
  match fuel with
  | O => s
  | S fuel' =>
      match strip_one whitespace s with
      | Some rest => trimStart_fuel fuel' rest
      | None => s
      end
  end.

Definition trimStart (s : string) : string :=
  trimStart_fuel (String.length s) s.

(** [s] consists of white space only. *)
Definition blank (s : string) : bool :=
  (trimStart s =? "")%string.

Fixpoint trimEnd (s : string) : string :=
  match s with
  | EmptyString => EmptyString
  | String ch rest => if blank s then EmptyString else String ch (trimEnd rest)
  end.

(** [s.trim()] *)
Definition trim (s : string) : string := trimEnd (trimStart s).

(** [String(n)] for an integer [n], as a template literal prints it. *)
Definition string_of_Z (z : Z) : string :=
  NilZero.string_of_int (Z.to_int z).

(** ** [JSON.stringify] on the way out

    What a client reads back from a serialised value: a property whose value
    is [undefined] is left out of its object, and [undefined] in an array
    becomes [null]. *)
Fixpoint serialised (v : value) : value :=
  match v with
  | VArray xs =>
      VArray (map (fun x => match x with
                            | VUndefined => VNull
                            | _ => serialised x
                            end) xs)
  | VObject fields =>
      VObject ((fix props (fs : list (string * value)) : list (string * value) :=
                  match fs with
                  | [] => []
                  | (k, x) :: rest =>
                      match x with
                      | VUndefined => props rest
                      | _ => (k, serialised x) :: props rest
                      end
                  end) fields)
  | _ => v
  end.

End JS.

Declare Scope js_scope.
Delimit Scope js_scope with js.
Notation "x <~ m ;; k" := (JS.bind m (fun x => k))
  (at level 61, m at next level, right associativity) : js_scope.
Notation "x <- m ;; k" := (JS.ebind m (fun x => k))
  (at level 61, m at next level, right associativity) : js_scope.
Notation "m ;;; k" := (JS.ebind m (fun _ => k))
  (at level 61, right associativity) : js_scope.
Notation "a &&& b" := (JS.and_then a b)
  (at level 40, left associativity) : js_scope.
Open Scope js_scope.

(* ================================================================== *)
(** * [TextDecoder] and [TextEncoder]                                  *)
(* ================================================================== *)

Module TextDecoder.

(** The state of a UTF-8 [TextDecoder] between two calls of
    [decode(value, { stream: true })]: the bytes of a sequence that is not
    complete yet, how many continuation bytes it still needs, the range the
    next one must lie in, and whether the first code point has been seen (a
    leading byte order mark is dropped). *)
Record t : Type := {
  pending : string;
  needed : nat;
  lower : N;
  upper : N;
  BOM_seen : bool
}.

(** [new TextDecoder()] *)
Definition new : t :=
  {| pending := ""; needed := 0; lower := 128; upper := 191; BOM_seen := false |}.

Definition reset (d : t) : t :=
  {| pending := ""; needed := 0; lower := 128; upper := 191; BOM_seen := BOM_seen d |}.

Definition BOM : string := JS.of_codes [239; 187; 191]%N.
Definition REPLACEMENT : string := JS.of_codes [239; 191; 189]%N.

(** One code point (by its encoding) leaves the decoder. *)
Definition emit (d : t) (code : string) : t * string :=
  let d' := {| pending := ""; needed := 0; lower := 128; upper := 191; BOM_seen := true |} in
  if negb (BOM_seen d) && (code =? BOM)%string then (d', "") else (d', code).

(** A byte met while no sequence is open. *)
Definition lead (d : t) (b : ascii) : t * string :=
  let n := N_of_ascii b in
  if (n <=? 127)%N then emit d (String b "")
  else if ((194 <=? n) && (n <=? 223))%N then
    ({| pending := String b ""; needed := 1; lower := 128; upper := 191;
        BOM_seen := BOM_seen d |}, "")
  else if ((224 <=? n) && (n <=? 239))%N then
    ({| pending := String b ""; needed := 2;
        lower := if (n =? 224)%N then 160%N else 128%N;
        upper := if (n =? 237)%N then 159%N else 191%N;
        BOM_seen := BOM_seen d |}, "")
  else if ((240 <=? n) && (n <=? 244))%N then
    ({| pending := String b ""; needed := 3;
        lower := if (n =? 240)%N then 144%N else 128%N;
        upper := if (n =? 244)%N then 143%N else 191%N;
        BOM_seen := BOM_seen d |}, "")
  else emit d REPLACEMENT.

(** The decoder's handler for one byte. *)
Definition step (d : t) (b : ascii) : t * string :=
  match needed d with
  | O => lead d b
  | S k =>
      let n := N_of_ascii b in
      if ((lower d <=? n) && (n <=? upper d))%N then
        match k with
        | O => emit d (pending d ++ String b "")
        | S _ =>
            ({| pending := pending d ++ String b ""; needed := k;
                lower := 128; upper := 191; BOM_seen := BOM_seen d |}, "")
        end
      else
        (* an ill-formed sequence: U+FFFD, and the byte is looked at again *)
        let (d1, out1) := emit (reset d) REPLACEMENT in
        let (d2, out2) := lead d1 b in
        (d2, out1 ++ out2)
  end.

(** [decoder.decode(value, { stream: true })] *)
Fixpoint decode (d : t) (value : list Byte.byte) : t * string :=
  match value with
  | [] => (d, "")
  | b :: rest =>
      let (d1, out1) := step d (ascii_of_byte b) in
      let (d2, out2) := decode d1 rest in
      (d2, out1 ++ out2)
  end.

(** Decoding a whole body at once (as [response.text()] does): an unfinished
    sequence at the end becomes U+FFFD. *)
Definition decode_all (value : list Byte.byte) : string :=
  let (d, out) := decode new value in
  match needed d with
  | O => out
  | S _ => out ++ snd (emit (reset d) REPLACEMENT)
  end.

End TextDecoder.

Module TextEncoder.

Section ToString.

(** [Number.prototype.toString], which the platform provides. *)
Variable Number_toString : Q -> string.

(** [String(v)], the conversion [encode] applies to its argument. *)
Fixpoint ToString (v : JS.value) : string :=
  match v with
  | JS.VUndefined => "undefined"
  | JS.VNull => "null"
  | JS.VBool true => "true"
  | JS.VBool false => "false"
  | JS.VNumber q => Number_toString q
  | JS.VString s => s
  | JS.VArray xs =>
      (fix join (l : list JS.value) : string :=
         match l with
         | [] => ""
         | x :: rest =>
             let sx := match x with
                       | JS.VUndefined | JS.VNull => ""
                       | _ => ToString x
                       end in
             match rest with
             | [] => sx
             | _ :: _ => sx ++ "," ++ join rest
             end
         end) xs
  | JS.VObject _ => "[object Object]"
  end.

(** [new TextEncoder().encode(v)] *)
Definition encode (v : JS.value) : list Byte.byte :=
  list_byte_of_string (ToString v).

End ToString.

End TextEncoder.

(* ================================================================== *)
(** * [base.ts]: schemas and configuration                             *)
(* ================================================================== *)

Module Base.

Import JS.

(** ** The provider's request envelope *)
Module Gemini.

Inductive Role : Type := user | model.

(** [GeminiMessage]; a part is [{ text }]. *)
Record GeminiMessage : Type := {
  role : option Role;
  parts : list string
}.

Record GenerationConfig : Type := {
  temperature : option Q;
  topK : option Q;
  topP : option Q;
  maxOutputTokens : option Q;
  stopSequences : option (list string)
}.

(** [GeminiRequest]; a safety setting is [{ category, threshold }]. *)
Record GeminiRequest : Type := {
  contents : list GeminiMessage;
  generationConfig : option GenerationConfig;
  safetySettings : option (list (string * string))
}.

End Gemini.

(** ** [ChatRequest], after validation and defaults *)
Record ChatRequest : Type := {
  message : string;
  conversation_id : option string;
  temperature : Q;
  max_tokens : Q;
  stream : bool
}.

(** A field of the inbound object ([undefined] when the key is missing). *)
Definition field (fields : list (string * value)) (name : string) : value :=
  match lookup name fields with
  | Some v => v
  | None => VUndefined
  end.

(** [z.string().min(1, "消息不能为空")] *)
Definition z_message (v : value) : ZodIssue + string :=
  match v with
  | VString s =>
      if (1 <=? String.length s)%nat then inr s
      else inl (too_small "message" (Some "消息不能为空"))
  | _ => inl (invalid_type "message" "string")
  end.

(** [z.string().optional()] *)
Definition z_conversation_id (v : value) : ZodIssue + option string :=
  match v with
  | VUndefined => inr None
  | VString s => inr (Some s)
  | _ => inl (invalid_type "conversation_id" "string")
  end.

(** [z.number().min(lo).max(hi).default(dflt)] *)
Definition z_number_in (path : string) (lo hi dflt : Q) (v : value) : ZodIssue + Q :=
  match v with
  | VUndefined => inr dflt
  | VNumber q =>
      if negb (Qle_bool lo q) then inl (too_small path None)
      else if negb (Qle_bool q hi) then inl (too_big path None)
      else inr q
  | _ => inl (invalid_type path "number")
  end.

(** [z.number().min(0).max(2).default(0.7)] *)
Definition z_temperature : value -> ZodIssue + Q :=
  z_number_in "temperature" 0 2 (7 # 10).

(** [z.number().min(1).max(8192).default(1024)] *)
Definition z_max_tokens : value -> ZodIssue + Q :=
  z_number_in "max_tokens" 1 8192 1024.

(** [z.boolean().default(true)] *)
Definition z_stream (v : value) : ZodIssue + bool :=
  match v with
  | VUndefined => inr true
  | VBool b => inr b
  | _ => inl (invalid_type "stream" "boolean")
  end.

Definition issue {A} (r : ZodIssue + A) : list ZodIssue :=
  match r with
  | inl i => [i]
  | inr _ => []
  end.

(** [ChatRequest.safeParse(raw)]: the request with its defaults, or every
    constraint the input violates. *)
Definition ChatRequest_safeParse (raw : value) : list ZodIssue + ChatRequest :=
  match raw with
  | VObject fields =>
      let m := z_message (field fields "message") in
      let c := z_conversation_id (field fields "conversation_id") in
      let t := z_temperature (field fields "temperature") in
      let k := z_max_tokens (field fields "max_tokens") in
      let s := z_stream (field fields "stream") in
      match m, c, t, k, s with
      | inr m', inr c', inr t', inr k', inr s' =>
          inr {| message := m'; conversation_id := c'; temperature := t';
                 max_tokens := k'; stream := s' |}
      | _, _, _, _, _ => inl (issue m ++ issue c ++ issue t ++ issue k ++ issue s)%list
      end
  | _ => inl [invalid_type "" "object"]
  end.

(** ** [GEMINI_CONFIG] *)
Definition BASE_URL : string := "https://generativelanguage.googleapis.com/v1beta".
Definition MODEL : string := "gemini-2.0-flash".
Definition STREAM_MODEL : string := "gemini-2.0-flash".

End Base.

(* ================================================================== *)
(** * The platform the endpoint runs on                                *)
(* ================================================================== *)

Module Web.

Import JS.

(** How a body ends: the provider signals end of data, or a read fails. *)
Inductive Ending : Type :=
| EndOfData
| ReadFails (e : exn).

(** A [ReadableStream] of byte chunks, as its reader hands them out: one
    element of [reads] per [reader.read()] with [done = false]. *)
Record Body : Type := {
  reads : list (list Byte.byte);
  ending : Ending
}.

(** What [fetch] resolves to. *)
Record FetchResponse : Type := {
  status : Z;
  body : option Body
}.

(** [response.ok] *)
Definition ok (r : FetchResponse) : bool :=
  (200 <=? status r) && (status r <=? 299).

(** [await response.text()] *)
Definition text (r : FetchResponse) : completion string :=
  match body r with
  | None => Normal ""
  | Some b =>
      match ending b with
      | EndOfData => Normal (TextDecoder.decode_all (List.concat (reads b)))
      | ReadFails e => Throw e
      end
  end.

(** The caller-facing [ReadableStream], seen through its controller: every
    chunk enqueued so far, in order, and whether the stream is still open.
    The platform hands the chunks to the consumer in this order; the pace of
    the consumer is not modelled. *)
Inductive StreamState : Type :=
| Readable
| Closed
| Errored (e : exn).

Record Controller : Type := {
  queue : list (list Byte.byte);
  state : StreamState
}.

Definition fresh : Controller := {| queue := []; state := Readable |}.

(** [controller.enqueue(chunk)] *)
Definition enqueue (chunk : list Byte.byte) : eff Controller unit :=
  fun c =>
    match state c with
    | Readable => (Normal tt, {| queue := (queue c ++ [chunk])%list; state := Readable |})
    | _ => (Throw (TypeError "Invalid state: ReadableStream is not readable"), c)
    end.

(** [controller.close()] *)
Definition close : eff Controller unit :=
  fun c =>
    match state c with
    | Readable => (Normal tt, {| queue := queue c; state := Closed |})
    | _ => (Throw (TypeError "Invalid state: ReadableStream is already closed"), c)
    end.

(** [controller.error(e)]; [queue] stays the history of what was enqueued
    (the platform drops the chunks the consumer has not read yet). *)
Definition error (e : exn) : eff Controller unit :=
  fun c =>
    match state c with
    | Readable => (Normal tt, {| queue := queue c; state := Errored e |})
    | _ => (Normal tt, c)
    end.

(** The responses a handler returns: [c.json(body, status)], or a
    [Response] around a stream, given by its headers and by what the
    stream's producer did to it. *)
Inductive Response : Type :=
| Json (body : value) (status : Z)
| Streaming (headers : list (string * string)) (stream : Controller).

(** The [Response] that [c.json(object, status)] builds. *)
Definition json_response (object : list (string * value)) (status : Z) : Response :=
  Json (serialised (VObject object)) status.

(** A null body status: a [Response] with such a status takes no body. *)
Definition null_body_status (status : Z) : bool :=
  (status =? 101) || (status =? 103) || (status =? 204) || (status =? 205)
  || (status =? 304).

(** [c.json(object, status)]: it calls [new Response(text, { status })],
    which throws a [RangeError] for a status outside 200..599 and a
    [TypeError] for a body together with a null body status. *)
Definition c_json (object : list (string * value)) (status : Z) : completion Response :=
  if (status <? 200) || (599 <? status) then
    Throw (RangeError "The status provided is outside the range [200, 599]")
  else if null_body_status status then
    Throw (TypeError "Response with null body status cannot have body")
  else Normal (json_response object status).

(** ** Header values

    [headers.set(name, value)], [c.header(name, value)] and the [headers] of
    [new Response(body, { headers })] take the value as a byte string: a
    code point above U+00FF is a [TypeError].  The value is then normalised
    (HTTP white space, that is tab, line feed, carriage return and space, is
    removed at both ends), and what is left may hold no NUL, line feed or
    carriage return. *)
Definition HTAB : ascii := "009"%char.
Definition CR : ascii := "013"%char.
Definition NUL : ascii := "000"%char.

Definition http_whitespace (ch : ascii) : bool :=
  (ch =? HTAB)%char || (ch =? LF)%char || (ch =? CR)%char || (ch =? " ")%char.

Fixpoint strip_start (s : string) : string :=
  match s with
  | EmptyString => EmptyString
  | String ch rest => if http_whitespace ch then strip_start rest else s
  end.

Fixpoint strip_end (s : string) : string :=
  match s with
  | EmptyString => EmptyString
  | String ch rest =>
      match strip_end rest with
      | EmptyString => if http_whitespace ch then EmptyString else String ch EmptyString
      | kept => String ch kept
      end
  end.

Definition normalize (value : string) : string :=
  strip_end (strip_start value).

(** Every code point of [s] is at most U+00FF: in UTF-8, no byte of [s] is
    0xC4 or above. *)
Fixpoint byte_string (s : string) : bool :=
  match s with
  | EmptyString => true
  | String ch rest => (N_of_ascii ch <? 196)%N && byte_string rest
  end.

Fixpoint forbidden (s : string) : bool :=
  match s with
  | EmptyString => false
  | String ch rest =>
      (ch =? NUL)%char || (ch =? LF)%char || (ch =? CR)%char || forbidden rest
  end.

(** The value a header gets from [value], or the [TypeError]. *)
Definition header_value (value : string) : completion string :=
  if byte_string value then
    if forbidden (normalize value) then Throw (TypeError "Invalid header value")
    else Normal (normalize value)
  else Throw (TypeError "Cannot convert argument to a ByteString").

(** [c.header(name, value)], for a name that is a token. *)
Definition c_header (name value : string) : completion unit :=
  _ <~ header_value value ;; Normal tt.

(** The [headers] of [new Response(body, { headers })], for names that are
    tokens: the entries in their order, each with the value it gets. *)
Fixpoint headers_of (entries : list (string * string))
  : completion (list (string * string)) :=
  match entries with
  | [] => Normal []
  | (name, value) :: rest =>
      value' <~ header_value value ;;
      rest' <~ headers_of rest ;;
      Normal ((name, value') :: rest')
  end.

(** [c.env] *)
Record Env : Type := {
  GEMINI_API_KEY : option string
}.

(** The context of one request: the bindings and the parsed request body. *)
Record AppContext : Type := {
  env : Env;
  req_json : value
}.

(** [await this.getValidatedData()]: the body checked against the route's
    request schema; a violation is thrown. *)
Definition getValidatedData (c : AppContext) : completion Base.ChatRequest :=
  match Base.ChatRequest_safeParse (req_json c) with
  | inr data => Normal data
  | inl issues => Throw (ZodError issues)
  end.

End Web.

(* ================================================================== *)
(** * [geminiChat.ts]: the endpoint over [fetch]                       *)
(* ================================================================== *)

Module GeminiChat.

Import JS Web.

(** One [fetch(url, { method, headers, body })] sent to the provider. *)
Record ProviderCall : Type := {
  url : string;
  method : string;
  headers : list (string * string);
  body : Base.Gemini.GeminiRequest
}.

(** What is recorded of one request: the calls to the provider, and the
    calls of a response translator (of the streaming one, or of the buffered
    one). *)
Inductive Event : Type :=
| Fetched (call : ProviderCall)
| Translated (streaming : bool).

(** [!apiKey] *)
Definition missing (apiKey : option string) : bool :=
  match apiKey with
  | None => true
  | Some key => (key =? "")%string
  end.

Definition key_of (apiKey : option string) : string :=
  match apiKey with
  | None => ""
  | Some key => key
  end.

(** The property paths the two translators read. *)
Definition candidates (data : value) : completion value :=
  get data "candidates".
Definition candidates_0 (data : value) : completion value :=
  cs <~ get data "candidates" ;; index0 cs.
Definition candidates_0_content (data : value) : completion value :=
  c0 <~ candidates_0 data ;; get c0 "content".
Definition parts (content : value) : completion value :=
  get content "parts".
Definition parts_0 (content : value) : completion value :=
  ps <~ get content "parts" ;; index0 ps.
Definition parts_0_text (content : value) : completion value :=
  p0 <~ parts_0 content ;; get p0 "text".

(** [for (const x of xs) body(x)] *)
Fixpoint for_of {S A} (xs : list A) (body : A -> eff S unit) : eff S unit :=
  match xs with
  | [] => eret tt
  | x :: rest => body x ;;; for_of rest body
  end.

(** The [headers] that [handleStreamResponse] gives to [new Response], and
    sets on the context with [c.header] before it builds the stream; the two
    take a value, or throw for it, in the same way. *)
Definition stream_headers (conversationId : string) : list (string * string) :=
  [ ("Content-Type", "text/plain; charset=utf-8");
    ("Cache-Control", "no-cache");
    ("Connection", "keep-alive");
    ("X-Conversation-ID", conversationId) ].

Section Endpoint.

(** [JSON.parse] ([None]: it throws a [SyntaxError]) and
    [Number.prototype.toString], which the platform provides. *)
Variable JSON_parse : string -> option value.
Variable Number_toString : Q -> string.

(** The provider behind [fetch], and what [Date.now()] and [Math.random()]
    make of [generateConversationId] in this run. *)
Variable provider : ProviderCall -> completion FetchResponse.
Variable generated_id : string.

Definition parse (s : string) : completion value :=
  match JSON_parse s with
  | Some v => Normal v
  | None => Throw (SyntaxError "Unexpected token in JSON")
  end.

(** [await response.json()] *)
Definition json (r : FetchResponse) : completion value :=
  s <~ text r ;; parse s.

(** [await fetch(url, init)]; every call is recorded. *)
Definition fetch (call : ProviderCall) : eff (list Event) FetchResponse :=
  fun trace => (provider call, (trace ++ [Fetched call])%list).

(** A call of a translator, recorded; the promise it returns is not
    awaited. *)
Definition translate {A} (streaming : bool) (promise : completion A)
  : eff (list Event) (completion A) :=
  fun trace => (Normal promise, (trace ++ [Translated streaming])%list).

Definition generateConversationId : string := generated_id.

(** [conversation_id || this.generateConversationId()] *)
Definition resolve (conversation_id : option string) : string :=
  match conversation_id with
  | Some id => if (id =? "")%string then generateConversationId else id
  | None => generateConversationId
  end.

(** ** [handleStreamResponse] *)

(** The body of [for (const line of lines)]. *)
Definition on_line (line : string) : eff Controller unit :=
  if truthy (VString (trim line)) && startsWith line "data: " then
    etry_catch
      (let jsonStr := slice 6 line in
       data <- lift (parse jsonStr) ;;
       found <- lift (candidates data &&& candidates_0 data
                      &&& candidates_0_content data) ;;
       if truthy found then
         content <- lift (candidates_0_content data) ;;
         found' <- lift (parts content &&& parts_0 content
                         &&& parts_0_text content) ;;
         if truthy found' then
           text <- lift (parts_0_text content) ;;
           enqueue (TextEncoder.encode Number_toString text)
         else eret tt
       else eret tt)
      (fun parseError => eret tt)
  else eret tt.

(** [while (true) { const { done, value } = await reader.read(); ... }] *)
Fixpoint read_loop (decoder : TextDecoder.t) (reads : list (list Byte.byte))
    (ending : Ending) : eff Controller unit :=
  match reads with
  | [] =>
      match ending with
      | EndOfData => close
      | ReadFails e => lift (Throw e)
      end
  | value :: rest =>
      let (decoder', chunk) := TextDecoder.decode decoder value in
      let lines := split LF chunk in
      for_of lines on_line ;;; read_loop decoder' rest ending
  end.

(** [async start(controller)] of the stream handed to the caller. *)
Definition start (reader : Body) : eff Controller unit :=
  etry_catch
    (read_loop TextDecoder.new (reads reader) (ending reader))
    (fun error => Web.error error).

(** Without a body, a 500; else the four header calls, the stream, and the
    response around it.  None of this is in a [try]: what a header call
    throws, [handleStreamResponse] throws. *)
Definition handleStreamResponse (c : AppContext) (response : FetchResponse)
    (conversationId : string) : completion Response :=
  match Web.body response with
  | None =>
      c_json [("success", VBool false);
              ("error", VString "无法读取流式响应")] 500
  | Some reader =>
      _ <~ c_header "Content-Type" "text/plain; charset=utf-8" ;;
      _ <~ c_header "Cache-Control" "no-cache" ;;
      _ <~ c_header "Connection" "keep-alive" ;;
      _ <~ c_header "X-Conversation-ID" conversationId ;;
      let stream := snd (start reader fresh) in
      headers <~ headers_of (stream_headers conversationId) ;;
      Normal (Streaming headers stream)
  end.

(** ** [handleNormalResponse] *)
Definition handleNormalResponse (c : AppContext) (response : FetchResponse)
    (conversationId : string) : completion Response :=
  data <~ json response ;;
  found <~ candidates data &&& candidates_0 data &&& candidates_0_content data ;;
  message <~
    (if truthy found then
       content <~ candidates_0_content data ;;
       found' <~ parts content &&& parts_0 content &&& parts_0_text content ;;
       if truthy found' then parts_0_text content else Normal (VString "")
     else Normal (VString "")) ;;
  usageMetadata <~ get data "usageMetadata" ;;
  usage <~
    (if truthy usageMetadata then
       promptTokenCount <~ get usageMetadata "promptTokenCount" ;;
       candidatesTokenCount <~ get usageMetadata "candidatesTokenCount" ;;
       totalTokenCount <~ get usageMetadata "totalTokenCount" ;;
       Normal (VObject
                 [("prompt_tokens", or_else promptTokenCount (VNumber 0));
                  ("completion_tokens", or_else candidatesTokenCount (VNumber 0));
                  ("total_tokens", or_else totalTokenCount (VNumber 0))])
     else Normal VUndefined) ;;
  c_json [("success", VBool true);
          ("conversation_id", VString conversationId);
          ("message", message);
          ("usage", usage)] 200.

(** ** [handle]

    The two translators are returned without [await], so what they throw is
    not caught by [handle]'s own [catch]: the [try] block yields their
    promise, and [handle] settles the way that promise does.  [c.json] is
    called inside the [try]: what it throws there is caught. *)
Definition handle (c : AppContext) : eff (list Event) Response :=
  promise <-
    etry_catch
      (data <- lift (getValidatedData c) ;;
       let apiKey := GEMINI_API_KEY (env c) in
       if missing apiKey then
         answer <- lift (c_json [("success", VBool false);
                                 ("error", VString "Gemini API密钥未配置")] 500) ;;
         eret (Normal answer)
       else
         let geminiRequest :=
           {| Base.Gemini.contents :=
                [ {| Base.Gemini.role := None;
                     Base.Gemini.parts := [Base.message data] |} ];
              Base.Gemini.generationConfig :=
                Some {| Base.Gemini.temperature := Some (Base.temperature data);
                        Base.Gemini.topK := None;
                        Base.Gemini.topP := None;
                        Base.Gemini.maxOutputTokens := Some (Base.max_tokens data);
                        Base.Gemini.stopSequences := None |};
              Base.Gemini.safetySettings := None |} in
         let apiUrl :=
           if Base.stream data
           then Base.BASE_URL ++ "/models/" ++ Base.STREAM_MODEL ++ ":streamGenerateContent"
           else Base.BASE_URL ++ "/models/" ++ Base.MODEL ++ ":generateContent" in
         response <- fetch {| url := apiUrl;
                              method := "POST";
                              headers := [("Content-Type", "application/json");
                                          ("X-goog-api-key", key_of apiKey)];
                              body := geminiRequest |} ;;
         if negb (ok response) then
           errorText <- lift (text response) ;;
           answer <- lift (c_json [("success", VBool false);
                                   ("error", VString ("Gemini API请求失败: "
                                                      ++ string_of_Z (status response)))]
                                  (status response)) ;;
           eret (Normal answer)
         else if Base.stream data then
           translate true (handleStreamResponse c response
                             (resolve (Base.conversation_id data)))
         else
           translate false (handleNormalResponse c response
                              (resolve (Base.conversation_id data))))
      (fun error =>
         answer <- lift (c_json [("success", VBool false);
                                 ("error", VString "处理请求时发生内部错误")] 500) ;;
         eret (Normal answer)) ;;
  lift promise.

End Endpoint.

End GeminiChat.

(* ================================================================== *)
(** * [geminiChat.ts], the variant over the provider SDK               *)
(* ================================================================== *)

Module GeminiChatSDK.

Import JS Web.

(** [await result.response] of [model.generateContent]: [text()] returns
    the reply or throws; [usageMetadata] is whatever the provider sent. *)
Record GenerateContentResponse : Type := {
  text : completion string;
  usageMetadata : value
}.

(** The request handed to the SDK. *)
Record GenerateContentRequest : Type := {
  contents : list Base.Gemini.GeminiMessage;
  generationConfig : Base.Gemini.GenerationConfig
}.

(** [model]: the part of [GenerativeModel] the buffered path calls. *)
Record GenerativeModel : Type := {
  generateContent : GenerateContentRequest -> completion GenerateContentResponse
}.

(** [handleNormalResponseWithSDK] *)
Definition handleNormalResponseWithSDK (c : AppContext) (model : GenerativeModel)
    (contents : list Base.Gemini.GeminiMessage)
    (generationConfig : Base.Gemini.GenerationConfig)
    (conversationId : string) : completion Response :=
  try_catch
    (response <~ generateContent model
                   {| contents := contents; generationConfig := generationConfig |} ;;
     message <~ text response ;;
     usage <~
       (if truthy (usageMetadata response) then
          promptTokenCount <~ get (usageMetadata response) "promptTokenCount" ;;
          candidatesTokenCount <~ get (usageMetadata response) "candidatesTokenCount" ;;
          totalTokenCount <~ get (usageMetadata response) "totalTokenCount" ;;
          Normal (VObject
                    [("prompt_tokens", or_else promptTokenCount (VNumber 0));
                     ("completion_tokens", or_else candidatesTokenCount (VNumber 0));
                     ("total_tokens", or_else totalTokenCount (VNumber 0))])
        else Normal VUndefined) ;;
     c_json [("success", VBool true);
             ("conversation_id", VString conversationId);
             ("message", VString message);
             ("usage", usage)] 200)
    (fun error =>
       c_json [("success", VBool false);
               ("error", VString "生成内容失败")] 500).

End GeminiChatSDK.

(* ================================================================== *)
(** * A reference [JSON.parse] and [Number.prototype.toString]

    The endpoint's properties are proved for any parser; this one, the JSON
    grammar of ECMA-404, runs the examples. *)
(* ================================================================== *)

Module JSON.

Import JS.

Definition is_ws (ch : ascii) : bool :=
  (ch =? " ")%char || (ch =? "009")%char || (ch =? "010")%char || (ch =? "013")%char.

Fixpoint skip_ws (s : string) : string :=
  match s with
  | EmptyString => EmptyString
  | String ch rest => if is_ws ch then skip_ws rest else s
  end.

Definition digit_of (ch : ascii) : option Z :=
  let n := N_of_ascii ch in
  if ((48 <=? n) && (n <=? 57))%N then Some (Z.of_N n - 48) else None.

Definition hex_of (ch : ascii) : option N :=
  let n := N_of_ascii ch in
  if ((48 <=? n) && (n <=? 57))%N then Some (n - 48)%N
  else if ((65 <=? n) && (n <=? 70))%N then Some (n - 55)%N
  else if ((97 <=? n) && (n <=? 102))%N then Some (n - 87)%N
  else None.

(** The leading digits of [s], read as a number after [acc], how many there
    are, and the rest. *)
Fixpoint digits (acc : Z) (count : nat) (s : string) : Z * nat * string :=
  match s with
  | EmptyString => (acc, count, s)
  | String ch rest =>
      match digit_of ch with
      | Some d => digits (10 * acc + d) (S count) rest
      | None => (acc, count, s)
      end
  end.

(** The UTF-8 encoding of a code point. *)
Definition utf8 (cp : N) : string :=
  (if cp <? 128 then of_codes [cp]
   else if cp <? 2048 then of_codes [192 + cp / 64; 128 + cp mod 64]
   else if cp <? 65536 then
     of_codes [224 + cp / 4096; 128 + (cp / 64) mod 64; 128 + cp mod 64]
   else
     of_codes [240 + cp / 262144; 128 + (cp / 4096) mod 64;
               128 + (cp / 64) mod 64; 128 + cp mod 64])%N.

Definition high_surrogate (u : N) : bool := ((55296 <=? u) && (u <=? 56319))%N.
Definition low_surrogate (u : N) : bool := ((56320 <=? u) && (u <=? 57343))%N.

(** The content of a string literal: bytes as written, and the code units
    of [\uXXXX] escapes, a surrogate pair making one code point.  A lone
    surrogate is written as U+FFFD, which is how it leaves a [TextEncoder]. *)
Fixpoint of_units (units : list (ascii + N)) : string :=
  match units with
  | [] => ""
  | inl ch :: rest => String ch (of_units rest)
  | inr u :: rest =>
      if high_surrogate u then
        match rest with
        | inr v :: rest' =>
            if low_surrogate v
            then utf8 (65536 + (u - 55296) * 1024 + (v - 56320))%N ++ of_units rest'
            else TextDecoder.REPLACEMENT ++ of_units rest
        | _ => TextDecoder.REPLACEMENT ++ of_units rest
        end
      else if low_surrogate u then TextDecoder.REPLACEMENT ++ of_units rest
      else utf8 u ++ of_units rest
  end.

(** A string literal after its opening quote. *)
Fixpoint parse_chars (s : string) : option (list (ascii + N) * string) :=
  match s with
  | EmptyString => None
  | String ch rest =>
      if (ch =? "034")%char then Some ([], rest)
      else if (N_of_ascii ch <? 32)%N then None
      else if (ch =? "\")%char then
        match rest with
        | EmptyString => None
        | String e rest1 =>
            let simple (x : ascii) :=
              match parse_chars rest1 with
              | Some (us, r) => Some (inl x :: us, r)
              | None => None
              end in
            if (e =? "034")%char then simple "034"%char
            else if (e =? "\")%char then simple "\"%char
            else if (e =? "/")%char then simple "/"%char
            else if (e =? "b")%char then simple "008"%char
            else if (e =? "f")%char then simple "012"%char
            else if (e =? "n")%char then simple "010"%char
            else if (e =? "r")%char then simple "013"%char
            else if (e =? "t")%char then simple "009"%char
            else if (e =? "u")%char then
              match rest1 with
              | String h1 (String h2 (String h3 (String h4 rest2))) =>
                  match hex_of h1, hex_of h2, hex_of h3, hex_of h4 with
                  | Some a, Some b, Some c, Some d =>
                      match parse_chars rest2 with
                      | Some (us, r) =>
                          Some (inr (a * 4096 + b * 256 + c * 16 + d)%N :: us, r)
                      | None => None
                      end
                  | _, _, _, _ => None
                  end
              | _ => None
              end
            else None
        end
      else
        match parse_chars rest with
        | Some (us, r) => Some (inl ch :: us, r)
        | None => None
        end
  end.

Definition parse_string (s : string) : option (string * string) :=
  match parse_chars s with
  | Some (us, r) => Some (of_units us, r)
  | None => None
  end.

(** [m * 10 ^ e] *)
Definition scale (m e : Z) : Q :=
  if 0 <=? e then (m * 10 ^ e) # 1 else m # Z.to_pos (10 ^ (- e)).

(** A number: an optional minus sign, an integer part without leading
    zeros, an optional fraction and an optional exponent. *)
Definition parse_number (s : string) : option (value * string) :=
  let (negative, s1) :=
    match s with
    | String ch rest => if (ch =? "-")%char then (true, rest) else (false, s)
    | EmptyString => (false, s)
    end in
  let '(int, n_int, s2) := digits 0 0 s1 in
  let leading_zero :=
    match s1 with
    | String ch _ => (ch =? "0")%char
    | EmptyString => false
    end in
  if (n_int =? 0)%nat || (leading_zero && (1 <? n_int)%nat) then None
  else
    let after_frac :=
      match s2 with
      | String ch rest =>
          if (ch =? ".")%char then
            let '(m, n, s3) := digits int 0 rest in
            if (n =? 0)%nat then None else Some (m, Z.of_nat n, s3)
          else Some (int, 0, s2)
      | EmptyString => Some (int, 0, s2)
      end in
    match after_frac with
    | None => None
    | Some (m, k, s3) =>
        let after_exp :=
          match s3 with
          | String ch rest =>
              if (ch =? "e")%char || (ch =? "E")%char then
                let (sign, rest') :=
                  match rest with
                  | String sg r =>
                      if (sg =? "-")%char then (-1, r)
                      else if (sg =? "+")%char then (1, r)
                      else (1, rest)
                  | EmptyString => (1, rest)
                  end in
                let '(e, n, s4) := digits 0 0 rest' in
                if (n =? 0)%nat then None else Some (sign * e, s4)
              else Some (0, s3)
          | EmptyString => Some (0, s3)
          end in
        match after_exp with
        | None => None
        | Some (e, s4) =>
            let m' := if negative then - m else m in
            Some (VNumber (scale m' (e - k)), s4)
        end
    end.

Fixpoint parse_value (fuel : nat) (s : string) : option (value * string) :=
  match fuel with
  | O => None
  | S fuel' =>
      let s := skip_ws s in
      match s with
      | EmptyString => None
      | String ch rest =>
          if (ch =? "{")%char then
            match skip_ws rest with
            | EmptyString => None
            | String ch' rest' =>
                if (ch' =? "}")%char then Some (VObject [], rest')
                else
                  match parse_members fuel' (String ch' rest') with
                  | Some (fields, r) => Some (VObject fields, r)
                  | None => None
                  end
            end
          else if (ch =? "[")%char then
            match skip_ws rest with
            | EmptyString => None
            | String ch' rest' =>
                if (ch' =? "]")%char then Some (VArray [], rest')
                else
                  match parse_elements fuel' (String ch' rest') with
                  | Some (xs, r) => Some (VArray xs, r)
                  | None => None
                  end
            end
          else if (ch =? "034")%char then
            match parse_string rest with
            | Some (str, r) => Some (VString str, r)
            | None => None
            end
          else if startsWith s "true" then Some (VBool true, slice 4 s)
          else if startsWith s "false" then Some (VBool false, slice 5 s)
          else if startsWith s "null" then Some (VNull, slice 4 s)
          else parse_number s
      end
  end
with parse_elements (fuel : nat) (s : string) : option (list value * string) :=
  match fuel with
  | O => None
  | S fuel' =>
      match parse_value fuel' s with
      | Some (x, r) =>
          match skip_ws r with
          | EmptyString => None
          | String ch r' =>
              if (ch =? ",")%char then
                match parse_elements fuel' r' with
                | Some (xs, r'') => Some (x :: xs, r'')
                | None => None
                end
              else if (ch =? "]")%char then Some ([x], r')
              else None
          end
      | None => None
      end
  end
with parse_members (fuel : nat) (s : string) : option (list (string * value) * string) :=
  match fuel with
  | O => None
  | S fuel' =>
      match skip_ws s with
      | EmptyString => None
      | String q r =>
          if (q =? "034")%char then
            match parse_string r with
            | Some (key, r1) =>
                match skip_ws r1 with
                | EmptyString => None
                | String colon r2 =>
                    if (colon =? ":")%char then
                      match parse_value fuel' r2 with
                      | Some (x, r3) =>
                          match skip_ws r3 with
                          | EmptyString => None
                          | String ch r4 =>
                              if (ch =? ",")%char then
                                match parse_members fuel' r4 with
                                | Some (fields, r5) => Some ((key, x) :: fields, r5)
                                | None => None
                                end
                              else if (ch =? "}")%char then Some ([(key, x)], r4)
                              else None
                          end
                      | None => None
                      end
                    else None
                end
            | None => None
            end
          else None
      end
  end.

(** [JSON.parse(s)]; [None] where it throws.  Every recursive call follows
    at least one consumed character, so twice the length is fuel enough. *)
Definition parse (s : string) : option value :=
  match parse_value (2 * String.length s + 2) s with
  | Some (v, rest) =>
      match skip_ws rest with
      | EmptyString => Some v
      | String _ _ => None
      end
  | None => None
  end.

Fixpoint fraction (fuel : nat) (r d : Z) : string :=
  match fuel with
  | O => ""
  | S fuel' =>
      if r =? 0 then ""
      else string_of_Z ((10 * r) / d) ++ fraction fuel' ((10 * r) mod d) d
  end.

(** [String(q)] for a number with a short decimal expansion. *)
Definition Number_toString (q : Q) : string :=
  let d := Z.pos (Qden q) in
  let a := Z.abs (Qnum q) in
  (if Qnum q <? 0 then "-" else "")
  ++ string_of_Z (a / d)
  ++ (if a mod d =? 0 then "" else "." ++ fraction 17 (a mod d) d).

End JSON.

(* ================================================================== *)
(** * The vocabulary of the specification                              *)
(* ================================================================== *)

Module Spec.

Import JS Web.

(** ** Provider documents and events

    [{ candidates?: [ { content?: { parts?: [ { text? } ] } } ],
       usageMetadata?: { promptTokenCount?, candidatesTokenCount?,
                         totalTokenCount? } }]: every field may be missing
    (or [null]); one that is there has the type the provider documents.
    Other fields are not looked at. *)

Definition is_part (v : value) : bool :=
  match v with
  | VObject fields =>
      match Base.field fields "text" with
      | VUndefined | VNull | VString _ => true
      | _ => false
      end
  | _ => false
  end.

Definition is_content (v : value) : bool :=
  match v with
  | VObject fields =>
      match Base.field fields "parts" with
      | VUndefined | VNull => true
      | VArray ps => forallb is_part ps
      | _ => false
      end
  | _ => false
  end.

Definition is_candidate (v : value) : bool :=
  match v with
  | VObject fields =>
      match Base.field fields "content" with
      | VUndefined | VNull => true
      | content => is_content content
      end
  | _ => false
  end.

Definition is_counter (v : value) : bool :=
  match v with
  | VUndefined | VNull | VNumber _ => true
  | _ => false
  end.

Definition is_usage (v : value) : bool :=
  match v with
  | VObject fields =>
      is_counter (Base.field fields "promptTokenCount")
      && is_counter (Base.field fields "candidatesTokenCount")
      && is_counter (Base.field fields "totalTokenCount")
  | _ => false
  end.

Definition provider_document (v : value) : bool :=
  match v with
  | VObject fields =>
      match Base.field fields "candidates" with
      | VUndefined | VNull => true
      | VArray cs => forallb is_candidate cs
      | _ => false
      end
      &&
      match Base.field fields "usageMetadata" with
      | VUndefined | VNull => true
      | usage => is_usage usage
      end
  | _ => false
  end.

(** The first candidate of a document, the first part of a candidate, the
    text of a part. *)
Definition first_candidate (doc : value) : option value :=
  match doc with
  | VObject fields =>
      match lookup "candidates" fields with
      | Some (VArray (candidate :: _)) => Some candidate
      | _ => None
      end
  | _ => None
  end.

Definition first_part (candidate : value) : option value :=
  match candidate with
  | VObject fields =>
      match lookup "content" fields with
      | Some (VObject content) =>
          match lookup "parts" content with
          | Some (VArray (part :: _)) => Some part
          | _ => None
          end
      | _ => None
      end
  | _ => None
  end.

Definition part_text (part : value) : option string :=
  match part with
  | VObject fields =>
      match lookup "text" fields with
      | Some (VString s) => Some s
      | _ => None
      end
  | _ => None
  end.

(** The first text part of the first candidate, if the document has one. *)
Definition first_text (doc : value) : option string :=
  match first_candidate doc with
  | Some candidate =>
      match first_part candidate with
      | Some part => part_text part
      | None => None
      end
  | None => None
  end.

Definition text_or_empty (doc : value) : string :=
  match first_text doc with
  | Some s => s
  | None => ""
  end.

(** The usage-metadata block of a document, if it has one. *)
Definition usage_block (doc : value) : option (list (string * value)) :=
  match doc with
  | VObject fields =>
      match lookup "usageMetadata" fields with
      | Some (VObject block) => Some block
      | _ => None
      end
  | _ => None
  end.

(** [undefined] or [null]: the values one cannot read a property of. *)
Definition nullish (v : value) : bool :=
  match v with
  | VUndefined | VNull => true
  | _ => false
  end.

(** ** What the code reads, without the exceptions

    [v.name] and [v[0]] where reading from [undefined] or [null] gives
    [undefined] (optional chaining). *)
Definition prop (v : value) (name : string) : value :=
  match get v name with
  | Normal x => x
  | Throw _ => VUndefined
  end.

Definition item0 (v : value) : value :=
  match index0 v with
  | Normal x => x
  | Throw _ => VUndefined
  end.

(** [data?.candidates?.[0]?.content?.parts?.[0]?.text] *)
Definition content_of (data : value) : value :=
  prop (item0 (prop data "candidates")) "content".

Definition text_of (content : value) : value :=
  prop (item0 (prop content "parts")) "text".

Definition first_text_value (data : value) : value :=
  text_of (content_of data).

(** The message of the buffered response. *)
Definition message_of (data : value) : value :=
  if truthy (first_text_value data) then first_text_value data else VString "".

(** [x || 0] of one counter of a usage-metadata block. *)
Definition counter (block : value) (name : string) : value :=
  or_else (prop block name) (VNumber 0).

Definition usage_of (block : value) : value :=
  VObject [("prompt_tokens", counter block "promptTokenCount");
           ("completion_tokens", counter block "candidatesTokenCount");
           ("total_tokens", counter block "totalTokenCount")].

(** [block ? { ... } : undefined] *)
Definition usage_computed (usageMetadata : value) : value :=
  if truthy usageMetadata then usage_of usageMetadata else VUndefined.

(** A message that is white space only (and not empty). *)
Definition whitespace_only (s : string) : bool :=
  negb (s =? "")%string && (trim s =? "")%string.

(** The [message] of the inbound object is missing or the empty string. *)
Definition message_missing_or_empty (raw : value) : bool :=
  match raw with
  | VObject fields =>
      match Base.field fields "message" with
      | VUndefined => true
      | VString s => (s =? "")%string
      | _ => false
      end
  | _ => false
  end.

Section Stream.

Variable JSON_parse : string -> option value.
Variable Number_toString : Q -> string.

(** The event of a line: the parsed payload of a line that begins with
    [data: ] and parses. *)
Definition event_of_line (line : string) : option value :=
  if startsWith line "data: " then JSON_parse (slice 6 line) else None.

(** The text of each read, the decoder going from one read to the next. *)
Fixpoint decoded (d : TextDecoder.t) (reads : list (list Byte.byte)) : list string :=
  match reads with
  | [] => []
  | value :: rest =>
      let (d', chunk) := TextDecoder.decode d value in
      chunk :: decoded d' rest
  end.

(** The lines the translator looks at: each read, decoded in its turn, is
    cut at its own line feeds.  A line of the provider that lies across two
    reads is two lines here. *)
Definition read_lines (d : TextDecoder.t) (reads : list (list Byte.byte)) : list string :=
  flat_map (split LF) (decoded d reads).

(** The lines of the provider stream, as the specification has them: the
    text of all its bytes (a sequence left unfinished at the very end is no
    text yet), cut at the line feeds of that text, wherever the reads
    fall. *)
Definition stream_text (reads : list (list Byte.byte)) : string :=
  snd (TextDecoder.decode TextDecoder.new (List.concat reads)).

Definition stream_lines (reads : list (list Byte.byte)) : list string :=
  split LF (stream_text reads).

Fixpoint events_of (lines : list string) : list value :=
  match lines with
  | [] => []
  | line :: rest =>
      match event_of_line line with
      | Some data => data :: events_of rest
      | None => events_of rest
      end
  end.

(** The events of the lines the translator looks at, in order. *)
Definition read_events (reads : list (list Byte.byte)) : list value :=
  events_of (read_lines TextDecoder.new reads).

(** Every successfully parsed [data: ] line of the provider stream, in
    order. *)
Definition stream_events (reads : list (list Byte.byte)) : list value :=
  events_of (stream_lines reads).

(** What one event puts on the caller's stream. *)
Definition forwarded (data : value) : list (list Byte.byte) :=
  if truthy (first_text_value data)
  then [TextEncoder.encode Number_toString (first_text_value data)]
  else [].

Definition line_output (line : string) : list (list Byte.byte) :=
  match event_of_line line with
  | Some data => forwarded data
  | None => []
  end.

End Stream.

End Spec.

(* ================================================================== *)
(** * Inputs for the examples                                          *)
(* ================================================================== *)

Module Examples.

Import JS Web.

(** JSON text, written with ['] where the text has a double quote. *)
Fixpoint json_text (s : string) : string :=
  match s with
  | EmptyString => EmptyString
  | String ch rest =>
      String (if (ch =? "'")%char then "034"%char else ch) (json_text rest)
  end.

Definition bytes (s : string) : list Byte.byte := list_byte_of_string s.

Definition nl : string := String LF "".

(** Lines of a provider stream. *)
Definition event_line (text : string) : string :=
  json_text ("data: {'candidates':[{'content':{'parts':[{'text':'" ++ text ++ "'}]}}]}").

Definition empty_event_line : string := json_text "data: {'candidates':[]}".
Definition corrupt_line : string := json_text "data: {'candidates':[{'content'".
Definition comment_line : string := ": keep-alive".

(** A provider document, and one without usage metadata. *)
Definition document : string :=
  json_text ("{'candidates':[{'content':{'parts':[{'text':'hello'}]}}],"
             ++ "'usageMetadata':{'promptTokenCount':1,'candidatesTokenCount':1,"
             ++ "'totalTokenCount':2}}").

Definition document_without_usage : string :=
  json_text "{'candidates':[{'content':{'parts':[{'text':'hello'}]}}]}".

Definition document_with_partial_usage : string :=
  json_text ("{'candidates':[{'content':{'parts':[{'text':'hello'}]}}],"
             ++ "'usageMetadata':{'promptTokenCount':7,'totalTokenCount':0}}").

(** The documents as [JSON.parse] reads them. *)
Definition parsed (text : string) : value :=
  match JSON.parse text with
  | Some v => v
  | None => VUndefined
  end.

Definition document_value : value := Eval vm_compute in parsed document.

Definition partial_usage_value : value :=
  Eval vm_compute in parsed document_with_partial_usage.

Definition partial_block : list (string * value) :=
  [("promptTokenCount", VNumber 7); ("totalTokenCount", VNumber 0)].

(** A stream of the provider in two reads: two events with a text, a blank
    line, a comment, a line cut short, and an event without candidates. *)
Definition two_reads : list string :=
  [ event_line "Hel" ++ nl ++ nl ++ comment_line ++ nl ++ corrupt_line ++ nl
      ++ empty_event_line ++ nl;
    event_line "lo" ++ nl ].

(** A response of the provider: a status and a body in reads. *)
Definition upstream (status : Z) (reads : list string) (ending : Ending) : FetchResponse :=
  {| Web.status := status;
     Web.body := Some {| Web.reads := map bytes reads; Web.ending := ending |} |}.

(** A provider that answers every call with [response]. *)
Definition answering (response : FetchResponse)
  : GeminiChat.ProviderCall -> completion FetchResponse :=
  fun _ => Normal response.

(** An inbound request body. *)
Definition chat (message : string) (stream : bool) : value :=
  VObject [("message", VString message); ("stream", VBool stream)].

Definition context (raw : value) (apiKey : option string) : AppContext :=
  {| env := {| GEMINI_API_KEY := apiKey |}; req_json := raw |}.

(** An SDK model that answers with [reply]. *)
Definition sdk_model (reply : GeminiChatSDK.GenerateContentResponse)
  : GeminiChatSDK.GenerativeModel :=
  {| GeminiChatSDK.generateContent := fun _ => Normal reply |}.

Definition no_config : Base.Gemini.GenerationConfig :=
  {| Base.Gemini.temperature := None; Base.Gemini.topK := None;
     Base.Gemini.topP := None; Base.Gemini.maxOutputTokens := None;
     Base.Gemini.stopSequences := None |}.

End Examples.

(* ================================================================== *)
(** * [base.ts]: what the [GeminiRequest] schema accepts               *)
(* ================================================================== *)

Module GeminiRequestSchema.

Import Base.Gemini.

(** [z.number().min(lo).max(hi).optional()] *)
Definition within (lo hi : Q) (x : option Q) : bool :=
  match x with
  | None => true
  | Some q => Qle_bool lo q && Qle_bool q hi
  end.

(** The [generationConfig] object: [temperature] in [0, 2], [topP] in
    [0, 1]; the other fields are constrained by their type alone. *)
Definition GenerationConfig_accepts (g : GenerationConfig) : bool :=
  within 0 2 (temperature g) && within 0 1 (topP g).

(** [GeminiRequest.safeParse(r).success] on a value of the inferred type. *)
Definition accepts (r : GeminiRequest) : bool :=
  match generationConfig r with
  | None => true
  | Some g => GenerationConfig_accepts g
  end.

End GeminiRequestSchema.

(* ================================================================== *)
(** * [geminiChat.ts]: [generateConversationId]                        *)
(* ================================================================== *)

Module ConversationId.

Import JS.

Fixpoint take (n : nat) (s : string) : string :=
  match n, s with
  | O, _ => EmptyString
  | S _, EmptyString => EmptyString
  | S n', String ch rest => String ch (take n' rest)
  end.

(** [s.substr(start, length)] for [start, length >= 0]. *)
Definition substr (start length : nat) (s : string) : string :=
  take length (slice start s).

(** [generateConversationId()] when [Date.now()] is [now] and
    [Math.random().toString(36)] is [random36]:
    [`conv_${now}_${random36.substr(2, 9)}`]. *)
Definition generateConversationId (now : Z) (random36 : string) : string :=
  "conv_" ++ string_of_Z now ++ "_" ++ substr 2 9 random36.

End ConversationId.

(* ================================================================== *)
(** * [geminiChat.ts], the variant over the provider SDK: [handle] and
      the streaming translator                                         *)
(* ================================================================== *)

Module GeminiChatSDKEndpoint.

Import JS Web.

(** [await model.generateContentStream(...)]: [result.stream] hands out
    chunks, whose [text()] returns a string or throws, and ends the way a
    body does. *)
Record GenerateContentStreamResult : Type := {
  stream : list (completion string);
  stream_ending : Ending
}.

(** [model], with the two calls the endpoint makes. *)
Record Model : Type := {
  buffered : GeminiChatSDK.GenerativeModel;
  generateContentStream :
    GeminiChatSDK.GenerateContentRequest -> completion GenerateContentStreamResult
}.

(** What is recorded of one request: the call of a translator, with the
    request it hands to the SDK. *)
Inductive Event : Type :=
| Invoked (streaming : bool) (request : GeminiChatSDK.GenerateContentRequest).

(** [for await (const chunk of result.stream) { ... }] *)
Fixpoint for_await (chunks : list (completion string)) (ending : Ending)
  : eff Controller unit :=
  match chunks with
  | [] =>
      match ending with
      | EndOfData => eret tt
      | ReadFails e => lift (Throw e)
      end
  | chunk :: rest =>
      text <- lift chunk ;;
      (if truthy (VString text) then enqueue (list_byte_of_string text)
       else eret tt) ;;;
      for_await rest ending
  end.

(** [async start(controller)] of the stream handed to the caller. *)
Definition start (model : Model) (contents : list Base.Gemini.GeminiMessage)
    (generationConfig : Base.Gemini.GenerationConfig) : eff Controller unit :=
  etry_catch
    (result <- lift (generateContentStream model
                       {| GeminiChatSDK.contents := contents;
                          GeminiChatSDK.generationConfig := generationConfig |}) ;;
     for_await (stream result) (stream_ending result) ;;;
     close)
    (fun error => Web.error error).

(** [handleStreamResponseWithSDK]: the outer [catch] takes what [c.header]
    and [new Response] throw for a conversation identifier that is no header
    value. *)
Definition handleStreamResponseWithSDK (c : AppContext) (model : Model)
    (contents : list Base.Gemini.GeminiMessage)
    (generationConfig : Base.Gemini.GenerationConfig)
    (conversationId : string) : completion Response :=
  try_catch
    (_ <~ c_header "Content-Type" "text/plain; charset=utf-8" ;;
     _ <~ c_header "Cache-Control" "no-cache" ;;
     _ <~ c_header "Connection" "keep-alive" ;;
     _ <~ c_header "X-Conversation-ID" conversationId ;;
     let stream := snd (start model contents generationConfig fresh) in
     headers <~ headers_of (GeminiChat.stream_headers conversationId) ;;
     Normal (Streaming headers stream))
    (fun error =>
       c_json [("success", VBool false);
               ("error", VString "创建流式响应失败")] 500).

Section Endpoint.

(** [new GoogleGenerativeAI(apiKey).getGenerativeModel({ model })], and the
    identifier [generateConversationId] makes in this run. *)
Variable getGenerativeModel : string -> string -> Model.
Variable generated_id : string.

(** A call of a translator, recorded; the promise it returns is not
    awaited. *)
Definition translate {A} (streaming : bool)
    (request : GeminiChatSDK.GenerateContentRequest) (promise : completion A)
  : eff (list Event) (completion A) :=
  fun trace => (Normal promise, (trace ++ [Invoked streaming request])%list).

(** [handle] *)
Definition handle (c : AppContext) : eff (list Event) Response :=
  promise <-
    etry_catch
      (data <- lift (getValidatedData c) ;;
       let apiKey := GEMINI_API_KEY (env c) in
       if GeminiChat.missing apiKey then
         answer <- lift (c_json [("success", VBool false);
                                 ("error", VString "Gemini API密钥未配置")] 500) ;;
         eret (Normal answer)
       else
         let model := getGenerativeModel (GeminiChat.key_of apiKey) "gemini-2.0-flash" in
         let contents :=
           [ {| Base.Gemini.role := Some Base.Gemini.user;
                Base.Gemini.parts := [Base.message data] |} ] in
         let generationConfig :=
           {| Base.Gemini.temperature := Some (Base.temperature data);
              Base.Gemini.topK := None;
              Base.Gemini.topP := None;
              Base.Gemini.maxOutputTokens := Some (Base.max_tokens data);
              Base.Gemini.stopSequences := None |} in
         let conversationId :=
           GeminiChat.resolve generated_id (Base.conversation_id data) in
         let request :=
           {| GeminiChatSDK.contents := contents;
              GeminiChatSDK.generationConfig := generationConfig |} in
         if Base.stream data then
           translate true request
             (handleStreamResponseWithSDK c model contents generationConfig
                conversationId)
         else
           translate false request
             (GeminiChatSDK.handleNormalResponseWithSDK c (buffered model) contents
                generationConfig conversationId))
      (fun error =>
         answer <- lift (c_json [("success", VBool false);
                                 ("error", VString "处理请求时发生内部错误")] 500) ;;
         eret (Normal answer)) ;;
  lift promise.

End Endpoint.

End GeminiChatSDKEndpoint.

(* ================================================================== *)
(** * [index.ts]: the CORS middleware                                  *)
(* ================================================================== *)

Module Headers.

(** A [Headers] object: names are kept in lower case, and a name has one
    value. *)
Definition t : Type := list (string * string).

Definition lower_char (ch : ascii) : ascii :=
  let n := N_of_ascii ch in
  if ((65 <=? n) && (n <=? 90))%N then ascii_of_N (n + 32) else ch.

Fixpoint lower (s : string) : string :=
  match s with
  | EmptyString => EmptyString
  | String ch rest => String (lower_char ch) (lower rest)
  end.

Fixpoint remove (name : string) (h : t) : t :=
  match h with
  | [] => []
  | (k, v) :: rest =>
      if (k =? name)%string then remove name rest else (k, v) :: remove name rest
  end.

(** [headers.set(name, value)] *)
Definition set (name value : string) (h : t) : t :=
  (remove (lower name) h ++ [(lower name, value)])%list.

Fixpoint find (name : string) (h : t) : option string :=
  match h with
  | [] => None
  | (k, v) :: rest => if (k =? name)%string then Some v else find name rest
  end.

(** [headers.get(name)] *)
Definition get (name : string) (h : t) : option string :=
  find (lower name) h.

(** [new Headers({ ... })] *)
Fixpoint of_entries (entries : list (string * string)) (h : t) : t :=
  match entries with
  | [] => h
  | (k, v) :: rest => of_entries rest (set k v h)
  end.

End Headers.

Module Index.

Import JS.

(** What the middleware reads of the request: [c.req.method] and
    [c.req.header("Origin")], a header value as the platform hands it out
    (one that [headers.set] takes as it is). *)
Record Request : Type := {
  method : string;
  Origin : option string
}.

(** A response: its status, its headers and its body ([None] for
    [null]). *)
Record Reply (B : Type) : Type := {
  status : Z;
  headers : Headers.t;
  body : option B
}.

Arguments status {B} r.
Arguments headers {B} r.
Arguments body {B} r.

(** [c.req.header("Origin") || "*"] *)
Definition origin_of (req : Request) : string :=
  match Origin req with
  | Some o => if (o =? "")%string then "*" else o
  | None => "*"
  end.

(** Hono's [c.res = response] when the context has a response already, as
    it has once the middleware has touched [c.res]: every header of the old
    response, but [content-type], is set on the new one.  (A [set-cookie] is
    appended after the new response's own are deleted, which is [set] where a
    name has one value.) *)
Definition assign {B} (old : Headers.t) (response : Reply B) : Reply B :=
  {| status := status response;
     headers :=
       fold_left
         (fun h entry =>
            if (fst entry =? "content-type")%string then h
            else Headers.set (fst entry) (snd entry) h)
         old (headers response);
     body := body response |}.

Section Middleware.

(** The handler the request is routed to, with its own state [S]: what it
    reads of the context are the headers of [c.res], and it returns its
    response, which Hono assigns to [c.res]. *)
Variables S B : Type.
Variable next : Headers.t -> eff S (Reply B).

(** [app.use("*", async (c, next) => { ... })].  The middleware is the first
    one registered, so [c.res] is the response Hono makes on first access;
    the one header that response may carry, its [content-type], is never
    copied by [assign] and is left out.  The response the middleware returns
    for a preflight request is assigned to [c.res] as a handler's is. *)
Definition cors (req : Request) : eff S (Reply B) :=
  let origin := origin_of req in
  let res :=
    Headers.set "Access-Control-Max-Age" "86400"
      (Headers.set "Access-Control-Allow-Credentials" "true"
         (Headers.set "Access-Control-Allow-Headers" "Content-Type, Authorization"
            (Headers.set "Access-Control-Allow-Methods" "GET, POST, PUT, DELETE, OPTIONS"
               (Headers.set "Access-Control-Allow-Origin" origin [])))) in
  if (method req =? "OPTIONS")%string then
    eret (assign res
            {| status := 204;
               headers :=
                 Headers.of_entries
                   [("Access-Control-Allow-Origin", origin);
                    ("Access-Control-Allow-Methods", "GET, POST, PUT, DELETE, OPTIONS");
                    ("Access-Control-Allow-Headers", "Content-Type, Authorization");
                    ("Access-Control-Allow-Credentials", "true");
                    ("Access-Control-Max-Age", "86400");
                    ("Vary", "Origin")] [];
               body := None |})
  else
    handled <- next res ;;
    let reply := assign res handled in
    eret {| status := status reply;
            headers :=
              Headers.set "Vary" "Origin"
                (Headers.set "Access-Control-Allow-Origin" origin (headers reply));
            body := body reply |}.

End Middleware.

End Index.

(* ================================================================== *)
(** * More vocabulary                                                  *)
(* ================================================================== *)

Module Vocabulary.

Import JS Web.

(** The provider call [handle] builds for a validated request. *)
Definition call_of (data : Base.ChatRequest) (apiKey : string) : GeminiChat.ProviderCall :=
  {| GeminiChat.url :=
       if Base.stream data
       then Base.BASE_URL ++ "/models/" ++ Base.STREAM_MODEL ++ ":streamGenerateContent"
       else Base.BASE_URL ++ "/models/" ++ Base.MODEL ++ ":generateContent";
     GeminiChat.method := "POST";
     GeminiChat.headers := [("Content-Type", "application/json");
                            ("X-goog-api-key", apiKey)];
     GeminiChat.body :=
       {| Base.Gemini.contents :=
            [ {| Base.Gemini.role := None;
                 Base.Gemini.parts := [Base.message data] |} ];
          Base.Gemini.generationConfig :=
            Some {| Base.Gemini.temperature := Some (Base.temperature data);
                    Base.Gemini.topK := None;
                    Base.Gemini.topP := None;
                    Base.Gemini.maxOutputTokens := Some (Base.max_tokens data);
                    Base.Gemini.stopSequences := None |};
          Base.Gemini.safetySettings := None |} |}.

(** The envelope of the catch-all of [handle]. *)
Definition internal_error : Response :=
  json_response [("success", VBool false);
                 ("error", VString "处理请求时发生内部错误")] 500.

(** The envelope [handle] makes of a non-success status of the provider. *)
Definition mirrored (status : Z) : Response :=
  json_response [("success", VBool false);
                 ("error", VString ("Gemini API请求失败: " ++ string_of_Z status))] status.

(** The statuses a response with a body can have. *)
Definition carries_body (status : Z) : bool :=
  (200 <=? status) && (status <=? 599) && negb (null_body_status status).

(** The value of a header. *)
Fixpoint header (name : string) (headers : list (string * string)) : option string :=
  match headers with
  | [] => None
  | (k, v) :: rest => if (k =? name)%string then Some v else header name rest
  end.

(** An optional field of an inbound object. *)
Definition optional {A} (inject : A -> value) (x : option A) : value :=
  match x with
  | Some a => inject a
  | None => VUndefined
  end.

Definition or_default {A} (dflt : A) (x : option A) : A :=
  match x with
  | Some a => a
  | None => dflt
  end.

(** [x] is missing or lies in [lo, hi]. *)
Definition in_range (lo hi : Q) (x : option Q) : bool :=
  match x with
  | None => true
  | Some q => Qle_bool lo q && Qle_bool q hi
  end.

(** The headers the CORS middleware writes, as a [Headers] object names
    them. *)
Definition cors_headers : list string :=
  [ "access-control-allow-origin"; "access-control-allow-methods";
    "access-control-allow-headers"; "access-control-allow-credentials";
    "access-control-max-age"; "vary" ].

(** The text ends with a line feed. *)
Fixpoint ends_with_LF (s : string) : bool :=
  match s with
  | EmptyString => false
  | String ch EmptyString => (ch =? LF)%char
  | String _ rest => ends_with_LF rest
  end.

(** Every read, decoded in its turn, ends with a line feed. *)
Fixpoint aligned (d : TextDecoder.t) (reads : list (list Byte.byte)) : bool :=
  match reads with
  | [] => true
  | value :: rest =>
      let (d', chunk) := TextDecoder.decode d value in
      ends_with_LF chunk && aligned d' rest
  end.

(** The texts of the chunks of an SDK stream up to the first [text()] that
    throws, and what ends the stream: that exception, or its own ending. *)
Fixpoint texts_until_failure (chunks : list (completion string)) (ending : Ending)
  : list string * Ending :=
  match chunks with
  | [] => ([], ending)
  | Throw e :: _ => ([], ReadFails e)
  | Normal text :: rest =>
      let (texts, ending') := texts_until_failure rest ending in
      (text :: texts, ending')
  end.

(** The fragments of these texts: the empty ones are left out. *)
Definition fragments (texts : list string) : list (list Byte.byte) :=
  map list_byte_of_string (filter (fun text => negb (text =? "")%string) texts).

End Vocabulary.

(* ================================================================== *)
(** * More inputs for the examples                                     *)
(* ================================================================== *)

Module MoreExamples.

Import JS Web Examples.

Definition valid_request (stream : bool) : Base.ChatRequest :=
  {| Base.message := "hi"; Base.conversation_id := None;
     Base.temperature := 7 # 10; Base.max_tokens := 1024;
     Base.stream := stream |}.

(** A request that names its conversation. *)
Definition chat_in (conversation_id : string) (stream : bool) : value :=
  VObject [("message", VString "hi");
           ("conversation_id", VString conversation_id);
           ("stream", VBool stream)].

(** A request with its sampling parameters. *)
Definition chat_with (temperature max_tokens : Q) : value :=
  VObject [("message", VString "hi");
           ("temperature", VNumber temperature);
           ("max_tokens", VNumber max_tokens)].

(** A provider that cannot be reached. *)
Definition unreachable : GeminiChat.ProviderCall -> completion FetchResponse :=
  fun _ => Throw (NetworkError "fetch failed").

(** A success status without a body. *)
Definition bodiless : FetchResponse := {| Web.status := 200; Web.body := None |}.

(** Three reads, each of whole lines. *)
Definition line_reads : list string :=
  [ event_line "Hel" ++ nl;
    comment_line ++ nl ++ event_line "lo" ++ nl;
    nl ].



End MoreExamples.

(* ================================================================== *)
(** * Facts about the JavaScript fragment                              *)
(* ================================================================== *)

Import JS Web Spec.

(** ** What [c.json] and the header calls do on this program's arguments *)

Lemma c_json_200 (object : list (string * value)) :
  c_json object 200 = Normal (json_response object 200).
Proof. reflexivity. Qed.

Lemma c_json_500 (object : list (string * value)) :
  c_json object 500 = Normal (json_response object 500).
Proof. reflexivity. Qed.

Lemma c_json_cases (object : list (string * value)) (status : Z) :
  if Vocabulary.carries_body status
  then c_json object status = Normal (json_response object status)
  else exists e, c_json object status = Throw e.
Proof.
  unfold Vocabulary.carries_body, c_json.
  destruct (status <? 200) eqn:H1.
  - apply Z.ltb_lt in H1.
    replace (200 <=? status) with false by (symmetry; apply Z.leb_gt; exact H1).
    cbn. eexists. reflexivity.
  - apply Z.ltb_ge in H1.
    replace (200 <=? status) with true by (symmetry; apply Z.leb_le; exact H1).
    destruct (599 <? status) eqn:H2.
    + apply Z.ltb_lt in H2.
      replace (status <=? 599) with false by (symmetry; apply Z.leb_gt; exact H2).
      cbn. eexists. reflexivity.
    + apply Z.ltb_ge in H2.
      replace (status <=? 599) with true by (symmetry; apply Z.leb_le; exact H2).
      cbn [orb andb]. destruct (null_body_status status); cbn [negb].
      * eexists. reflexivity.
      * reflexivity.
Qed.

Lemma header_value_normal (value v : string) :
  header_value value = Normal v -> v = normalize value.
Proof.
  unfold header_value. destruct (byte_string value); [|discriminate].
  destruct (forbidden (normalize value)); [discriminate|].
  intros [= <-]. reflexivity.
Qed.

Lemma c_header_cases (name value : string) :
  c_header name value
  = match header_value value with
    | Normal _ => Normal tt
    | Throw e => Throw e
    end.
Proof. unfold c_header, bind. destruct (header_value value); reflexivity. Qed.

(** The four [c.header] calls and the [headers] of the streamed response:
    they throw what the conversation identifier makes them throw, and else
    give the headers with the identifier normalised. *)
Lemma stream_headers_cases {A} (conversationId : string)
    (k : list (string * string) -> completion A) :
  (_ <~ c_header "Content-Type" "text/plain; charset=utf-8" ;;
   _ <~ c_header "Cache-Control" "no-cache" ;;
   _ <~ c_header "Connection" "keep-alive" ;;
   _ <~ c_header "X-Conversation-ID" conversationId ;;
   headers <~ headers_of (GeminiChat.stream_headers conversationId) ;;
   k headers)
  = match header_value conversationId with
    | Normal v => k (GeminiChat.stream_headers v)
    | Throw e => Throw e
    end.
Proof.
  change (c_header "Content-Type" "text/plain; charset=utf-8") with (@Normal unit tt).
  change (c_header "Cache-Control" "no-cache") with (@Normal unit tt).
  change (c_header "Connection" "keep-alive") with (@Normal unit tt).
  cbn [bind]. rewrite c_header_cases.
  unfold GeminiChat.stream_headers. cbn [headers_of].
  change (header_value "text/plain; charset=utf-8")
    with (Normal "text/plain; charset=utf-8").
  change (header_value "no-cache") with (Normal "no-cache").
  change (header_value "keep-alive") with (Normal "keep-alive").
  cbn [bind].
  destruct (header_value conversationId) as [v|e]; reflexivity.
Qed.

Lemma split_nonempty (sep : ascii) (s : string) : split sep s <> [].
Proof.
  destruct s as [|ch rest]; simpl; [discriminate|].
  destruct (ch =? sep)%char; [discriminate|].
  destruct (split sep rest); discriminate.
Qed.

(** Splitting at a separator splits both sides. *)
Lemma split_app (sep : ascii) (a b : string) :
  split sep (a ++ String sep b) = (split sep a ++ split sep b)%list.
Proof.
  induction a as [|ch a IH]; simpl.
  - rewrite Ascii.eqb_refl. reflexivity.
  - destruct (ch =? sep)%char.
    + rewrite IH. reflexivity.
    + rewrite IH. pose proof (split_nonempty sep a) as Hne.
      destruct (split sep a) as [|l ls]; [contradiction|]. reflexivity.
Qed.

(** A line that begins with [data: ] is not blank, so the first half of the
    test [line.trim() && line.startsWith("data: ")] follows from the second. *)
Lemma startsWith_data_not_blank (line : string) :
  startsWith line "data: " = true -> truthy (VString (trim line)) = true.
Proof.
  destruct line as [|ch rest]; cbn [startsWith]; [discriminate|].
  destruct (Ascii.eqb "d" ch) eqn:E; [intros _|discriminate].
  apply Ascii.eqb_eq in E. subst ch.
  unfold trim, trimStart. cbn [String.length].
  change (trimStart_fuel (S (String.length rest)) (String "d" rest))
    with (String "d" rest).
  reflexivity.
Qed.

Lemma data_line_test (line : string) :
  truthy (VString (trim line)) && startsWith line "data: " = startsWith line "data: ".
Proof.
  destruct (startsWith line "data: ") eqn:E.
  - rewrite (startsWith_data_not_blank _ E). reflexivity.
  - apply andb_false_r.
Qed.

(** ** Property access *)

Lemma get_object (fields : list (string * value)) (name : string) :
  get (VObject fields) name = Normal (Base.field fields name).
Proof. unfold get, Base.field. destruct (lookup name fields); reflexivity. Qed.

Lemma prop_object (fields : list (string * value)) (name : string) :
  prop (VObject fields) name = Base.field fields name.
Proof. unfold prop. rewrite get_object. reflexivity. Qed.

Lemma truthy_not_nullish (v : value) : truthy v = true -> nullish v = false.
Proof. destruct v; simpl; intros H; congruence. Qed.

Lemma get_total (v : value) (name : string) :
  nullish v = false -> get v name = Normal (prop v name).
Proof.
  unfold prop. destruct v; simpl; intros H; try discriminate; try reflexivity.
  destruct (lookup name fields); reflexivity.
Qed.

Lemma index0_total (v : value) :
  nullish v = false -> index0 v = Normal (item0 v).
Proof.
  unfold item0. destruct v; simpl; intros H; try discriminate; try reflexivity.
  - destruct s; reflexivity.
  - destruct xs; reflexivity.
  - destruct (lookup "0" fields); reflexivity.
Qed.

Lemma get_nullish (v : value) (name : string) :
  nullish v = true -> exists e, get v name = Throw e.
Proof. destruct v; simpl; intros H; try discriminate; eauto. Qed.

Lemma prop_falsy (v : value) (name : string) :
  truthy v = false -> prop v name = VUndefined.
Proof. unfold prop. destruct v; simpl; intros H; try reflexivity; discriminate. Qed.

Lemma item0_falsy (v : value) :
  truthy v = false -> item0 v = VUndefined.
Proof.
  unfold item0. destruct v; simpl; intros H; try reflexivity; try discriminate.
  apply negb_false_iff, String.eqb_eq in H. subst s. reflexivity.
Qed.

(** The guarded chain [v.a && v.a[0] && v.a[0].b]: it does not throw on a
    value one can read from, it is truthy exactly when [v?.a?.[0]?.b] is,
    and then [v.a[0].b] is that value. *)
Lemma guarded_chain (v : value) (a b : string) :
  nullish v = false ->
  exists x,
    (get v a
       &&& (xs <~ get v a ;; index0 xs)
       &&& (x0 <~ (xs <~ get v a ;; index0 xs) ;; get x0 b)) = Normal x
    /\ truthy x = truthy (prop (item0 (prop v a)) b)
    /\ (truthy x = true ->
        (x0 <~ (xs <~ get v a ;; index0 xs) ;; get x0 b)
        = Normal (prop (item0 (prop v a)) b)).
Proof.
  intros Hv. unfold and_then, bind. rewrite (get_total v a Hv).
  destruct (truthy (prop v a)) eqn:T1.
  - rewrite (index0_total _ (truthy_not_nullish _ T1)).
    destruct (truthy (item0 (prop v a))) eqn:T2.
    + rewrite (get_total _ b (truthy_not_nullish _ T2)).
      eexists; repeat split; reflexivity.
    + exists (item0 (prop v a)). rewrite (prop_falsy _ b T2).
      repeat split; [exact T2 | congruence].
  - exists (prop v a). rewrite T1, (item0_falsy _ T1).
    repeat split; congruence.
Qed.

Lemma candidates_chain (data : value) :
  nullish data = false ->
  exists x,
    (GeminiChat.candidates data &&& GeminiChat.candidates_0 data
       &&& GeminiChat.candidates_0_content data) = Normal x
    /\ truthy x = truthy (content_of data)
    /\ (truthy x = true ->
        GeminiChat.candidates_0_content data = Normal (content_of data)).
Proof. intros H. exact (guarded_chain data "candidates" "content" H). Qed.

Lemma parts_chain (content : value) :
  nullish content = false ->
  exists x,
    (GeminiChat.parts content &&& GeminiChat.parts_0 content
       &&& GeminiChat.parts_0_text content) = Normal x
    /\ truthy x = truthy (text_of content)
    /\ (truthy x = true ->
        GeminiChat.parts_0_text content = Normal (text_of content)).
Proof. intros H. exact (guarded_chain content "parts" "text" H). Qed.

Lemma string_app_assoc (a b c : string) : (a ++ b) ++ c = a ++ (b ++ c).
Proof. induction a as [|ch a IH]; simpl; [reflexivity|]. rewrite IH. reflexivity. Qed.

(** The decoder reads a byte at a time: decoding two arrays one after the
    other, keeping the state, is decoding them joined. *)
Lemma decode_app (d : TextDecoder.t) (a b : list Byte.byte) :
  TextDecoder.decode d (a ++ b)
  = let (d1, out1) := TextDecoder.decode d a in
    let (d2, out2) := TextDecoder.decode d1 b in
    (d2, out1 ++ out2).
Proof.
  revert d. induction a as [|x a IH]; intros d; cbn [app TextDecoder.decode].
  - destruct (TextDecoder.decode d b). reflexivity.
  - destruct (TextDecoder.step d (ascii_of_byte x)) as [d1 o1].
    rewrite IH. destruct (TextDecoder.decode d1 a) as [d2 o2].
    destruct (TextDecoder.decode d2 b) as [d3 o3].
    rewrite string_app_assoc. reflexivity.
Qed.

(* ================================================================== *)
(** * The streaming translator                                         *)
(* ================================================================== *)

Section StreamFacts.

Variable JSON_parse : string -> option value.
Variable Number_toString : Q -> string.

Notation on_line := (GeminiChat.on_line JSON_parse Number_toString).
Notation read_loop := (GeminiChat.read_loop JSON_parse Number_toString).
Notation start := (GeminiChat.start JSON_parse Number_toString).
Notation line_output := (Spec.line_output JSON_parse Number_toString).
Notation event_of_line := (Spec.event_of_line JSON_parse).
Notation forwarded := (Spec.forwarded Number_toString).

Lemma controller_eta (c : Controller) :
  state c = Readable -> c = {| queue := (queue c ++ [])%list; state := Readable |}.
Proof. destruct c as [q s]; simpl; intros ->. rewrite app_nil_r. reflexivity. Qed.

Lemma first_text_value_nullish (data : value) :
  nullish data = true -> truthy (first_text_value data) = false.
Proof. destruct data; simpl; intros H; try discriminate; reflexivity. Qed.

(** One line, on a stream that is open: the line's event, if it has one and
    the event carries a text, is enqueued; nothing is thrown. *)
Lemma on_line_readable (line : string) (c : Controller) :
  state c = Readable ->
  on_line line c
  = (Normal tt, {| queue := (queue c ++ line_output line)%list; state := Readable |}).
Proof.
  intros Hc. unfold GeminiChat.on_line, Spec.line_output, Spec.event_of_line.
  rewrite data_line_test.
  destruct (startsWith line "data: ");
    [|unfold eret; f_equal; exact (controller_eta c Hc)].
  unfold etry_catch, ebind, lift, eret, GeminiChat.parse.
  destruct (JSON_parse (slice 6 line)) as [data|];
    [|f_equal; exact (controller_eta c Hc)].
  unfold Spec.forwarded.
  destruct (nullish data) eqn:N.
  - rewrite (first_text_value_nullish data N).
    destruct (get_nullish data "candidates" N) as [e He].
    unfold GeminiChat.candidates, and_then, bind. rewrite He.
    f_equal. exact (controller_eta c Hc).
  - destruct (candidates_chain data N) as (x & E1 & T1 & E2).
    rewrite E1. unfold first_text_value.
    destruct (truthy x) eqn:Tx.
    + rewrite (E2 eq_refl).
      assert (Hcontent : nullish (content_of data) = false)
        by (apply truthy_not_nullish; congruence).
      destruct (parts_chain (content_of data) Hcontent) as (y & F1 & T2 & F2).
      rewrite F1. rewrite <- T2.
      destruct (truthy y) eqn:Ty.
      * rewrite (F2 eq_refl). unfold enqueue. rewrite Hc. reflexivity.
      * f_equal. exact (controller_eta c Hc).
    + assert (Hf : truthy (text_of (content_of data)) = false).
      { unfold text_of. rewrite (prop_falsy (content_of data) "parts") by congruence.
        reflexivity. }
      rewrite Hf. f_equal. exact (controller_eta c Hc).
Qed.

(** Whatever the state of the stream, a line never throws. *)
Lemma on_line_total (line : string) (c : Controller) :
  fst (on_line line c) = Normal tt.
Proof.
  unfold GeminiChat.on_line.
  destruct (truthy (VString (trim line)) && startsWith line "data: ");
    [|reflexivity].
  unfold etry_catch. destruct (ebind _ _ c) as [[[]|e] c']; reflexivity.
Qed.

(** A line without the prefix, or whose payload does not parse, leaves the
    stream as it was. *)
Lemma on_line_skipped (line : string) (c : Controller) :
  event_of_line line = None -> on_line line c = (Normal tt, c).
Proof.
  unfold Spec.event_of_line, GeminiChat.on_line. rewrite data_line_test.
  destruct (startsWith line "data: "); [|reflexivity].
  intros Hp. unfold etry_catch, ebind, lift, GeminiChat.parse. rewrite Hp.
  reflexivity.
Qed.

Lemma for_of_app {S A} (xs ys : list A) (body : A -> eff S unit) (s : S) :
  (forall x s', fst (body x s') = Normal tt) ->
  GeminiChat.for_of (xs ++ ys) body s
  = GeminiChat.for_of ys body (snd (GeminiChat.for_of xs body s)).
Proof.
  intros Hbody. revert s. induction xs as [|x xs IH]; intros s; simpl; [reflexivity|].
  unfold ebind. specialize (Hbody x s).
  destruct (body x s) as [[[]|e] s']; simpl in Hbody; [|discriminate].
  simpl. apply IH.
Qed.

Lemma for_of_lines (lines : list string) (c : Controller) :
  state c = Readable ->
  GeminiChat.for_of lines on_line c
  = (Normal tt,
     {| queue := (queue c ++ flat_map line_output lines)%list; state := Readable |}).
Proof.
  revert c. induction lines as [|line lines IH]; intros c Hc; simpl.
  - unfold eret. f_equal. exact (controller_eta c Hc).
  - unfold ebind. rewrite (on_line_readable line c Hc).
    rewrite IH by reflexivity. simpl. rewrite <- app_assoc. reflexivity.
Qed.

(** The read loop on an open stream: the output of every line of every read,
    then a close at the end of data, or the failure of the read, thrown. *)
Lemma read_loop_readable (reads : list (list Byte.byte)) (ending : Ending) :
  forall (d : TextDecoder.t) (c : Controller),
    state c = Readable ->
    read_loop d reads ending c
    = (match ending with
       | EndOfData => Normal tt
       | ReadFails e => Throw e
       end,
       {| queue := (queue c ++ flat_map line_output (read_lines d reads))%list;
          state := match ending with
                   | EndOfData => Closed
                   | ReadFails _ => Readable
                   end |}).
Proof.
  induction reads as [|value rest IH]; intros d c Hc.
  - unfold read_lines. simpl. destruct ending as [|e].
    + unfold close. rewrite Hc, app_nil_r. reflexivity.
    + unfold lift. f_equal. exact (controller_eta c Hc).
  - unfold read_lines. simpl.
    destruct (TextDecoder.decode d value) as [d' chunk]. simpl.
    unfold ebind. rewrite (for_of_lines _ c Hc).
    rewrite IH by reflexivity. simpl.
    unfold read_lines. rewrite flat_map_app, <- app_assoc. reflexivity.
Qed.

(** What [start] leaves of the caller's stream. *)
Lemma start_stream (reader : Body) :
  start reader fresh
  = (Normal tt,
     {| queue := flat_map line_output (read_lines TextDecoder.new (reads reader));
        state := match ending reader with
                 | EndOfData => Closed
                 | ReadFails e => Errored e
                 end |}).
Proof.
  unfold GeminiChat.start, etry_catch.
  rewrite (read_loop_readable (reads reader) (ending reader) TextDecoder.new fresh eq_refl).
  destruct (ending reader) as [|e]; reflexivity.
Qed.

Lemma line_output_events (lines : list string) :
  flat_map line_output lines = flat_map forwarded (events_of JSON_parse lines).
Proof.
  induction lines as [|line lines IH]; simpl; [reflexivity|].
  unfold Spec.line_output at 1.
  destruct (event_of_line line) as [data|]; simpl; rewrite IH; reflexivity.
Qed.

End StreamFacts.

(* ================================================================== *)
(** * Provider documents of the documented shape                       *)
(* ================================================================== *)

Lemma field_lookup (fields : list (string * value)) (name : string) :
  Base.field fields name
  = match lookup name fields with Some v => v | None => VUndefined end.
Proof. reflexivity. Qed.

(** On a document of the provider's shape the value the code reads is the
    first text part, when there is one, and is falsy otherwise. *)
Lemma first_text_value_shaped (doc : value) :
  provider_document doc = true ->
  (exists s, first_text_value doc = VString s /\ first_text doc = Some s)
  \/ (truthy (first_text_value doc) = false /\ first_text doc = None).
Proof.
  destruct doc as [| | | | | |fields]; simpl; try discriminate.
  intros H. apply andb_true_iff in H as [Hc _].
  unfold first_text_value, content_of, first_text, first_candidate.
  rewrite prop_object, field_lookup. rewrite field_lookup in Hc.
  destruct (lookup "candidates" fields) as [[| | | | |cs|]|];
    try discriminate; try (right; split; reflexivity).
  destruct cs as [|c0 cs]; [right; split; reflexivity|].
  simpl in Hc. apply andb_true_iff in Hc as [Hc0 _].
  destruct c0 as [| | | | | |cf]; simpl in Hc0; try discriminate.
  unfold item0, index0, first_part. rewrite prop_object, field_lookup.
  rewrite field_lookup in Hc0.
  destruct (lookup "content" cf) as [[| | | | | |pf]|];
    simpl in Hc0; try discriminate; try (right; split; reflexivity).
  unfold text_of. rewrite prop_object, field_lookup. rewrite field_lookup in Hc0.
  destruct (lookup "parts" pf) as [[| | | | |ps|]|];
    try discriminate; try (right; split; reflexivity).
  destruct ps as [|p0 ps]; [right; split; reflexivity|].
  simpl in Hc0. apply andb_true_iff in Hc0 as [Hp0 _].
  destruct p0 as [| | | | | |tf]; simpl in Hp0; try discriminate.
  unfold item0, index0, part_text. rewrite prop_object, field_lookup.
  rewrite field_lookup in Hp0.
  destruct (lookup "text" tf) as [[| | | |s| |]|];
    try discriminate; try (right; split; reflexivity).
  left. exists s. split; reflexivity.
Qed.

Lemma message_of_shaped (doc : value) :
  provider_document doc = true -> message_of doc = VString (text_or_empty doc).
Proof.
  intros H. unfold message_of, text_or_empty.
  destruct (first_text_value_shaped doc H) as [(s & E1 & E2)|[E1 E2]];
    rewrite E2.
  - rewrite E1. simpl. destruct (String.eqb_spec s ""); subst; reflexivity.
  - rewrite E1. reflexivity.
Qed.

Lemma forwarded_shaped (Number_toString : Q -> string) (doc : value) :
  provider_document doc = true ->
  List.concat (Spec.forwarded Number_toString doc)
  = list_byte_of_string (text_or_empty doc).
Proof.
  intros H. unfold Spec.forwarded, text_or_empty.
  destruct (first_text_value_shaped doc H) as [(s & E1 & E2)|[E1 E2]];
    rewrite E2.
  - rewrite E1. simpl. destruct (String.eqb_spec s "").
    + subst. reflexivity.
    + simpl. apply app_nil_r.
  - rewrite E1. reflexivity.
Qed.

Lemma forwarded_all_shaped (Number_toString : Q -> string) (evs : list value) :
  forallb provider_document evs = true ->
  List.concat (flat_map (Spec.forwarded Number_toString) evs)
  = List.concat (map (fun e => list_byte_of_string (text_or_empty e)) evs).
Proof.
  induction evs as [|e evs IH]; simpl; intros H; [reflexivity|].
  apply andb_true_iff in H as [He Hevs].
  rewrite concat_app, (forwarded_shaped _ e He), (IH Hevs). reflexivity.
Qed.

(* ================================================================== *)
(** * The buffered translator and [handle]                             *)
(* ================================================================== *)

Section HandlerFacts.

Variable JSON_parse : string -> option value.
Variable Number_toString : Q -> string.
Variable provider : GeminiChat.ProviderCall -> completion FetchResponse.
Variable generated_id : string.

Notation handle := (GeminiChat.handle JSON_parse Number_toString provider generated_id).
Notation handleStreamResponse := (GeminiChat.handleStreamResponse JSON_parse Number_toString).
Notation handleNormalResponse := (GeminiChat.handleNormalResponse JSON_parse).
Notation json := (GeminiChat.json JSON_parse).
Notation resolve := (GeminiChat.resolve generated_id).

(** The message the buffered translator computes from a document it can
    read from. *)
Lemma message_computed (data : value) :
  nullish data = false ->
  (found <~ GeminiChat.candidates data &&& GeminiChat.candidates_0 data
            &&& GeminiChat.candidates_0_content data ;;
   if truthy found then
     content <~ GeminiChat.candidates_0_content data ;;
     found' <~ GeminiChat.parts content &&& GeminiChat.parts_0 content
               &&& GeminiChat.parts_0_text content ;;
     if truthy found' then GeminiChat.parts_0_text content else Normal (VString "")
   else Normal (VString ""))
  = Normal (message_of data).
Proof.
  intros N. unfold message_of, first_text_value.
  destruct (candidates_chain data N) as (x & E1 & T1 & E2).
  rewrite E1. unfold bind at 1.
  destruct (truthy x) eqn:Tx.
  - rewrite (E2 eq_refl). unfold bind at 1.
    assert (Hcontent : nullish (content_of data) = false)
      by (apply truthy_not_nullish; congruence).
    destruct (parts_chain (content_of data) Hcontent) as (y & F1 & T2 & F2).
    rewrite F1. unfold bind. rewrite <- T2.
    destruct (truthy y); [exact (F2 eq_refl)|reflexivity].
  - assert (Hf : truthy (text_of (content_of data)) = false).
    { unfold text_of. rewrite (prop_falsy (content_of data) "parts") by congruence.
      reflexivity. }
    rewrite Hf. reflexivity.
Qed.

(** The buffered translator, on any document that is not [null]. *)
Lemma handleNormalResponse_value (c : AppContext) (response : FetchResponse)
    (conversationId : string) (data : value) :
  json response = Normal data ->
  nullish data = false ->
  handleNormalResponse c response conversationId
  = Normal (json_response [("success", VBool true);
                    ("conversation_id", VString conversationId);
                    ("message", message_of data);
                    ("usage", usage_computed (prop data "usageMetadata"))] 200).
Proof.
  intros Hj N. unfold GeminiChat.handleNormalResponse. rewrite Hj.
  unfold bind at 1.
  pose proof (message_computed data N) as Hm. unfold bind at 1 in Hm.
  destruct (GeminiChat.candidates data &&& GeminiChat.candidates_0 data
            &&& GeminiChat.candidates_0_content data) as [found|e];
    [|discriminate].
  unfold bind at 1. rewrite Hm.
  rewrite (get_total data "usageMetadata" N).
  cbv beta iota delta [bind]. unfold usage_computed.
  destruct (truthy (prop data "usageMetadata")) eqn:Tu; [|reflexivity].
  pose proof (truthy_not_nullish _ Tu) as Nu.
  rewrite !(get_total _ _ Nu). reflexivity.
Qed.

(** A valid request, a credential, and a provider that answers with a
    success status: one provider call, then a call of the translator the
    request asks for, whose promise is the answer. *)
Lemma handle_translates (c : AppContext) (data : Base.ChatRequest)
    (response : FetchResponse) :
  getValidatedData c = Normal data ->
  GeminiChat.missing (GEMINI_API_KEY (env c)) = false ->
  (forall call, provider call = Normal response) ->
  ok response = true ->
  exists call,
    handle c []
    = (if Base.stream data
       then handleStreamResponse c response (resolve (Base.conversation_id data))
       else handleNormalResponse c response (resolve (Base.conversation_id data)),
       [GeminiChat.Fetched call; GeminiChat.Translated (Base.stream data)]).
Proof.
  intros Hv Hk Hp Hok.
  unfold GeminiChat.handle, ebind, etry_catch, lift, eret, GeminiChat.fetch,
    GeminiChat.translate.
  rewrite Hv, Hk, Hp, Hok. simpl.
  destruct (Base.stream data); eexists; reflexivity.
Qed.

End HandlerFacts.

(* ================================================================== *)
(** * Properties of the streaming path                                 *)
(* ================================================================== *)

Section StreamingPath.

Variable JSON_parse : string -> option value.
Variable Number_toString : Q -> string.
Variable provider : GeminiChat.ProviderCall -> completion FetchResponse.
Variable generated_id : string.

Notation handle := (GeminiChat.handle JSON_parse Number_toString provider generated_id).
Notation handleStreamResponse := (GeminiChat.handleStreamResponse JSON_parse Number_toString).
Notation on_line := (GeminiChat.on_line JSON_parse Number_toString).
Notation read_loop := (GeminiChat.read_loop JSON_parse Number_toString).

(** The streamed response, whatever the events look like: the call throws
    what the conversation identifier makes the header calls throw; else the
    identifier is in the headers, normalised, and the fragments are what each
    event forwards, in the order of the lines. *)
Lemma handleStreamResponse_value (c : AppContext) (response : FetchResponse)
    (conversationId : string) (reader : Body) :
  Web.body response = Some reader ->
  handleStreamResponse c response conversationId
  = match header_value conversationId with
    | Normal v =>
        Normal (Streaming (GeminiChat.stream_headers v)
                  {| queue := flat_map (Spec.forwarded Number_toString)
                                (read_events JSON_parse (reads reader));
                     state := match ending reader with
                              | EndOfData => Closed
                              | ReadFails e => Errored e
                              end |})
    | Throw e => Throw e
    end.
Proof.
  intros Hb. unfold GeminiChat.handleStreamResponse. rewrite Hb. cbv zeta.
  rewrite (stream_headers_cases conversationId
             (fun headers =>
                Normal (Streaming headers
                          (snd (GeminiChat.start JSON_parse Number_toString
                                  reader fresh))))).
  rewrite start_stream. cbn [snd]. rewrite line_output_events. reflexivity.
Qed.

Lemma for_of_lines_total (lines : list string) (c : Controller) :
  fst (GeminiChat.for_of lines on_line c) = Normal tt.
Proof.
  revert c. induction lines as [|line lines IH]; intros c; simpl; [reflexivity|].
  unfold ebind. pose proof (on_line_total JSON_parse Number_toString line c) as Hl.
  destruct (on_line line c) as [[[]|e] c']; simpl in Hl; [apply IH|discriminate].
Qed.

(** C3.  A line [bad] of a read that does not begin with [data: ], or whose
    payload does not parse: the line throws nothing and leaves the caller's
    stream as it is, and the loop handles the lines before it, then the lines
    after it, and goes on with the next read, as if the line were not there. *)
Theorem bad_line_is_skipped (d d' : TextDecoder.t) (value : list Byte.byte)
    (chunk : string) (before after : list string) (bad : string)
    (rest : list (list Byte.byte)) (ending : Ending) (c : Controller) :
  TextDecoder.decode d value = (d', chunk) ->
  split LF chunk = (before ++ bad :: after)%list ->
  startsWith bad "data: " = false \/ JSON_parse (slice 6 bad) = None ->
  (forall c', on_line bad c' = (Normal tt, c'))
  /\ read_loop d (value :: rest) ending c
     = read_loop d' rest ending
         (snd (GeminiChat.for_of after on_line
                 (snd (GeminiChat.for_of before on_line c)))).
Proof.
  intros Hd Hlines Hbad.
  assert (Hskip : forall c', on_line bad c' = (Normal tt, c')).
  { intros c'. apply on_line_skipped. unfold Spec.event_of_line.
    destruct Hbad as [-> | Hp]; [reflexivity|].
    destruct (startsWith bad "data: "); [exact Hp|reflexivity]. }
  split; [exact Hskip|].
  cbn [GeminiChat.read_loop]. rewrite Hd, Hlines.
  unfold ebind at 1.
  rewrite (for_of_app before _ on_line c (on_line_total JSON_parse Number_toString)).
  cbn [GeminiChat.for_of]. unfold ebind at 1. rewrite Hskip.
  pose proof (for_of_lines_total after
                (snd (GeminiChat.for_of before on_line c))) as Hno.
  destruct (GeminiChat.for_of after on_line
              (snd (GeminiChat.for_of before on_line c)))
    as [[[]|e] c'']; [reflexivity|discriminate].
Qed.

(** Where the reads are cut does not matter when the cut falls right after a
    line feed: the empty line the cut adds has no event. *)
Lemma read_boundary_after_line_feed (d d1 d2 : TextDecoder.t)
    (a b : list Byte.byte) (text_a text_b : string)
    (rest : list (list Byte.byte)) (ending : Ending) (c : Controller) :
  TextDecoder.decode d a = (d1, text_a ++ String LF "") ->
  TextDecoder.decode d1 b = (d2, text_b) ->
  read_loop d ((a ++ b)%list :: rest) ending c
  = read_loop d (a :: b :: rest) ending c.
Proof.
  intros Ha Hb.
  pose proof (on_line_total JSON_parse Number_toString) as Htotal.
  cbn [GeminiChat.read_loop].
  rewrite (decode_app d a b), Ha. cbn iota beta. rewrite Hb.
  rewrite string_app_assoc. cbn [String.append].
  rewrite !split_app. cbn [split].
  unfold ebind.
  rewrite !(for_of_app (split LF text_a) _ on_line c Htotal).
  pose proof (for_of_lines_total (split LF text_a) c) as H1.
  destruct (GeminiChat.for_of (split LF text_a) on_line c) as [[[]|e1] c1];
    [|discriminate]. cbn [snd GeminiChat.for_of]. unfold ebind, eret.
  rewrite (on_line_skipped JSON_parse Number_toString "" c1 eq_refl).
  reflexivity.
Qed.

(** C4.  The two ways a streamed response ends: a failing read leaves the
    caller's stream errored with what was thrown, the end of data leaves it
    closed; the fragments enqueued before are the same.  This holds of the
    producer of the stream ([start]) for every list of reads, and of the
    response [handleStreamResponse] returns around it, which it does whenever
    the conversation identifier can be a header value (it throws before the
    stream exists when not). *)
Theorem stream_end_is_distinguishable (c : AppContext) (status : Z)
    (reads : list (list Byte.byte)) (conversationId : string) (e : exn) :
  let failing := {| Web.reads := reads; Web.ending := ReadFails e |} in
  let complete := {| Web.reads := reads; Web.ending := EndOfData |} in
  exists enqueued,
    GeminiChat.start JSON_parse Number_toString failing fresh
    = (Normal tt, {| queue := enqueued; state := Errored e |})
    /\ GeminiChat.start JSON_parse Number_toString complete fresh
       = (Normal tt, {| queue := enqueued; state := Closed |})
    /\ Errored e <> Closed
    /\ match header_value conversationId with
       | Normal v =>
           handleStreamResponse c
             {| Web.status := status; Web.body := Some failing |} conversationId
           = Normal (Streaming (GeminiChat.stream_headers v)
                       {| queue := enqueued; state := Errored e |})
           /\ handleStreamResponse c
                {| Web.status := status; Web.body := Some complete |} conversationId
              = Normal (Streaming (GeminiChat.stream_headers v)
                          {| queue := enqueued; state := Closed |})
       | Throw thrown =>
           handleStreamResponse c
             {| Web.status := status; Web.body := Some failing |} conversationId
           = Throw thrown
           /\ handleStreamResponse c
                {| Web.status := status; Web.body := Some complete |} conversationId
              = Throw thrown
       end.
Proof.
  cbv zeta.
  exists (flat_map (Spec.forwarded Number_toString) (read_events JSON_parse reads)).
  split; [|split; [|split]].
  - rewrite start_stream, line_output_events. reflexivity.
  - rewrite start_stream, line_output_events. reflexivity.
  - discriminate.
  - rewrite (handleStreamResponse_value c
               {| Web.status := status;
                  Web.body := Some {| Web.reads := reads; Web.ending := ReadFails e |} |}
               conversationId {| Web.reads := reads; Web.ending := ReadFails e |}
               eq_refl).
    rewrite (handleStreamResponse_value c
               {| Web.status := status;
                  Web.body := Some {| Web.reads := reads; Web.ending := EndOfData |} |}
               conversationId {| Web.reads := reads; Web.ending := EndOfData |}
               eq_refl).
    destruct (header_value conversationId) as [v|thrown]; split; reflexivity.
Qed.

End StreamingPath.

(* ================================================================== *)
(** * Properties of the buffered path                                  *)
(* ================================================================== *)

(** A counter of a well-formed block: a number, zero when the counter is
    missing, [null] or zero, the reported number otherwise. *)
Lemma counter_shaped (block : list (string * value)) (name : string) :
  is_counter (Base.field block name) = true ->
  exists n,
    counter (VObject block) name = VNumber n
    /\ (truthy (Base.field block name) = false -> n = 0%Q)
    /\ (forall q, Base.field block name = VNumber q -> n == q).
Proof.
  unfold counter, or_else. rewrite prop_object.
  destruct (Base.field block name) as [| | |q| | |]; simpl; try discriminate; intros _.
  - exists 0%Q. split; [reflexivity|]. split; [reflexivity|discriminate].
  - exists 0%Q. split; [reflexivity|]. split; [reflexivity|discriminate].
  - destruct (Qeq_bool q 0) eqn:E; simpl.
    + exists 0%Q. split; [reflexivity|]. split; [reflexivity|].
      intros q' [= ->]. apply Qeq_bool_iff in E. symmetry. exact E.
    + exists q. split; [reflexivity|]. split; [discriminate|].
      intros q' [= ->]. reflexivity.
Qed.

Lemma usage_of_shaped (block : list (string * value)) :
  is_usage (VObject block) = true ->
  exists p k t,
    usage_of (VObject block)
    = VObject [("prompt_tokens", VNumber p);
               ("completion_tokens", VNumber k);
               ("total_tokens", VNumber t)]
    /\ (truthy (Base.field block "promptTokenCount") = false -> p = 0%Q)
    /\ (truthy (Base.field block "candidatesTokenCount") = false -> k = 0%Q)
    /\ (truthy (Base.field block "totalTokenCount") = false -> t = 0%Q)
    /\ (forall q, Base.field block "promptTokenCount" = VNumber q -> p == q)
    /\ (forall q, Base.field block "candidatesTokenCount" = VNumber q -> k == q)
    /\ (forall q, Base.field block "totalTokenCount" = VNumber q -> t == q).
Proof.
  cbn [is_usage]. intros H.
  apply andb_true_iff in H as [H Ht]. apply andb_true_iff in H as [Hp Hk].
  destruct (counter_shaped block _ Hp) as (p & Ep & Zp & Qp).
  destruct (counter_shaped block _ Hk) as (k & Ek & Zk & Qk).
  destruct (counter_shaped block _ Ht) as (t & Et & Zt & Qt).
  exists p, k, t. unfold usage_of. rewrite Ep, Ek, Et. repeat split; assumption.
Qed.

(** The body [c.json] sends for the four fields of a [ChatResponse]: [usage]
    is there exactly when it is not [undefined]. *)
Lemma c_json_usage (conversationId : string) (message usage : value) :
  exists body,
    json_response [("success", VBool true);
            ("conversation_id", VString conversationId);
            ("message", message);
            ("usage", usage)] 200
    = Json (VObject body) 200
    /\ lookup "success" body = Some (VBool true)
    /\ lookup "usage" body
       = match usage with
         | VUndefined => None
         | _ => Some (serialised usage)
         end.
Proof.
  unfold json_response.
  destruct message; destruct usage; cbn [serialised]; eexists;
    (split; [reflexivity|split; reflexivity]).
Qed.

Section BufferedPath.

Variable JSON_parse : string -> option value.
Variable Number_toString : Q -> string.
Variable provider : GeminiChat.ProviderCall -> completion FetchResponse.
Variable generated_id : string.

Notation handle := (GeminiChat.handle JSON_parse Number_toString provider generated_id).
Notation handleNormalResponse := (GeminiChat.handleNormalResponse JSON_parse).
Notation json := (GeminiChat.json JSON_parse).
Notation resolve := (GeminiChat.resolve generated_id).

(** The buffered response to a document of the provider's shape. *)
Lemma handleNormalResponse_shaped (c : AppContext) (response : FetchResponse)
    (conversationId : string) (doc : value) :
  json response = Normal doc ->
  provider_document doc = true ->
  handleNormalResponse c response conversationId
  = Normal
      (Json (VObject
               ([("success", VBool true);
                 ("conversation_id", VString conversationId);
                 ("message", VString (text_or_empty doc))]
                ++ match usage_block doc with
                   | Some block => [("usage", usage_of (VObject block))]
                   | None => []
                   end)%list)
            200).
Proof.
  intros Hj Hshape.
  assert (N : nullish doc = false) by (destruct doc; try discriminate; reflexivity).
  rewrite (handleNormalResponse_value JSON_parse c response conversationId doc Hj N).
  rewrite (message_of_shaped doc Hshape).
  destruct doc as [| | | | | |fields]; try discriminate.
  cbn [provider_document] in Hshape. apply andb_true_iff in Hshape as [_ Hu].
  rewrite prop_object. unfold usage_block.
  rewrite field_lookup in *.
  destruct (lookup "usageMetadata" fields) as [[| | | | | |block]|];
    try discriminate; try reflexivity.
  destruct (usage_of_shaped block Hu) as (p & k & t & E & _).
  unfold usage_computed. cbn [truthy]. rewrite E. reflexivity.
Qed.

(** C6.  A valid request with [stream = false], answered with a document of
    the provider's shape: status 200, [success: true], and a [message] that
    is the first text part of the first candidate, or the empty string when
    the document has no candidate, content or part. *)
Theorem buffered_message_is_first_text (c : AppContext) (data : Base.ChatRequest)
    (response : FetchResponse) (doc : value) :
  getValidatedData c = Normal data ->
  Base.stream data = false ->
  GeminiChat.missing (GEMINI_API_KEY (env c)) = false ->
  (forall call, provider call = Normal response) ->
  ok response = true ->
  json response = Normal doc ->
  provider_document doc = true ->
  exists body,
    fst (handle c []) = Normal (Json (VObject body) 200)
    /\ lookup "success" body = Some (VBool true)
    /\ lookup "message" body = Some (VString (text_or_empty doc))
    /\ (first_text doc = None -> lookup "message" body = Some (VString "")).
Proof.
  intros Hv Hs Hk Hp Hok Hj Hshape.
  destruct (handle_translates JSON_parse Number_toString provider generated_id
              c data response Hv Hk Hp Hok) as [call Hh].
  rewrite Hh, Hs. cbn [fst].
  rewrite (handleNormalResponse_shaped c response _ doc Hj Hshape).
  eexists. split; [reflexivity|].
  assert (Hm : forall s, text_or_empty doc = s ->
                 lookup "message"
                   ([("success", VBool true);
                     ("conversation_id", VString (resolve (Base.conversation_id data)));
                     ("message", VString s)]
                    ++ match usage_block doc with
                       | Some block => [("usage", usage_of (VObject block))]
                       | None => []
                       end)%list = Some (VString s))
    by (intros s _; destruct (usage_block doc); reflexivity).
  split; [destruct (usage_block doc); reflexivity|].
  split; [rewrite (Hm _ eq_refl); reflexivity|].
  intros Hnone. unfold text_or_empty in *. rewrite Hnone in *.
  apply (Hm "" eq_refl).
Qed.

(** C7.  The buffered response to a document of the provider's shape has a
    [usage] field exactly when the document has a usage-metadata block, and
    then the three counters of the block are its [prompt_tokens],
    [completion_tokens] and [total_tokens]. *)
Theorem usage_present_iff_block (c : AppContext) (response : FetchResponse)
    (conversationId : string) (doc : value) :
  json response = Normal doc ->
  provider_document doc = true ->
  exists body,
    handleNormalResponse c response conversationId = Normal (Json (VObject body) 200)
    /\ (lookup "usage" body = None <-> usage_block doc = None)
    /\ (forall block p k t,
          usage_block doc = Some block ->
          Base.field block "promptTokenCount" = VNumber p ->
          Base.field block "candidatesTokenCount" = VNumber k ->
          Base.field block "totalTokenCount" = VNumber t ->
          exists p' k' t',
            lookup "usage" body
            = Some (VObject [("prompt_tokens", VNumber p');
                             ("completion_tokens", VNumber k');
                             ("total_tokens", VNumber t')])
            /\ p' == p /\ k' == k /\ t' == t).
Proof.
  intros Hj Hshape.
  rewrite (handleNormalResponse_shaped c response conversationId doc Hj Hshape).
  eexists. split; [reflexivity|].
  destruct (usage_block doc) as [block|] eqn:Hb; cbn [app lookup].
  - split; [split; discriminate|].
    intros block' p k t [= <-] Hp Hk Ht.
    assert (Hu : is_usage (VObject block) = true).
    { cbn [is_usage]. rewrite Hp, Hk, Ht. reflexivity. }
    destruct (usage_of_shaped block Hu) as (p' & k' & t' & E & _ & _ & _ & Qp & Qk & Qt).
    exists p', k', t'. rewrite E. repeat split; auto.
  - split; [split; reflexivity|]. intros block p k t [=].
Qed.

End BufferedPath.

(** C10.  Both buffered translators, on a usage-metadata block whose
    counters are numbers or missing: the response has a [usage] object with
    three numbers, and a counter that is missing, [null] or zero in the block
    is zero there, so that an omitted counter and one reported as zero give
    the same response. *)
Theorem falsy_counter_is_zero (JSON_parse : string -> option value)
    (c : AppContext) (response : FetchResponse) (conversationId : string)
    (doc : value) (block : list (string * value))
    (model : GeminiChatSDK.GenerativeModel)
    (contents : list Base.Gemini.GeminiMessage)
    (generationConfig : Base.Gemini.GenerationConfig)
    (reply : GeminiChatSDK.GenerateContentResponse) (message : string) :
  GeminiChat.json JSON_parse response = Normal doc ->
  prop doc "usageMetadata" = VObject block ->
  GeminiChatSDK.generateContent model
    {| GeminiChatSDK.contents := contents;
       GeminiChatSDK.generationConfig := generationConfig |} = Normal reply ->
  GeminiChatSDK.text reply = Normal message ->
  GeminiChatSDK.usageMetadata reply = VObject block ->
  is_usage (VObject block) = true ->
  exists body body' p k t,
    GeminiChat.handleNormalResponse JSON_parse c response conversationId
    = Normal (Json (VObject body) 200)
    /\ GeminiChatSDK.handleNormalResponseWithSDK c model contents generationConfig
         conversationId
       = Normal (Json (VObject body') 200)
    /\ lookup "usage" body
       = Some (VObject [("prompt_tokens", VNumber p);
                        ("completion_tokens", VNumber k);
                        ("total_tokens", VNumber t)])
    /\ lookup "usage" body' = lookup "usage" body
    /\ (truthy (Base.field block "promptTokenCount") = false -> p = 0%Q)
    /\ (truthy (Base.field block "candidatesTokenCount") = false -> k = 0%Q)
    /\ (truthy (Base.field block "totalTokenCount") = false -> t = 0%Q).
Proof.
  intros Hj Hblock Hg Ht Hu Hshape.
  assert (N : nullish doc = false).
  { destruct doc; try reflexivity; discriminate. }
  destruct (usage_of_shaped block Hshape) as (p & k & t & E & Zp & Zk & Zt & _).
  assert (Huc : usage_computed (VObject block)
                = VObject [("prompt_tokens", VNumber p);
                           ("completion_tokens", VNumber k);
                           ("total_tokens", VNumber t)])
    by (unfold usage_computed; cbn [truthy]; exact E).
  destruct (c_json_usage conversationId (message_of doc) (usage_computed (VObject block)))
    as (body & Eb & _ & Lb).
  destruct (c_json_usage conversationId (VString message) (usage_computed (VObject block)))
    as (body' & Eb' & _ & Lb').
  exists body, body', p, k, t.
  split; [|split; [|split; [|split; [|repeat split; assumption]]]].
  - rewrite (handleNormalResponse_value JSON_parse c response conversationId doc Hj N).
    rewrite Hblock, Eb. reflexivity.
  - unfold GeminiChatSDK.handleNormalResponseWithSDK, try_catch, bind.
    rewrite Hg, Ht, Hu. cbn [truthy].
    rewrite !(get_total (VObject block) _ eq_refl).
    change (VObject _) with (usage_computed (VObject block)) at 1.
    rewrite c_json_200, Eb'. reflexivity.
  - rewrite Lb, Huc. reflexivity.
  - rewrite Lb, Lb'. reflexivity.
Qed.

(* ================================================================== *)
(** * Failures before translation                                      *)
(* ================================================================== *)

Section Interception.

Variable JSON_parse : string -> option value.
Variable Number_toString : Q -> string.
Variable provider : GeminiChat.ProviderCall -> completion FetchResponse.
Variable generated_id : string.

Notation handle := (GeminiChat.handle JSON_parse Number_toString provider generated_id).

(** What [handle] answers when validation throws: the catch around the body
    of [handle] takes the exception, and no call has been made. *)
Lemma handle_invalid (c : AppContext) (issues : list ZodIssue) :
  getValidatedData c = Throw (ZodError issues) ->
  handle c []
  = (Normal (json_response [("success", VBool false);
                     ("error", VString "处理请求时发生内部错误")] 500), []).
Proof.
  intros Hv. unfold GeminiChat.handle, ebind, etry_catch, lift, eret.
  rewrite Hv. reflexivity.
Qed.

(** C5, as the code has it.  A request whose [message] is missing or empty
    fails validation, and nothing is recorded for it: the provider is not
    called. *)
Theorem missing_message_never_reaches_provider (c : AppContext) :
  message_missing_or_empty (req_json c) = true ->
  (exists issues, getValidatedData c = Throw (ZodError issues) /\ issues <> [])
  /\ snd (handle c []) = [].
Proof.
  intros H.
  assert (Hv : exists issues,
             getValidatedData c = Throw (ZodError issues) /\ issues <> []).
  { unfold getValidatedData, Base.ChatRequest_safeParse.
    unfold message_missing_or_empty in H.
    destruct (req_json c) as [| | | | | |fields]; try discriminate.
    destruct (Base.field fields "message") as [| | | |s| |]; try discriminate.
    - cbn [Base.z_message].
      destruct (Base.z_conversation_id _), (Base.z_temperature _),
        (Base.z_max_tokens _), (Base.z_stream _);
        eexists; (split; [reflexivity|discriminate]).
    - apply String.eqb_eq in H. subst s. cbn [Base.z_message String.length Nat.leb].
      destruct (Base.z_conversation_id _), (Base.z_temperature _),
        (Base.z_max_tokens _), (Base.z_stream _);
        eexists; (split; [reflexivity|discriminate]). }
  split; [exact Hv|].
  destruct Hv as (issues & Hv & _). rewrite (handle_invalid c issues Hv).
  reflexivity.
Qed.

(** C8.  A valid request and no credential: status 500, a failure envelope
    with a non-empty error, and an empty trace, that is, no provider call. *)
Theorem missing_credential_is_500 (c : AppContext) (data : Base.ChatRequest) :
  getValidatedData c = Normal data ->
  GeminiChat.missing (GEMINI_API_KEY (env c)) = true ->
  handle c []
  = (Normal (Json (VObject [("success", VBool false);
                            ("error", VString "Gemini API密钥未配置")]) 500), [])
  /\ "Gemini API密钥未配置" <> "".
Proof.
  intros Hv Hk. split; [|discriminate].
  unfold GeminiChat.handle, ebind, etry_catch, lift, eret.
  rewrite Hv, Hk. reflexivity.
Qed.

(** C9, as the code has it.  A valid request, a credential, and a provider
    that answers with a non-success status: the trace is the provider call
    alone (no translator is called), and the answer is a failure envelope,
    under the provider's status when the error body can be read and the
    status is one a response with a body can have (from 200 to 599, and none
    of 204, 205 and 304), and under 500 when reading the body throws or
    [c.json] throws for the status. *)
Theorem provider_failure_is_mirrored (c : AppContext) (data : Base.ChatRequest)
    (response : FetchResponse) :
  getValidatedData c = Normal data ->
  GeminiChat.missing (GEMINI_API_KEY (env c)) = false ->
  (forall call, provider call = Normal response) ->
  ok response = false ->
  exists call,
    handle c []
    = (Normal
         match text response with
         | Normal _ =>
             if Vocabulary.carries_body (status response) then
               Json (VObject [("success", VBool false);
                              ("error", VString ("Gemini API请求失败: "
                                                 ++ string_of_Z (status response)))])
                    (status response)
             else
               Json (VObject [("success", VBool false);
                              ("error", VString "处理请求时发生内部错误")]) 500
         | Throw _ =>
             Json (VObject [("success", VBool false);
                            ("error", VString "处理请求时发生内部错误")]) 500
         end,
       [GeminiChat.Fetched call]).
Proof.
  intros Hv Hk Hp Hok.
  unfold GeminiChat.handle, ebind, etry_catch, lift, eret, GeminiChat.fetch.
  rewrite Hv, Hk, Hp, Hok. cbn [negb].
  destruct (text response) as [errorText|e]; [|eexists; reflexivity].
  pose proof (c_json_cases
                [("success", VBool false);
                 ("error", VString ("Gemini API请求失败: "
                                    ++ string_of_Z (status response)))]
                (status response)) as Hj.
  destruct (Vocabulary.carries_body (status response)).
  - rewrite Hj. eexists. reflexivity.
  - destruct Hj as [thrown ->]. eexists. reflexivity.
Qed.

End Interception.

(* ================================================================== *)
(** * Examples                                                         *)
(* ================================================================== *)

Import Examples.

(** The end-to-end example of the specification: [{ message: "hi",
    stream: false }] against the document with [hello] and the counters
    1, 1, 2. *)
Example end_to_end :
  GeminiChat.handle JSON.parse JSON.Number_toString
    (answering (upstream 200 [document] EndOfData)) "conv_1"
    (context (chat "hi" false) (Some "key")) []
  = (Normal
       (Json (VObject [("success", VBool true);
                       ("conversation_id", VString "conv_1");
                       ("message", VString "hello");
                       ("usage", VObject [("prompt_tokens", VNumber 1);
                                          ("completion_tokens", VNumber 1);
                                          ("total_tokens", VNumber 2)])]) 200),
     [ GeminiChat.Fetched
         {| GeminiChat.url :=
            "https://generativelanguage.googleapis.com/v1beta/models/gemini-2.0-flash:generateContent";
          GeminiChat.method := "POST";
          GeminiChat.headers := [("Content-Type", "application/json");
                                 ("X-goog-api-key", "key")];
          GeminiChat.body :=
            {| Base.Gemini.contents :=
                 [ {| Base.Gemini.role := None; Base.Gemini.parts := ["hi"] |} ];
               Base.Gemini.generationConfig :=
                 Some {| Base.Gemini.temperature := Some (7 # 10);
                         Base.Gemini.topK := None;
                         Base.Gemini.topP := None;
                         Base.Gemini.maxOutputTokens := Some 1024%Q;
                         Base.Gemini.stopSequences := None |};
               Base.Gemini.safetySettings := None |} |};
       GeminiChat.Translated false ]).
Proof. vm_compute. reflexivity. Qed.

(** C2.  One line of the provider, [data: {...}] and its line feed, reaches
    the caller when it arrives in one read, and is lost when the same bytes
    arrive in two reads that cut the line: the first piece does not parse,
    the second does not begin with [data: ], and nothing is kept from one
    read to the next but the decoder's state. *)
Theorem line_across_reads_is_lost :
  let line := bytes (event_line "Hel" ++ nl) in
  let translated (reads : list (list Byte.byte)) :=
    snd (GeminiChat.start JSON.parse JSON.Number_toString
           {| Web.reads := reads; Web.ending := EndOfData |} fresh) in
  (firstn 20 line ++ skipn 20 line)%list = line
  /\ translated [line] = {| queue := [bytes "Hel"]; state := Closed |}
  /\ translated [firstn 20 line; skipn 20 line] = {| queue := []; state := Closed |}.
Proof. vm_compute. repeat split; reflexivity. Qed.

(** C1.  Two events of the provider, with the texts [Hel] and [lo], each on
    a [data: ] line that parses; the bytes arrive in two reads, and the cut
    falls inside the second line.  A valid request with [stream = true] is
    answered with the stream [Hel] alone: the second event is a successfully
    parsed line of the provider stream, and its text is not forwarded. *)
Theorem event_across_reads_is_not_forwarded :
  let provider_stream := bytes (event_line "Hel" ++ nl ++ event_line "lo" ++ nl) in
  let reads := [firstn 82 provider_stream; skipn 82 provider_stream] in
  let response :=
    {| Web.status := 200;
       Web.body := Some {| Web.reads := reads; Web.ending := EndOfData |} |} in
  let c := context (chat "hi" true) (Some "key") in
  List.concat reads = provider_stream
  /\ getValidatedData c
     = Normal {| Base.message := "hi"; Base.conversation_id := None;
                 Base.temperature := 7 # 10; Base.max_tokens := 1024;
                 Base.stream := true |}
  /\ map text_or_empty (stream_events JSON.parse reads) = ["Hel"; "lo"]
  /\ fst (GeminiChat.handle JSON.parse JSON.Number_toString (answering response)
            "conv_1" c [])
     = Normal (Streaming (GeminiChat.stream_headers "conv_1")
                 {| queue := [bytes "Hel"]; state := Closed |})
  /\ List.concat [bytes "Hel"]
     <> List.concat (map (fun event => bytes (text_or_empty event))
                         (stream_events JSON.parse reads)).
Proof.
  cbv zeta. split; [vm_compute; reflexivity|]. split; [vm_compute; reflexivity|].
  split; [vm_compute; reflexivity|]. split; [vm_compute; reflexivity|].
  vm_compute. discriminate.
Qed.

(** C5 fails on a message of one space: it passes validation, the provider
    is called, and the answer is 200. *)
Lemma whitespace_message_reaches_provider :
  let c := context (chat " " false) (Some "key") in
  whitespace_only " " = true
  /\ getValidatedData c
     = Normal {| Base.message := " "; Base.conversation_id := None;
                 Base.temperature := 7 # 10; Base.max_tokens := 1024;
                 Base.stream := false |}
  /\ exists body call,
       GeminiChat.handle JSON.parse JSON.Number_toString
         (answering (upstream 200 [document] EndOfData)) "conv_1" c []
       = (Normal (Json body 200),
          [GeminiChat.Fetched call; GeminiChat.Translated false]).
Proof.
  cbv zeta. split; [reflexivity|]. split; [reflexivity|].
  eexists. eexists. vm_compute. reflexivity.
Qed.

(** C9 fails when the provider answers 503 and its body cannot be read:
    the endpoint answers 500, not 503. *)
Lemma unreadable_error_body_is_500 :
  let response := upstream 503 ["Service Unava"] (ReadFails (NetworkError "reset")) in
  ok response = false
  /\ status response = 503
  /\ exists call,
       GeminiChat.handle JSON.parse JSON.Number_toString (answering response)
         "conv_1" (context (chat "hi" false) (Some "key")) []
       = (Normal (Json (VObject [("success", VBool false);
                                 ("error", VString "处理请求时发生内部错误")]) 500),
          [GeminiChat.Fetched call]).
Proof.
  cbv zeta. split; [reflexivity|]. split; [reflexivity|].
  eexists. vm_compute. reflexivity.
Qed.

(** The same answer for a body that can be read under 304, a status a
    response with a body cannot have: [c.json] throws inside the [try]. *)
Example not_modified_is_500 :
  let response := upstream 304 ["Not Modified"] EndOfData in
  ok response = false
  /\ Web.text response = Normal "Not Modified"
  /\ exists call,
       GeminiChat.handle JSON.parse JSON.Number_toString (answering response)
         "conv_1" (context (chat "hi" false) (Some "key")) []
       = (Normal (Json (VObject [("success", VBool false);
                                 ("error", VString "处理请求时发生内部错误")]) 500),
          [GeminiChat.Fetched call]).
Proof.
  cbv zeta. split; [reflexivity|]. split; [vm_compute; reflexivity|].
  eexists. vm_compute. reflexivity.
Qed.

(** ** The theorems at concrete inputs *)

Lemma bad_line_is_skipped_witness :
  let chunk := event_line "Hel" ++ nl ++ corrupt_line ++ nl ++ event_line "lo" in
  split LF chunk = [event_line "Hel"; corrupt_line; event_line "lo"]
  /\ JSON.parse (slice 6 corrupt_line) = None
  /\ snd (GeminiChat.read_loop JSON.parse JSON.Number_toString
            TextDecoder.new [bytes chunk] EndOfData fresh)
     = {| queue := [bytes "Hel"; bytes "lo"]; state := Closed |}.
Proof.
  cbv zeta. split; [vm_compute; reflexivity|]. split; [vm_compute; reflexivity|].
  destruct (bad_line_is_skipped JSON.parse JSON.Number_toString
              TextDecoder.new
              {| TextDecoder.pending := ""; TextDecoder.needed := 0;
                 TextDecoder.lower := 128; TextDecoder.upper := 191;
                 TextDecoder.BOM_seen := true |}
              (bytes (event_line "Hel" ++ nl ++ corrupt_line ++ nl ++ event_line "lo"))
              (event_line "Hel" ++ nl ++ corrupt_line ++ nl ++ event_line "lo")
              [event_line "Hel"] [event_line "lo"] corrupt_line [] EndOfData fresh)
    as [_ E].
  - vm_compute. reflexivity.
  - vm_compute. reflexivity.
  - right. vm_compute. reflexivity.
  - rewrite E. vm_compute. reflexivity.
Defined.

Lemma missing_message_never_reaches_provider_witness :
  let c := context (chat "" true) (Some "key") in
  message_missing_or_empty (req_json c) = true
  /\ (exists issues, getValidatedData c = Throw (ZodError issues) /\ issues <> [])
  /\ snd (GeminiChat.handle JSON.parse JSON.Number_toString
            (answering (upstream 200 [document] EndOfData)) "conv_1" c []) = [].
Proof.
  cbv zeta. split; [reflexivity|].
  apply (missing_message_never_reaches_provider JSON.parse JSON.Number_toString
           (answering (upstream 200 [document] EndOfData)) "conv_1"
           (context (chat "" true) (Some "key"))).
  reflexivity.
Defined.

Lemma buffered_message_is_first_text_witness :
  let response := upstream 200 [document] EndOfData in
  let c := context (chat "hi" false) (Some "key") in
  GeminiChat.json JSON.parse response = Normal document_value
  /\ provider_document document_value = true
  /\ text_or_empty document_value = "hello"
  /\ exists body,
       fst (GeminiChat.handle JSON.parse JSON.Number_toString (answering response)
              "conv_1" c []) = Normal (Json (VObject body) 200)
       /\ lookup "success" body = Some (VBool true)
       /\ lookup "message" body = Some (VString (text_or_empty document_value))
       /\ (first_text document_value = None -> lookup "message" body = Some (VString "")).
Proof.
  cbv zeta.
  assert (Hj : GeminiChat.json JSON.parse (upstream 200 [document] EndOfData)
               = Normal document_value) by (vm_compute; reflexivity).
  split; [exact Hj|]. split; [reflexivity|]. split; [reflexivity|].
  apply (buffered_message_is_first_text JSON.parse JSON.Number_toString
           (answering (upstream 200 [document] EndOfData)) "conv_1"
           (context (chat "hi" false) (Some "key"))
           {| Base.message := "hi"; Base.conversation_id := None;
              Base.temperature := 7 # 10; Base.max_tokens := 1024;
              Base.stream := false |}
           (upstream 200 [document] EndOfData) document_value
           eq_refl eq_refl eq_refl (fun _ => eq_refl) eq_refl Hj eq_refl).
Defined.

Lemma usage_present_iff_block_witness :
  let response := upstream 200 [document] EndOfData in
  let c := context (chat "hi" false) (Some "key") in
  GeminiChat.json JSON.parse response = Normal document_value
  /\ provider_document document_value = true
  /\ exists body,
       GeminiChat.handleNormalResponse JSON.parse c response "conv_1"
       = Normal (Json (VObject body) 200)
       /\ exists p k t,
            lookup "usage" body
            = Some (VObject [("prompt_tokens", VNumber p);
                             ("completion_tokens", VNumber k);
                             ("total_tokens", VNumber t)])
            /\ p == 1 /\ k == 1 /\ t == 2.
Proof.
  cbv zeta.
  assert (Hj : GeminiChat.json JSON.parse (upstream 200 [document] EndOfData)
               = Normal document_value) by (vm_compute; reflexivity).
  split; [exact Hj|]. split; [reflexivity|].
  destruct (usage_present_iff_block JSON.parse
              (context (chat "hi" false) (Some "key"))
              (upstream 200 [document] EndOfData) "conv_1" document_value
              Hj eq_refl) as (body & E & _ & Hmap).
  exists body. split; [exact E|].
  apply (Hmap [("promptTokenCount", VNumber 1);
               ("candidatesTokenCount", VNumber 1);
               ("totalTokenCount", VNumber 2)] 1%Q 1%Q 2%Q);
    reflexivity.
Defined.

Lemma missing_credential_is_500_witness :
  let c := context (chat "hi" true) None in
  GeminiChat.missing (GEMINI_API_KEY (env c)) = true
  /\ GeminiChat.handle JSON.parse JSON.Number_toString
       (answering (upstream 200 [document] EndOfData)) "conv_1" c []
     = (Normal (Json (VObject [("success", VBool false);
                               ("error", VString "Gemini API密钥未配置")]) 500), []).
Proof.
  cbv zeta. split; [reflexivity|].
  apply (missing_credential_is_500 JSON.parse JSON.Number_toString
           (answering (upstream 200 [document] EndOfData)) "conv_1"
           (context (chat "hi" true) None)
           {| Base.message := "hi"; Base.conversation_id := None;
              Base.temperature := 7 # 10; Base.max_tokens := 1024;
              Base.stream := true |}
           eq_refl eq_refl).
Defined.

Lemma provider_failure_is_mirrored_witness :
  let response := upstream 429 ["quota"] EndOfData in
  let c := context (chat "hi" true) (Some "key") in
  ok response = false
  /\ exists call,
       GeminiChat.handle JSON.parse JSON.Number_toString (answering response)
         "conv_1" c []
       = (Normal (Json (VObject [("success", VBool false);
                                 ("error", VString "Gemini API请求失败: 429")]) 429),
          [GeminiChat.Fetched call]).
Proof.
  cbv zeta. split; [reflexivity|].
  destruct (provider_failure_is_mirrored JSON.parse JSON.Number_toString
              (answering (upstream 429 ["quota"] EndOfData)) "conv_1"
              (context (chat "hi" true) (Some "key"))
              {| Base.message := "hi"; Base.conversation_id := None;
                 Base.temperature := 7 # 10; Base.max_tokens := 1024;
                 Base.stream := true |}
              (upstream 429 ["quota"] EndOfData)
              eq_refl eq_refl (fun _ => eq_refl) eq_refl) as [call E].
  exists call. rewrite E. reflexivity.
Defined.

Lemma falsy_counter_is_zero_witness :
  let response := upstream 200 [document_with_partial_usage] EndOfData in
  let reply := {| GeminiChatSDK.text := Normal "hello";
                  GeminiChatSDK.usageMetadata := VObject partial_block |} in
  let c := context (chat "hi" false) (Some "key") in
  prop partial_usage_value "usageMetadata" = VObject partial_block
  /\ is_usage (VObject partial_block) = true
  /\ exists body body' p k t,
       GeminiChat.handleNormalResponse JSON.parse c response "conv_1"
       = Normal (Json (VObject body) 200)
       /\ GeminiChatSDK.handleNormalResponseWithSDK c (sdk_model reply) [] no_config
            "conv_1"
          = Normal (Json (VObject body') 200)
       /\ lookup "usage" body
          = Some (VObject [("prompt_tokens", VNumber p);
                           ("completion_tokens", VNumber k);
                           ("total_tokens", VNumber t)])
       /\ lookup "usage" body' = lookup "usage" body
       /\ k = 0%Q /\ t = 0%Q.
Proof.
  cbv zeta. split; [reflexivity|]. split; [reflexivity|].
  assert (Hj : GeminiChat.json JSON.parse
                 (upstream 200 [document_with_partial_usage] EndOfData)
               = Normal partial_usage_value) by (vm_compute; reflexivity).
  destruct (falsy_counter_is_zero JSON.parse
              (context (chat "hi" false) (Some "key"))
              (upstream 200 [document_with_partial_usage] EndOfData) "conv_1"
              partial_usage_value partial_block
              (sdk_model {| GeminiChatSDK.text := Normal "hello";
                            GeminiChatSDK.usageMetadata := VObject partial_block |})
              [] no_config
              {| GeminiChatSDK.text := Normal "hello";
                 GeminiChatSDK.usageMetadata := VObject partial_block |}
              "hello" Hj eq_refl eq_refl eq_refl eq_refl eq_refl)
    as (body & body' & p & k & t & E1 & E2 & L1 & L2 & _ & Zk & Zt).
  exists body, body', p, k, t.
  repeat split; try assumption; [apply Zk|apply Zt]; reflexivity.
Defined.

(* ================================================================== *)
(** * The request schema                                               *)
(* ================================================================== *)

Import Vocabulary MoreExamples.

Lemma z_number_in_bounds (path : string) (lo hi dflt : Q) (v : value) (q : Q) :
  Qle_bool lo dflt && Qle_bool dflt hi = true ->
  Base.z_number_in path lo hi dflt v = inr q ->
  (lo <= q)%Q /\ (q <= hi)%Q.
Proof.
  intros Hd. unfold Base.z_number_in.
  destruct v as [| | |x| | |]; try discriminate.
  - intros [= <-]. apply andb_true_iff in Hd as [H1 H2].
    split; apply Qle_bool_iff; assumption.
  - destruct (Qle_bool lo x) eqn:H1; cbn [negb]; [|discriminate].
    destruct (Qle_bool x hi) eqn:H2; cbn [negb]; [|discriminate].
    intros [= <-]. split; apply Qle_bool_iff; assumption.
Qed.

Lemma safeParse_bounds (raw : value) (data : Base.ChatRequest) :
  Base.ChatRequest_safeParse raw = inr data ->
  Base.message data <> ""
  /\ (0 <= Base.temperature data)%Q /\ (Base.temperature data <= 2)%Q
  /\ (1 <= Base.max_tokens data)%Q /\ (Base.max_tokens data <= 8192)%Q.
Proof.
  unfold Base.ChatRequest_safeParse.
  destruct raw as [| | | | | |fields]; try discriminate.
  destruct (Base.z_message (Base.field fields "message")) as [|m] eqn:Hm;
    [destruct (Base.z_conversation_id _), (Base.z_temperature _),
       (Base.z_max_tokens _), (Base.z_stream _); discriminate|].
  destruct (Base.z_conversation_id (Base.field fields "conversation_id")) as [|cid];
    [destruct (Base.z_temperature _), (Base.z_max_tokens _), (Base.z_stream _);
     discriminate|].
  destruct (Base.z_temperature (Base.field fields "temperature")) as [|t] eqn:Ht;
    [destruct (Base.z_max_tokens _), (Base.z_stream _); discriminate|].
  destruct (Base.z_max_tokens (Base.field fields "max_tokens")) as [|k] eqn:Hk;
    [destruct (Base.z_stream _); discriminate|].
  destruct (Base.z_stream (Base.field fields "stream")) as [|b]; [discriminate|].
  intros [= <-]. cbn [Base.message Base.temperature Base.max_tokens].
  split.
  - unfold Base.z_message in Hm.
    destruct (Base.field fields "message") as [| | | |s| |]; try discriminate.
    destruct s; [discriminate|]. injection Hm as <-. discriminate.
  - destruct (z_number_in_bounds _ 0 2 (7 # 10) _ t eq_refl Ht).
    destruct (z_number_in_bounds _ 1 8192 1024 _ k eq_refl Hk).
    repeat split; assumption.
Qed.

(** X1.  A request that passes validation has a non-empty message, a
    temperature in [0, 2] and a token cap in [1, 8192], whether the two
    numbers were sent or filled in. *)
Theorem validated_request_is_in_range (raw : value) (data : Base.ChatRequest) :
  Base.ChatRequest_safeParse raw = inr data ->
  Base.message data <> ""
  /\ (0 <= Base.temperature data)%Q /\ (Base.temperature data <= 2)%Q
  /\ (1 <= Base.max_tokens data)%Q /\ (Base.max_tokens data <= 8192)%Q.
Proof. exact (safeParse_bounds raw data). Qed.

(** X2.  An inbound object with a non-empty message, and whose other fields are
    either missing or of the right type and in range, passes validation: the
    fields that were sent are kept as they are, the others get 0.7, 1024 and
    [true]. *)
Theorem defaults_are_filled (fields : list (string * value)) (message : string)
    (conversation_id : option string) (temperature max_tokens : option Q)
    (stream : option bool) :
  Base.field fields "message" = VString message ->
  message <> "" ->
  Base.field fields "conversation_id" = optional VString conversation_id ->
  Base.field fields "temperature" = optional VNumber temperature ->
  in_range 0 2 temperature = true ->
  Base.field fields "max_tokens" = optional VNumber max_tokens ->
  in_range 1 8192 max_tokens = true ->
  Base.field fields "stream" = optional VBool stream ->
  Base.ChatRequest_safeParse (VObject fields)
  = inr {| Base.message := message;
           Base.conversation_id := conversation_id;
           Base.temperature := or_default (7 # 10) temperature;
           Base.max_tokens := or_default 1024%Q max_tokens;
           Base.stream := or_default true stream |}.
Proof.
  intros Hm Hne Hc Ht Rt Hk Rk Hs.
  unfold Base.ChatRequest_safeParse. rewrite Hm, Hc, Ht, Hk, Hs.
  assert (Em : Base.z_message (VString message) = inr message).
  { destruct message; [contradiction|reflexivity]. }
  assert (Ec : Base.z_conversation_id (optional VString conversation_id)
               = inr conversation_id) by (destruct conversation_id; reflexivity).
  assert (Et : Base.z_temperature (optional VNumber temperature)
               = inr (or_default (7 # 10) temperature)).
  { destruct temperature as [q|]; [|reflexivity]. cbn in Rt |- *.
    apply andb_true_iff in Rt as [-> ->]. reflexivity. }
  assert (Ek : Base.z_max_tokens (optional VNumber max_tokens)
               = inr (or_default 1024%Q max_tokens)).
  { destruct max_tokens as [q|]; [|reflexivity]. cbn in Rk |- *.
    apply andb_true_iff in Rk as [-> ->]. reflexivity. }
  assert (Es : Base.z_stream (optional VBool stream) = inr (or_default true stream))
    by (destruct stream; reflexivity).
  rewrite Em, Ec, Et, Ek, Es. reflexivity.
Qed.

(* ================================================================== *)
(** * [handle], over [fetch]                                           *)
(* ================================================================== *)

Section HandleFacts.

Variable JSON_parse : string -> option value.
Variable Number_toString : Q -> string.
Variable provider : GeminiChat.ProviderCall -> completion FetchResponse.
Variable generated_id : string.

Notation handle := (GeminiChat.handle JSON_parse Number_toString provider generated_id).
Notation handleStreamResponse := (GeminiChat.handleStreamResponse JSON_parse Number_toString).
Notation handleNormalResponse := (GeminiChat.handleNormalResponse JSON_parse).
Notation json := (GeminiChat.json JSON_parse).
Notation resolve := (GeminiChat.resolve generated_id).

Lemma getValidatedData_cases (c : AppContext) :
  (exists data, Base.ChatRequest_safeParse (req_json c) = inr data
                /\ getValidatedData c = Normal data)
  \/ (exists issues, getValidatedData c = Throw (ZodError issues)).
Proof.
  unfold getValidatedData.
  destruct (Base.ChatRequest_safeParse (req_json c)) as [issues|data]; eauto.
Qed.

Lemma handle_rejected (c : AppContext) (issues : list ZodIssue) :
  getValidatedData c = Throw (ZodError issues) ->
  handle c [] = (Normal internal_error, []).
Proof.
  intros Hv. unfold GeminiChat.handle, ebind, etry_catch, lift, eret.
  rewrite Hv. reflexivity.
Qed.

Lemma handle_without_key (c : AppContext) (data : Base.ChatRequest) :
  getValidatedData c = Normal data ->
  GeminiChat.missing (GEMINI_API_KEY (env c)) = true ->
  snd (handle c []) = [].
Proof.
  intros Hv Hk. unfold GeminiChat.handle, ebind, etry_catch, lift, eret.
  rewrite Hv, Hk. reflexivity.
Qed.

(** [handle] on a valid request with a credential, by what the provider
    does. *)
Lemma handle_valid (c : AppContext) (data : Base.ChatRequest) :
  getValidatedData c = Normal data ->
  GeminiChat.missing (GEMINI_API_KEY (env c)) = false ->
  handle c []
  = let call := call_of data (GeminiChat.key_of (GEMINI_API_KEY (env c))) in
    match provider call with
    | Throw _ => (Normal internal_error, [GeminiChat.Fetched call])
    | Normal response =>
        if ok response then
          (if Base.stream data
           then handleStreamResponse c response (resolve (Base.conversation_id data))
           else handleNormalResponse c response (resolve (Base.conversation_id data)),
           [GeminiChat.Fetched call; GeminiChat.Translated (Base.stream data)])
        else
          (Normal match text response with
                  | Normal _ =>
                      if carries_body (status response)
                      then mirrored (status response)
                      else internal_error
                  | Throw _ => internal_error
                  end,
           [GeminiChat.Fetched call])
    end.
Proof.
  intros Hv Hk.
  unfold GeminiChat.handle, ebind, etry_catch, lift, eret, GeminiChat.fetch,
    GeminiChat.translate.
  rewrite Hv, Hk. cbv zeta.
  change {| GeminiChat.url := _; GeminiChat.method := _;
            GeminiChat.headers := _; GeminiChat.body := _ |}
    with (call_of data (GeminiChat.key_of (GEMINI_API_KEY (env c)))).
  destruct (provider _) as [response|e]; [|reflexivity].
  destruct (ok response); cbn [negb].
  - destruct (Base.stream data); reflexivity.
  - destruct (text response) as [errorText|e]; [|reflexivity].
    pose proof (c_json_cases
                  [("success", VBool false);
                   ("error", VString ("Gemini API请求失败: "
                                      ++ string_of_Z (status response)))]
                  (status response)) as Hj.
    destruct (carries_body (status response)).
    + rewrite Hj. reflexivity.
    + destruct Hj as [thrown ->]. reflexivity.
Qed.

End HandleFacts.

Lemma number_out_of_range (path : string) (lo hi dflt q : Q) :
  in_range lo hi (Some q) = false ->
  exists i, Base.z_number_in path lo hi dflt (VNumber q) = inl i.
Proof.
  unfold in_range, Base.z_number_in. intros H.
  destruct (Qle_bool lo q); cbn [negb]; [|eauto].
  destruct (Qle_bool q hi); cbn [negb]; [discriminate|eauto].
Qed.

(** The body [c.json] sends for the four fields of a [ChatResponse]. *)
Lemma c_json_fields (conversationId : string) (message usage : value) :
  exists body,
    json_response [("success", VBool true);
            ("conversation_id", VString conversationId);
            ("message", message);
            ("usage", usage)] 200
    = Json (VObject body) 200
    /\ lookup "success" body = Some (VBool true)
    /\ lookup "conversation_id" body = Some (VString conversationId)
    /\ lookup "message" body
       = match message with
         | VUndefined => None
         | _ => Some (serialised message)
         end.
Proof.
  unfold json_response.
  destruct message; destruct usage; cbn [serialised]; eexists;
    (split; [reflexivity|split; [reflexivity|split; reflexivity]]).
Qed.

Lemma message_of_defined (doc : value) : message_of doc <> VUndefined.
Proof.
  unfold message_of. destruct (truthy (first_text_value doc)) eqn:T; [|discriminate].
  intros E. rewrite E in T. discriminate.
Qed.

Section HandleProperties.

Variable JSON_parse : string -> option value.
Variable Number_toString : Q -> string.
Variable provider : GeminiChat.ProviderCall -> completion FetchResponse.
Variable generated_id : string.

Notation handle := (GeminiChat.handle JSON_parse Number_toString provider generated_id).
Notation handleStreamResponse := (GeminiChat.handleStreamResponse JSON_parse Number_toString).
Notation handleNormalResponse := (GeminiChat.handleNormalResponse JSON_parse).
Notation json := (GeminiChat.json JSON_parse).
Notation resolve := (GeminiChat.resolve generated_id).

(** X3.  A temperature outside [0, 2] or a token cap outside [1, 8192] is taken
    by the catch-all of [handle]: the generic failure envelope, and no
    provider call. *)
Theorem out_of_range_is_rejected (c : AppContext) (fields : list (string * value)) :
  req_json c = VObject fields ->
  (exists q, Base.field fields "temperature" = VNumber q
             /\ in_range 0 2 (Some q) = false)
  \/ (exists q, Base.field fields "max_tokens" = VNumber q
                /\ in_range 1 8192 (Some q) = false) ->
  handle c [] = (Normal internal_error, []).
Proof.
  intros Hreq H.
  assert (Hv : exists issues, getValidatedData c = Throw (ZodError issues)).
  { unfold getValidatedData, Base.ChatRequest_safeParse. rewrite Hreq.
    destruct H as [(q & Hf & Hr)|(q & Hf & Hr)]; rewrite Hf.
    - destruct (number_out_of_range "temperature" 0 2 (7 # 10) q Hr) as [i Hi].
      unfold Base.z_temperature. rewrite Hi.
      destruct (Base.z_message _), (Base.z_conversation_id _),
        (Base.z_max_tokens _), (Base.z_stream _); eauto.
    - destruct (number_out_of_range "max_tokens" 1 8192 1024 q Hr) as [i Hi].
      unfold Base.z_max_tokens. rewrite Hi.
      destruct (Base.z_message _), (Base.z_conversation_id _),
        (Base.z_temperature _), (Base.z_stream _); eauto. }
  destruct Hv as [issues Hv].
  exact (handle_rejected JSON_parse Number_toString provider generated_id c issues Hv).
Qed.

(** X4.  For a valid request and a credential, the first thing [handle] does is
    one [POST] to the model's endpoint ([streamGenerateContent] or
    [generateContent], by the [stream] flag) with the credential in
    [X-goog-api-key] and a body of one turn without a role, whose only part
    is the message, and the request's temperature and token cap. *)
Theorem provider_request_is_built_from_request (c : AppContext)
    (data : Base.ChatRequest) (key : string) :
  getValidatedData c = Normal data ->
  GEMINI_API_KEY (env c) = Some key ->
  key <> "" ->
  exists rest,
    snd (handle c [])
    = GeminiChat.Fetched
        {| GeminiChat.url :=
             if Base.stream data
             then "https://generativelanguage.googleapis.com/v1beta/models/gemini-2.0-flash:streamGenerateContent"
             else "https://generativelanguage.googleapis.com/v1beta/models/gemini-2.0-flash:generateContent";
           GeminiChat.method := "POST";
           GeminiChat.headers := [("Content-Type", "application/json");
                                  ("X-goog-api-key", key)];
           GeminiChat.body :=
             {| Base.Gemini.contents :=
                  [ {| Base.Gemini.role := None;
                       Base.Gemini.parts := [Base.message data] |} ];
                Base.Gemini.generationConfig :=
                  Some {| Base.Gemini.temperature := Some (Base.temperature data);
                          Base.Gemini.topK := None;
                          Base.Gemini.topP := None;
                          Base.Gemini.maxOutputTokens := Some (Base.max_tokens data);
                          Base.Gemini.stopSequences := None |};
                Base.Gemini.safetySettings := None |} |}
      :: rest.
Proof.
  intros Hv Hkey Hne.
  assert (Hk : GeminiChat.missing (GEMINI_API_KEY (env c)) = false).
  { rewrite Hkey. cbn. apply String.eqb_neq. exact Hne. }
  rewrite (handle_valid JSON_parse Number_toString provider generated_id c data Hv Hk).
  cbv zeta. rewrite Hkey. cbn [GeminiChat.key_of].
  assert (Hcall : call_of data key = {|
    GeminiChat.url :=
      if Base.stream data
      then "https://generativelanguage.googleapis.com/v1beta/models/gemini-2.0-flash:streamGenerateContent"
      else "https://generativelanguage.googleapis.com/v1beta/models/gemini-2.0-flash:generateContent";
    GeminiChat.method := "POST";
    GeminiChat.headers := [("Content-Type", "application/json");
                           ("X-goog-api-key", key)];
    GeminiChat.body := GeminiChat.body (call_of data key) |})
    by (unfold call_of; destruct (Base.stream data); reflexivity).
  destruct (provider (call_of data key)) as [response|e].
  - destruct (ok response); cbn [snd]; rewrite Hcall; eexists; reflexivity.
  - cbn [snd]. rewrite Hcall. eexists. reflexivity.
Qed.

(** X5.  Whatever the request and the provider: every call [handle] makes to the
    provider carries the configured credential, a message that is not
    empty, and a body the [GeminiRequest] schema accepts. *)
Theorem provider_request_conforms (c : AppContext) (call : GeminiChat.ProviderCall) :
  In (GeminiChat.Fetched call) (snd (handle c [])) ->
  GeminiRequestSchema.accepts (GeminiChat.body call) = true
  /\ (exists key, GEMINI_API_KEY (env c) = Some key /\ key <> ""
                  /\ header "X-goog-api-key" (GeminiChat.headers call) = Some key)
  /\ (exists message, message <> ""
                      /\ Base.Gemini.contents (GeminiChat.body call)
                         = [ {| Base.Gemini.role := None;
                                Base.Gemini.parts := [message] |} ]).
Proof.
  intros Hin.
  destruct (getValidatedData_cases c) as [(data & Hp & Hv)|(issues & Hv)].
  2:{ rewrite (handle_rejected JSON_parse Number_toString provider generated_id
                 c issues Hv) in Hin. destruct Hin. }
  destruct (GeminiChat.missing (GEMINI_API_KEY (env c))) eqn:Hk.
  { rewrite (handle_without_key JSON_parse Number_toString provider generated_id
               c data Hv Hk) in Hin. destruct Hin. }
  assert (Hcall : call = call_of data (GeminiChat.key_of (GEMINI_API_KEY (env c)))).
  { rewrite (handle_valid JSON_parse Number_toString provider generated_id
               c data Hv Hk) in Hin. cbv zeta in Hin.
    destruct (provider _) as [response|e].
    - destruct (ok response); cbn [snd] in Hin.
      + destruct Hin as [[= <-]|[Hin|[]]]; [reflexivity|discriminate].
      + destruct Hin as [[= <-]|[]]. reflexivity.
    - destruct Hin as [[= <-]|[]]. reflexivity. }
  subst call.
  destruct (safeParse_bounds _ _ Hp) as (Hm & T0 & T2 & _).
  split; [|split].
  - unfold GeminiRequestSchema.accepts, GeminiRequestSchema.GenerationConfig_accepts,
      GeminiRequestSchema.within. cbn.
    apply Qle_bool_iff in T0, T2. rewrite T0, T2. reflexivity.
  - destruct (GEMINI_API_KEY (env c)) as [key|]; [|discriminate].
    exists key. cbn in Hk. apply String.eqb_neq in Hk.
    split; [reflexivity|]. split; [exact Hk|]. cbn. reflexivity.
  - exists (Base.message data). split; [exact Hm|reflexivity].
Qed.

(** X6.  One request makes at most one provider call, and a translator runs at
    most once, and only after the provider has answered with a success
    status. *)
Theorem at_most_one_provider_call (c : AppContext) :
  snd (handle c []) = []
  \/ (exists call, snd (handle c []) = [GeminiChat.Fetched call])
  \/ (exists call response streaming,
        provider call = Normal response /\ ok response = true
        /\ snd (handle c [])
           = [GeminiChat.Fetched call; GeminiChat.Translated streaming]).
Proof.
  destruct (getValidatedData_cases c) as [(data & Hp & Hv)|(issues & Hv)].
  2:{ left. rewrite (handle_rejected JSON_parse Number_toString provider generated_id
                       c issues Hv). reflexivity. }
  destruct (GeminiChat.missing (GEMINI_API_KEY (env c))) eqn:Hk.
  { left. exact (handle_without_key JSON_parse Number_toString provider generated_id
                   c data Hv Hk). }
  right.
  rewrite (handle_valid JSON_parse Number_toString provider generated_id c data Hv Hk).
  cbv zeta.
  destruct (provider _) as [response|e] eqn:Hprov.
  - destruct (ok response) eqn:Hok; cbn [snd].
    + right. eexists. exists response. eexists. repeat split; eassumption.
    + left. eexists. reflexivity.
  - left. eexists. reflexivity.
Qed.

(** X7.  When [fetch] itself throws (the provider cannot be reached), [handle]
    answers the generic failure envelope under 500, after that one call and
    without a translator. *)
Theorem unreachable_provider_is_500 (c : AppContext) (data : Base.ChatRequest) :
  getValidatedData c = Normal data ->
  GeminiChat.missing (GEMINI_API_KEY (env c)) = false ->
  (forall call, exists e, provider call = Throw e) ->
  exists call,
    handle c []
    = (Normal (Json (VObject [("success", VBool false);
                              ("error", VString "处理请求时发生内部错误")]) 500),
       [GeminiChat.Fetched call]).
Proof.
  intros Hv Hk Hp.
  rewrite (handle_valid JSON_parse Number_toString provider generated_id c data Hv Hk).
  cbv zeta.
  destruct (Hp (call_of data (GeminiChat.key_of (GEMINI_API_KEY (env c))))) as [e He].
  rewrite He. eexists. reflexivity.
Qed.

(** X8.  [handle] can only throw out of a translator, after its own [catch]:
    when it throws, the request was valid, the provider answered with a
    success status and the translator the request asks for was called.  For a
    buffered request the exception is the one [handleNormalResponse] threw;
    for a streaming request the response had a body, and the exception is
    the one the header calls throw for a conversation identifier that is no
    header value. *)
Theorem handle_throws_only_from_a_translator (c : AppContext) (e : exn) :
  fst (handle c []) = Throw e ->
  exists data call response,
    getValidatedData c = Normal data
    /\ provider call = Normal response
    /\ ok response = true
    /\ snd (handle c [])
       = [GeminiChat.Fetched call; GeminiChat.Translated (Base.stream data)]
    /\ if Base.stream data
       then (exists reader, Web.body response = Some reader)
            /\ header_value (resolve (Base.conversation_id data)) = Throw e
       else handleNormalResponse c response (resolve (Base.conversation_id data))
            = Throw e.
Proof.
  intros Hthrow.
  destruct (getValidatedData_cases c) as [(data & Hp & Hv)|(issues & Hv)].
  2:{ rewrite (handle_rejected JSON_parse Number_toString provider generated_id
                 c issues Hv) in Hthrow. discriminate. }
  destruct (GeminiChat.missing (GEMINI_API_KEY (env c))) eqn:Hk.
  { revert Hthrow. unfold GeminiChat.handle, ebind, etry_catch, lift, eret.
    rewrite Hv, Hk. discriminate. }
  revert Hthrow.
  rewrite (handle_valid JSON_parse Number_toString provider generated_id c data Hv Hk).
  cbv zeta.
  destruct (provider _) as [response|e'] eqn:Hprov; [|discriminate].
  destruct (ok response) eqn:Hok; [|discriminate].
  cbn [fst snd]. intros Hthrow. exists data. eexists. exists response.
  split; [exact Hv|]. split; [exact Hprov|]. split; [exact Hok|].
  split; [reflexivity|].
  destruct (Base.stream data) eqn:Hs; [|exact Hthrow].
  destruct (Web.body response) as [reader|] eqn:Hb.
  - split; [eexists; reflexivity|].
    rewrite (handleStreamResponse_value JSON_parse Number_toString
               c response _ reader Hb) in Hthrow.
    destruct (header_value (resolve (Base.conversation_id data))) as [v|thrown];
      [discriminate|injection Hthrow as ->; reflexivity].
  - unfold GeminiChat.handleStreamResponse in Hthrow. rewrite Hb in Hthrow.
    discriminate.
Qed.

(** X9.  The buffered translator throws exactly when the provider's body cannot
    be read, is not JSON, or is [null]; for every other document, of whatever
    shape, it answers 200 with [success: true], the conversation identifier
    and a [message]. *)
Theorem buffered_translation_throws_exactly_when (c : AppContext)
    (response : FetchResponse) (conversationId : string) :
  ((exists e, handleNormalResponse c response conversationId = Throw e)
   <-> (exists e, json response = Throw e)
       \/ (exists doc, json response = Normal doc /\ nullish doc = true))
  /\ (forall doc,
        json response = Normal doc -> nullish doc = false ->
        exists body message,
          handleNormalResponse c response conversationId
          = Normal (Json (VObject body) 200)
          /\ lookup "success" body = Some (VBool true)
          /\ lookup "conversation_id" body = Some (VString conversationId)
          /\ lookup "message" body = Some message).
Proof.
  assert (Hok : forall doc,
             json response = Normal doc -> nullish doc = false ->
             exists body message,
               handleNormalResponse c response conversationId
               = Normal (Json (VObject body) 200)
               /\ lookup "success" body = Some (VBool true)
               /\ lookup "conversation_id" body = Some (VString conversationId)
               /\ lookup "message" body = Some message).
  { intros doc Hj N.
    rewrite (handleNormalResponse_value JSON_parse c response conversationId doc Hj N).
    destruct (c_json_fields conversationId (message_of doc)
                (usage_computed (prop doc "usageMetadata")))
      as (body & E & Hs & Hc & Hm).
    exists body. exists (serialised (message_of doc)). rewrite E.
    repeat split; try assumption. rewrite Hm.
    pose proof (message_of_defined doc) as Hd.
    destruct (message_of doc); try reflexivity. contradiction. }
  split; [|exact Hok].
  split.
  - intros [e He]. destruct (json response) as [doc|e'] eqn:Hj; [|eauto].
    right. exists doc. split; [reflexivity|].
    destruct (nullish doc) eqn:N; [reflexivity|].
    destruct (Hok doc eq_refl N) as (body & m & E & _). congruence.
  - intros [[e He]|(doc & Hj & N)];
      unfold GeminiChat.handleNormalResponse; [rewrite He|rewrite Hj].
    + eexists. reflexivity.
    + destruct (get_nullish doc "candidates" N) as [e He].
      unfold GeminiChat.candidates, and_then, bind. rewrite He.
      eexists. reflexivity.
Qed.

(** X10.  A success status without a body, for a streaming request: the streaming
    translator answers 500 with its own failure envelope. *)
Theorem stream_without_body_is_500 (c : AppContext) (data : Base.ChatRequest)
    (response : FetchResponse) :
  getValidatedData c = Normal data ->
  Base.stream data = true ->
  GeminiChat.missing (GEMINI_API_KEY (env c)) = false ->
  (forall call, provider call = Normal response) ->
  ok response = true ->
  Web.body response = None ->
  exists call,
    handle c []
    = (Normal (Json (VObject [("success", VBool false);
                              ("error", VString "无法读取流式响应")]) 500),
       [GeminiChat.Fetched call; GeminiChat.Translated true]).
Proof.
  intros Hv Hs Hk Hp Hok Hb.
  rewrite (handle_valid JSON_parse Number_toString provider generated_id c data Hv Hk).
  cbv zeta. rewrite Hp, Hok, Hs.
  unfold GeminiChat.handleStreamResponse. rewrite Hb.
  eexists. reflexivity.
Qed.

(** X11.  The conversation identifier of a successful answer is the one the
    request names when it names a non-empty one, and a generated one when it
    names none or the empty string.  A buffered response carries it as it is
    in its [conversation_id] field; a streamed response carries it in its
    [X-Conversation-ID] header as a header value, that is, without the HTTP
    white space around it. *)
Theorem conversation_id_is_echoed (c : AppContext) (data : Base.ChatRequest)
    (response : FetchResponse) :
  getValidatedData c = Normal data ->
  GeminiChat.missing (GEMINI_API_KEY (env c)) = false ->
  (forall call, provider call = Normal response) ->
  ok response = true ->
  let id := match Base.conversation_id data with
            | Some named => if (named =? "")%string then generated_id else named
            | None => generated_id
            end in
  (forall reader v,
     Base.stream data = true -> Web.body response = Some reader ->
     header_value id = Normal v ->
     exists headers stream,
       fst (handle c []) = Normal (Streaming headers stream)
       /\ header "X-Conversation-ID" headers = Some v
       /\ v = normalize id)
  /\ (forall doc,
        Base.stream data = false -> json response = Normal doc ->
        nullish doc = false ->
        exists body,
          fst (handle c []) = Normal (Json (VObject body) 200)
          /\ lookup "conversation_id" body = Some (VString id)).
Proof.
  intros Hv Hk Hp Hok id.
  rewrite (handle_valid JSON_parse Number_toString provider generated_id c data Hv Hk).
  cbv zeta. rewrite Hp, Hok. cbn [fst].
  split.
  - intros reader v Hs Hb Hh. rewrite Hs.
    rewrite (handleStreamResponse_value JSON_parse Number_toString
               c response _ reader Hb).
    change (resolve (Base.conversation_id data)) with id. rewrite Hh.
    eexists. eexists. split; [reflexivity|]. split; [reflexivity|].
    exact (header_value_normal id v Hh).
  - intros doc Hs Hj N. rewrite Hs.
    rewrite (handleNormalResponse_value JSON_parse c response _ doc Hj N).
    destruct (c_json_fields (resolve (Base.conversation_id data)) (message_of doc)
                (usage_computed (prop doc "usageMetadata")))
      as (body & E & _ & Hc & _).
    exists body. rewrite E. split; [reflexivity|exact Hc].
Qed.

End HandleProperties.

(* ================================================================== *)
(** * More on the streaming translator                                 *)
(* ================================================================== *)

Lemma ends_with_LF_app (s : string) :
  ends_with_LF s = true -> exists t, s = t ++ String LF "".
Proof.
  induction s as [|ch s IH]; [discriminate|].
  destruct s as [|ch' s'].
  - cbn. intros H. apply Ascii.eqb_eq in H. subst ch. exists "". reflexivity.
  - intros H. change (ends_with_LF (String ch' s') = true) in H.
    destruct (IH H) as [t Ht]. exists (String ch t). cbn. rewrite <- Ht. reflexivity.
Qed.

Lemma list_byte_of_string_nonempty (s : string) :
  s <> "" -> list_byte_of_string s <> [].
Proof. destruct s; [contradiction|]. intros _. discriminate. Qed.

Section StreamProperties.

Variable JSON_parse : string -> option value.
Variable Number_toString : Q -> string.

Notation on_line := (GeminiChat.on_line JSON_parse Number_toString).
Notation read_loop := (GeminiChat.read_loop JSON_parse Number_toString).
Notation start := (GeminiChat.start JSON_parse Number_toString).
Notation line_output := (Spec.line_output JSON_parse Number_toString).

Lemma read_lines_app (reads1 reads2 : list (list Byte.byte)) :
  forall d, exists d',
    read_lines d (reads1 ++ reads2)
    = (read_lines d reads1 ++ read_lines d' reads2)%list.
Proof.
  induction reads1 as [|value rest IH]; intros d.
  - exists d. reflexivity.
  - unfold read_lines. cbn [app decoded].
    destruct (TextDecoder.decode d value) as [d1 chunk].
    destruct (IH d1) as [d' E]. exists d'. unfold read_lines in E.
    cbn [flat_map]. rewrite E, app_assoc. reflexivity.
Qed.

(** X14.  What has been put on the caller's stream after some reads is not
    changed by the reads that follow, nor by the way the upstream ends: the
    fragments of a longer stream begin with the fragments of the shorter
    one. *)
Theorem earlier_output_is_never_revised (reads1 reads2 : list (list Byte.byte))
    (ending1 ending2 : Ending) :
  exists more,
    queue (snd (start {| reads := (reads1 ++ reads2)%list; ending := ending2 |} fresh))
    = (queue (snd (start {| reads := reads1; ending := ending1 |} fresh)) ++ more)%list.
Proof.
  rewrite !start_stream. cbn [snd queue reads].
  destruct (read_lines_app reads1 reads2 TextDecoder.new) as [d' E].
  rewrite E, flat_map_app. eexists. reflexivity.
Qed.

Lemma read_loop_aligned (reads : list (list Byte.byte)) (ending : Ending) :
  forall (d : TextDecoder.t) (c : Controller),
    aligned d reads = true ->
    read_loop d [List.concat reads] ending c = read_loop d reads ending c.
Proof.
  induction reads as [|a rest IH]; intros d c H.
  - cbn [List.concat GeminiChat.read_loop TextDecoder.decode split
           GeminiChat.for_of].
    unfold ebind, eret.
    rewrite (on_line_skipped JSON_parse Number_toString "" c eq_refl). reflexivity.
  - cbn [aligned] in H. cbn [List.concat].
    destruct (TextDecoder.decode d a) as [d1 text_a] eqn:Ha.
    apply andb_true_iff in H as [Hlf Hrest].
    destruct (ends_with_LF_app text_a Hlf) as [t ->].
    destruct (TextDecoder.decode d1 (List.concat rest)) as [d2 text_b] eqn:Hb.
    rewrite (read_boundary_after_line_feed JSON_parse Number_toString
               d d1 d2 a (List.concat rest) t text_b [] ending c Ha Hb).
    cbn [GeminiChat.read_loop]. rewrite Ha.
    change (let (decoder', chunk) := TextDecoder.decode d1 (List.concat rest) in
            GeminiChat.for_of (split LF chunk) on_line ;;;
            read_loop decoder' [] ending)
      with (read_loop d1 [List.concat rest] ending).
    unfold ebind.
    destruct (GeminiChat.for_of (split LF (t ++ String LF "")) on_line c)
      as [[[]|e] c1]; [|reflexivity].
    apply IH. exact Hrest.
Qed.

(** X15.  When every read ends with a line feed, the caller's stream is the same
    as if the provider's bytes had arrived in one read. *)
Theorem whole_line_reads_are_chunking_invariant (reads : list (list Byte.byte))
    (ending : Ending) :
  aligned TextDecoder.new reads = true ->
  start {| Web.reads := reads; Web.ending := ending |} fresh
  = start {| Web.reads := [List.concat reads]; Web.ending := ending |} fresh.
Proof.
  intros H. unfold GeminiChat.start, etry_catch. cbn [Web.reads Web.ending].
  rewrite (read_loop_aligned reads ending TextDecoder.new fresh H). reflexivity.
Qed.

Lemma forwarded_length (data : value) :
  (List.length (Spec.forwarded Number_toString data) <= 1)%nat.
Proof.
  unfold Spec.forwarded. destruct (truthy (first_text_value data)); cbn; auto.
Qed.

Lemma forwarded_nonempty (data : value) :
  provider_document data = true ->
  Forall (fun fragment => fragment <> []) (Spec.forwarded Number_toString data).
Proof.
  intros H. unfold Spec.forwarded.
  destruct (first_text_value_shaped data H) as [(s & E1 & _)|[E1 _]]; rewrite E1.
  - cbn [truthy]. destruct (String.eqb_spec s ""); cbn [negb]; constructor; [|constructor].
    cbn. apply list_byte_of_string_nonempty. assumption.
  - constructor.
Qed.

(** X16.  A successfully parsed line puts at most one fragment on the caller's
    stream, and, when the events have the provider's shape, never an empty
    one: an event whose text is the empty string is passed over. *)
Theorem no_empty_fragment (reader : Body) :
  (List.length (queue (snd (start reader fresh)))
   <= List.length (read_events JSON_parse (reads reader)))%nat
  /\ (forallb provider_document (read_events JSON_parse (reads reader)) = true ->
      Forall (fun fragment => fragment <> []) (queue (snd (start reader fresh)))).
Proof.
  rewrite start_stream. cbn [snd queue]. rewrite line_output_events.
  unfold read_events. generalize (events_of JSON_parse (read_lines TextDecoder.new (reads reader))).
  intros evs. split.
  - induction evs as [|e evs IH]; [reflexivity|].
    cbn [flat_map List.length]. rewrite length_app.
    pose proof (forwarded_length e). apply (Nat.le_trans _ (1 + List.length evs)).
    + apply Nat.add_le_mono; assumption.
    + reflexivity.
  - induction evs as [|e evs IH]; intros H; [constructor|].
    cbn [forallb] in H. apply andb_true_iff in H as [He Hevs].
    cbn [flat_map]. apply Forall_app. split; [apply forwarded_nonempty; exact He|].
    apply IH. exact Hevs.
Qed.

End StreamProperties.

Section WholeLineStream.

Variable JSON_parse : string -> option value.
Variable Number_toString : Q -> string.
Variable provider : GeminiChat.ProviderCall -> completion FetchResponse.
Variable generated_id : string.

Notation handle := (GeminiChat.handle JSON_parse Number_toString provider generated_id).
Notation resolve := (GeminiChat.resolve generated_id).
Notation line_output := (Spec.line_output JSON_parse Number_toString).

(** One read of all the bytes is cut into the lines of the stream. *)
Lemma read_lines_one_read (reads : list (list Byte.byte)) :
  read_lines TextDecoder.new [List.concat reads] = stream_lines reads.
Proof.
  unfold read_lines, stream_lines, stream_text. cbn [decoded].
  destruct (TextDecoder.decode TextDecoder.new (List.concat reads)) as [d chunk].
  cbn. apply app_nil_r.
Qed.

(** When every read ends with a line feed, the lines the translator looks at
    forward what the lines of the stream forward. *)
Lemma aligned_lines (reads : list (list Byte.byte)) :
  aligned TextDecoder.new reads = true ->
  flat_map line_output (read_lines TextDecoder.new reads)
  = flat_map line_output (stream_lines reads).
Proof.
  intros Ha.
  pose proof (read_loop_aligned JSON_parse Number_toString reads EndOfData
                TextDecoder.new fresh Ha) as H.
  rewrite !(read_loop_readable JSON_parse Number_toString _ EndOfData
              TextDecoder.new fresh eq_refl) in H.
  injection H as H. cbn [queue fresh app] in H.
  rewrite <- H, read_lines_one_read. reflexivity.
Qed.

(** X23.  A valid request with [stream = true], whose conversation identifier
    can be a header value, answered by the provider with a stream every read
    of which ends with a line feed: the fragments on the caller's stream
    are, in arrival order, what [data.candidates[0].content.parts[0].text]
    is in every successfully parsed [data: ] line of the provider stream, and
    nothing for an event where that path is missing or empty.  When the
    events have the provider's shape, the bytes on the caller's stream,
    concatenated, are the first text part of the first candidate of every
    such line, concatenated in arrival order. *)
Theorem whole_line_stream_is_event_texts (c : AppContext) (data : Base.ChatRequest)
    (response : FetchResponse) (reader : Body) (v : string) :
  getValidatedData c = Normal data ->
  Base.stream data = true ->
  GeminiChat.missing (GEMINI_API_KEY (env c)) = false ->
  (forall call, provider call = Normal response) ->
  ok response = true ->
  Web.body response = Some reader ->
  header_value (resolve (Base.conversation_id data)) = Normal v ->
  aligned TextDecoder.new (reads reader) = true ->
  exists headers stream,
    fst (handle c []) = Normal (Streaming headers stream)
    /\ queue stream
       = flat_map (Spec.forwarded Number_toString)
           (stream_events JSON_parse (reads reader))
    /\ (forallb provider_document (stream_events JSON_parse (reads reader)) = true ->
        List.concat (queue stream)
        = List.concat (map (fun event => list_byte_of_string (text_or_empty event))
                           (stream_events JSON_parse (reads reader)))).
Proof.
  intros Hv Hs Hk Hp Hok Hb Hh Ha.
  destruct (handle_translates JSON_parse Number_toString provider generated_id
              c data response Hv Hk Hp Hok) as [call Hcall].
  rewrite Hcall, Hs. cbn [fst].
  unfold GeminiChat.handleStreamResponse. rewrite Hb. cbv zeta.
  rewrite (stream_headers_cases _
             (fun headers =>
                Normal (Streaming headers
                          (snd (GeminiChat.start JSON_parse Number_toString
                                  reader fresh))))).
  rewrite Hh, start_stream. cbn [snd].
  rewrite (aligned_lines (reads reader) Ha), line_output_events.
  eexists. eexists. split; [reflexivity|]. split; [reflexivity|].
  cbn [queue]. apply forwarded_all_shaped.
Qed.

End WholeLineStream.

(* ================================================================== *)
(** * Conversation identifiers                                         *)
(* ================================================================== *)


Lemma digits_have_no_underscore (d : Decimal.uint) (ch : ascii) :
  In ch (list_ascii_of_string (NilEmpty.string_of_uint d)) -> ch <> "_"%char.
Proof.
  induction d; cbn; intros H; try contradiction;
    (destruct H as [<-|H]; [discriminate|exact (IHd H)]).
Qed.

Lemma string_of_Z_has_no_underscore (z : Z) (ch : ascii) :
  In ch (list_ascii_of_string (string_of_Z z)) -> ch <> "_"%char.
Proof.
  unfold string_of_Z, NilZero.string_of_int.
  assert (Hu : forall u, In ch (list_ascii_of_string (NilZero.string_of_uint u)) ->
                         ch <> "_"%char).
  { intros u. unfold NilZero.string_of_uint. destruct u;
      try exact (digits_have_no_underscore _ ch).
    cbn. intros [<-|[]]. discriminate. }
  destruct (Z.to_int z) as [u|u]; [apply Hu|].
  cbn. intros [<-|H]; [discriminate|exact (Hu u H)].
Qed.

Lemma string_of_Z_injective (a b : Z) : string_of_Z a = string_of_Z b -> a = b.
Proof.
  unfold string_of_Z. intros H.
  assert (Hr : forall d, option_map Z.of_int
                           (NilZero.int_of_string (NilZero.string_of_int d))
                         = Some (Z.of_int d)).
  { intros [u|u]; destruct u;
      try (rewrite NilZero.isi; [reflexivity|discriminate|discriminate]).
    - rewrite NilZero.isi_posnil. reflexivity.
    - rewrite NilZero.isi_negnil. reflexivity. }
  pose proof (Hr (Z.to_int a)) as Ha. pose proof (Hr (Z.to_int b)) as Hb.
  rewrite H in Ha. rewrite Ha in Hb. injection Hb as Hb.
  rewrite !DecimalZ.of_to in Hb. exact Hb.
Qed.

(** Two texts without an underscore, each followed by an underscore and a
    rest, are equal only piece by piece. *)
Lemma split_at_underscore (a b x y : string) :
  (forall ch, In ch (list_ascii_of_string a) -> ch <> "_"%char) ->
  (forall ch, In ch (list_ascii_of_string b) -> ch <> "_"%char) ->
  a ++ String "_" x = b ++ String "_" y ->
  a = b /\ x = y.
Proof.
  revert b. induction a as [|ch a IH]; intros b Ha Hb H.
  - destruct b as [|ch' b]; cbn in H.
    + injection H as ->. split; reflexivity.
    + injection H as <- _. exfalso. apply (Hb "_"%char); [left|]; reflexivity.
  - destruct b as [|ch' b]; cbn in H.
    + injection H as -> _. exfalso. apply (Ha "_"%char); [left|]; reflexivity.
    + injection H as -> H.
      destruct (IH b) as [-> ->]; [| |exact H|split; reflexivity].
      * intros x0 Hx. apply Ha. right. exact Hx.
      * intros x0 Hx. apply Hb. right. exact Hx.
Qed.


(** X13.  The identifier tells the instant and the random part it was made from:
    two identifiers generated at different instants differ. *)
Theorem generated_ids_are_distinct (now1 now2 : Z) (random1 random2 : string) :
  ConversationId.generateConversationId now1 random1
  = ConversationId.generateConversationId now2 random2 ->
  now1 = now2
  /\ ConversationId.substr 2 9 random1 = ConversationId.substr 2 9 random2.
Proof.
  unfold ConversationId.generateConversationId. cbn [String.append].
  intros [= H].
  destruct (split_at_underscore _ _ _ _
              (string_of_Z_has_no_underscore now1)
              (string_of_Z_has_no_underscore now2) H) as [Hn Hr].
  split; [exact (string_of_Z_injective _ _ Hn)|exact Hr].
Qed.

(* ================================================================== *)
(** * The variant over the provider SDK                                *)
(* ================================================================== *)

(** The loop over the chunks of the SDK's stream, on an open stream. *)
Lemma for_await_readable (chunks : list (completion string)) (ending : Ending) :
  forall c : Controller,
    state c = Readable ->
    GeminiChatSDKEndpoint.for_await chunks ending c
    = (match snd (texts_until_failure chunks ending) with
       | EndOfData => Normal tt
       | ReadFails e => Throw e
       end,
       {| queue := (queue c ++ fragments (fst (texts_until_failure chunks ending)))%list;
          state := Readable |}).
Proof.
  induction chunks as [|chunk rest IH]; intros c Hc.
  - cbn. destruct ending; unfold eret, lift; f_equal;
      unfold fragments; cbn; exact (controller_eta c Hc).
  - cbn [GeminiChatSDKEndpoint.for_await texts_until_failure].
    destruct chunk as [text|e].
    + unfold ebind at 1. unfold lift at 1. unfold ebind at 1.
      destruct (texts_until_failure rest ending) as [texts ending'] eqn:E.
      cbn [fst snd] in *. unfold fragments. cbn [filter truthy].
      destruct (negb (text =? "")%string) eqn:T.
      * unfold enqueue. rewrite Hc. rewrite IH by reflexivity.
        cbn [queue map]. rewrite <- app_assoc. reflexivity.
      * unfold eret. rewrite (IH c Hc). reflexivity.
    + unfold ebind, lift. cbn. f_equal. unfold fragments. cbn.
      exact (controller_eta c Hc).
Qed.

Lemma handleStreamResponseWithSDK_value (c : AppContext)
    (model : GeminiChatSDKEndpoint.Model)
    (contents : list Base.Gemini.GeminiMessage)
    (generationConfig : Base.Gemini.GenerationConfig) (conversationId : string) :
  GeminiChatSDKEndpoint.handleStreamResponseWithSDK c model contents
    generationConfig conversationId
  = match header_value conversationId with
    | Throw _ =>
        Normal (Json (VObject [("success", VBool false);
                               ("error", VString "创建流式响应失败")]) 500)
    | Normal v =>
        Normal
          (Streaming (GeminiChat.stream_headers v)
             match GeminiChatSDKEndpoint.generateContentStream model
                     {| GeminiChatSDK.contents := contents;
                        GeminiChatSDK.generationConfig := generationConfig |} with
             | Throw e => {| queue := []; state := Errored e |}
             | Normal result =>
                 let (texts, ending) :=
                   texts_until_failure (GeminiChatSDKEndpoint.stream result)
                     (GeminiChatSDKEndpoint.stream_ending result) in
                 {| queue := fragments texts;
                    state := match ending with
                             | EndOfData => Closed
                             | ReadFails e => Errored e
                             end |}
             end)
    end.
Proof.
  unfold GeminiChatSDKEndpoint.handleStreamResponseWithSDK. cbv zeta.
  rewrite (stream_headers_cases conversationId
             (fun headers =>
                Normal (Streaming headers
                          (snd (GeminiChatSDKEndpoint.start model contents
                                  generationConfig fresh))))).
  destruct (header_value conversationId) as [v|thrown]; [|reflexivity].
  cbn [try_catch]. f_equal. f_equal.
  unfold GeminiChatSDKEndpoint.start, etry_catch, ebind, lift.
  destruct (GeminiChatSDKEndpoint.generateContentStream model _) as [result|e];
    [|reflexivity].
  rewrite (for_await_readable _ _ fresh eq_refl).
  destruct (texts_until_failure _ _) as [texts [|e]]; reflexivity.
Qed.

(** X17.  The streaming translator over the SDK never throws.  When the
    conversation identifier can be a header value it answers with a stream,
    also when the SDK call itself fails: the fragments are the non-empty
    texts of the chunks before the first failure, in order, and the stream
    ends closed when the SDK's stream ends, and errored with what was thrown
    by the call, by a chunk's [text()] or by the SDK's stream otherwise.
    When the identifier is no header value, the outer [catch] answers 500
    with the translator's own failure envelope. *)
Theorem sdk_stream_is_chunk_texts (c : AppContext)
    (model : GeminiChatSDKEndpoint.Model)
    (contents : list Base.Gemini.GeminiMessage)
    (generationConfig : Base.Gemini.GenerationConfig) (conversationId : string) :
  GeminiChatSDKEndpoint.handleStreamResponseWithSDK c model contents
    generationConfig conversationId
  = match header_value conversationId with
    | Throw _ =>
        Normal (Json (VObject [("success", VBool false);
                               ("error", VString "创建流式响应失败")]) 500)
    | Normal v =>
        Normal
          (Streaming (GeminiChat.stream_headers v)
             match GeminiChatSDKEndpoint.generateContentStream model
                     {| GeminiChatSDK.contents := contents;
                        GeminiChatSDK.generationConfig := generationConfig |} with
             | Throw e => {| queue := []; state := Errored e |}
             | Normal result =>
                 let (texts, ending) :=
                   texts_until_failure (GeminiChatSDKEndpoint.stream result)
                     (GeminiChatSDKEndpoint.stream_ending result) in
                 {| queue := fragments texts;
                    state := match ending with
                             | EndOfData => Closed
                             | ReadFails e => Errored e
                             end |}
             end)
    end.
Proof.
  exact (handleStreamResponseWithSDK_value c model contents generationConfig
           conversationId).
Qed.

Lemma handleNormalResponseWithSDK_value (c : AppContext)
    (model : GeminiChatSDK.GenerativeModel)
    (contents : list Base.Gemini.GeminiMessage)
    (generationConfig : Base.Gemini.GenerationConfig) (conversationId : string) :
  let failure :=
    Json (VObject [("success", VBool false); ("error", VString "生成内容失败")]) 500 in
  let answer :=
    GeminiChatSDK.handleNormalResponseWithSDK c model contents generationConfig
      conversationId in
  match GeminiChatSDK.generateContent model
          {| GeminiChatSDK.contents := contents;
             GeminiChatSDK.generationConfig := generationConfig |} with
  | Throw _ => answer = Normal failure
  | Normal reply =>
      match GeminiChatSDK.text reply with
      | Throw _ => answer = Normal failure
      | Normal message =>
          exists body,
            answer = Normal (Json (VObject body) 200)
            /\ lookup "success" body = Some (VBool true)
            /\ lookup "conversation_id" body = Some (VString conversationId)
            /\ lookup "message" body = Some (VString message)
      end
  end.
Proof.
  cbv zeta. unfold GeminiChatSDK.handleNormalResponseWithSDK, try_catch, bind.
  destruct (GeminiChatSDK.generateContent model _) as [reply|e]; [|reflexivity].
  destruct (GeminiChatSDK.text reply) as [message|e]; [|reflexivity].
  destruct (c_json_fields conversationId (VString message)
              (usage_computed (GeminiChatSDK.usageMetadata reply)))
    as (body & E & Hs & Hc & Hm).
  exists body. repeat split; try assumption.
  rewrite <- E. unfold usage_computed.
  destruct (truthy (GeminiChatSDK.usageMetadata reply)) eqn:T; [|reflexivity].
  rewrite !(get_total _ _ (truthy_not_nullish _ T)). reflexivity.
Qed.

(** X18.  The buffered translator over the SDK never throws: it answers 500 with
    its own failure envelope when the SDK call or the reply's [text()]
    throws, and otherwise 200 with [success: true], the conversation
    identifier and the reply's text as the message. *)
Theorem sdk_buffered_never_throws (c : AppContext)
    (model : GeminiChatSDK.GenerativeModel)
    (contents : list Base.Gemini.GeminiMessage)
    (generationConfig : Base.Gemini.GenerationConfig) (conversationId : string) :
  let failure :=
    Json (VObject [("success", VBool false); ("error", VString "生成内容失败")]) 500 in
  let answer :=
    GeminiChatSDK.handleNormalResponseWithSDK c model contents generationConfig
      conversationId in
  match GeminiChatSDK.generateContent model
          {| GeminiChatSDK.contents := contents;
             GeminiChatSDK.generationConfig := generationConfig |} with
  | Throw _ => answer = Normal failure
  | Normal reply =>
      match GeminiChatSDK.text reply with
      | Throw _ => answer = Normal failure
      | Normal message =>
          exists body,
            answer = Normal (Json (VObject body) 200)
            /\ lookup "success" body = Some (VBool true)
            /\ lookup "conversation_id" body = Some (VString conversationId)
            /\ lookup "message" body = Some (VString message)
      end
  end.
Proof.
  exact (handleNormalResponseWithSDK_value c model contents generationConfig
           conversationId).
Qed.

Section SDKHandle.

Variable getGenerativeModel : string -> string -> GeminiChatSDKEndpoint.Model.
Variable generated_id : string.

Notation handle := (GeminiChatSDKEndpoint.handle getGenerativeModel generated_id).

(** X19.  Unlike [handle] over [fetch], [handle] over the SDK never throws:
    whatever the request and whatever the SDK does, it answers with a
    response. *)
Theorem sdk_handle_never_throws (c : AppContext) :
  exists response, fst (handle c []) = Normal response.
Proof.
  unfold GeminiChatSDKEndpoint.handle, ebind, etry_catch, lift, eret,
    GeminiChatSDKEndpoint.translate.
  destruct (getValidatedData c) as [data|e]; [|eexists; reflexivity].
  destruct (GeminiChat.missing (GEMINI_API_KEY (env c))); [eexists; reflexivity|].
  destruct (Base.stream data); cbn [fst].
  - rewrite handleStreamResponseWithSDK_value.
    destruct (header_value _); eexists; reflexivity.
  - pose proof (handleNormalResponseWithSDK_value c
                  (GeminiChatSDKEndpoint.buffered
                     (getGenerativeModel (GeminiChat.key_of (GEMINI_API_KEY (env c)))
                        "gemini-2.0-flash"))
                  [ {| Base.Gemini.role := Some Base.Gemini.user;
                       Base.Gemini.parts := [Base.message data] |} ]
                  {| Base.Gemini.temperature := Some (Base.temperature data);
                     Base.Gemini.topK := None; Base.Gemini.topP := None;
                     Base.Gemini.maxOutputTokens := Some (Base.max_tokens data);
                     Base.Gemini.stopSequences := None |}
                  (GeminiChat.resolve generated_id (Base.conversation_id data))) as H.
    cbv zeta in H.
    destruct (GeminiChatSDK.generateContent _ _) as [reply|e];
      [|rewrite H; eexists; reflexivity].
    destruct (GeminiChatSDK.text reply) as [message|e];
      [|rewrite H; eexists; reflexivity].
    destruct H as (body & -> & _). eexists. reflexivity.
Qed.


End SDKHandle.

(* ================================================================== *)
(** * The CORS middleware                                              *)
(* ================================================================== *)

Lemma find_remove_same (name : string) (h : Headers.t) :
  Headers.find name (Headers.remove name h) = None.
Proof.
  induction h as [|[k v] h IH]; [reflexivity|]. cbn.
  destruct (k =? name)%string eqn:E; [exact IH|]. cbn. rewrite E. exact IH.
Qed.

Lemma find_remove_other (name other : string) (h : Headers.t) :
  name <> other ->
  Headers.find name (Headers.remove other h) = Headers.find name h.
Proof.
  intros Hne. induction h as [|[k v] h IH]; [reflexivity|]. cbn.
  destruct (String.eqb_spec k other) as [->|Hk].
  - rewrite IH. destruct (String.eqb_spec other name); [congruence|reflexivity].
  - cbn. rewrite IH. reflexivity.
Qed.

Lemma find_app (name : string) (h1 h2 : Headers.t) :
  Headers.find name (h1 ++ h2)%list
  = match Headers.find name h1 with
    | Some v => Some v
    | None => Headers.find name h2
    end.
Proof.
  induction h1 as [|[k v] h1 IH]; [reflexivity|]. cbn.
  destruct (k =? name)%string; [reflexivity|exact IH].
Qed.

(** What [set] wrote is what [get] reads, whatever the case of the name. *)
Lemma get_set_same (name name' value : string) (h : Headers.t) :
  Headers.lower name = Headers.lower name' ->
  Headers.get name (Headers.set name' value h) = Some value.
Proof.
  intros E. unfold Headers.get, Headers.set. rewrite E, find_app, find_remove_same.
  cbn. rewrite String.eqb_refl. reflexivity.
Qed.

Lemma get_set_other (name name' value : string) (h : Headers.t) :
  Headers.lower name <> Headers.lower name' ->
  Headers.get name (Headers.set name' value h) = Headers.get name h.
Proof.
  intros Hne. unfold Headers.get, Headers.set.
  rewrite find_app, (find_remove_other _ _ h Hne). cbn.
  destruct (Headers.find (Headers.lower name) h); [reflexivity|].
  destruct (String.eqb_spec (Headers.lower name') (Headers.lower name));
    [congruence|reflexivity].
Qed.

Section CorsProperties.

Variables S B : Type.
Variable next : Headers.t -> eff S (Index.Reply B).

Notation cors := (Index.cors S B next).

(** X21.  A preflight request is answered by the middleware itself: status 204
    without a body, the request's origin (or [*] when it has none) as the
    allowed origin, credentials allowed, and [Vary: Origin]; the rest of the
    application is not run. *)
Theorem preflight_is_answered_by_the_middleware (req : Index.Request) (s : S) :
  Index.method req = "OPTIONS" ->
  exists reply,
    cors req s = (Normal reply, s)
    /\ Index.status reply = 204
    /\ Index.body reply = None
    /\ Headers.get "Access-Control-Allow-Origin" (Index.headers reply)
       = Some (Index.origin_of req)
    /\ Headers.get "Access-Control-Allow-Credentials" (Index.headers reply)
       = Some "true"
    /\ Headers.get "Access-Control-Allow-Methods" (Index.headers reply)
       = Some "GET, POST, PUT, DELETE, OPTIONS"
    /\ Headers.get "Vary" (Index.headers reply) = Some "Origin".
Proof.
  intros Hm. unfold Index.cors. rewrite Hm. cbn [String.eqb Ascii.eqb Bool.eqb].
  eexists. split; [reflexivity|]. repeat split.
Qed.

(** X22.  Every response that leaves the middleware allows the origin the
    request came from, whatever that origin is and whatever the handler had
    set, and varies on [Origin].  For a request that is not a preflight, the
    status and the body are those of the handler's response; the four other
    CORS headers have the middleware's values, also when the handler had set
    them otherwise; every other header is as the handler set it. *)
Theorem every_origin_is_allowed (req : Index.Request) (s s' : S)
    (reply : Index.Reply B) :
  cors req s = (Normal reply, s') ->
  Headers.get "Access-Control-Allow-Origin" (Index.headers reply)
  = Some (Index.origin_of req)
  /\ (forall o, Index.Origin req = Some o -> o <> "" -> Index.origin_of req = o)
  /\ Headers.get "Vary" (Index.headers reply) = Some "Origin"
  /\ (Index.method req <> "OPTIONS" ->
      exists res handled,
        next res s = (Normal handled, s')
        /\ Index.status reply = Index.status handled
        /\ Index.body reply = Index.body handled
        /\ Headers.get "Access-Control-Allow-Methods" (Index.headers reply)
           = Some "GET, POST, PUT, DELETE, OPTIONS"
        /\ Headers.get "Access-Control-Allow-Headers" (Index.headers reply)
           = Some "Content-Type, Authorization"
        /\ Headers.get "Access-Control-Allow-Credentials" (Index.headers reply)
           = Some "true"
        /\ Headers.get "Access-Control-Max-Age" (Index.headers reply)
           = Some "86400"
        /\ forall name,
             ~ In (Headers.lower name) cors_headers ->
             Headers.get name (Index.headers reply)
             = Headers.get name (Index.headers handled)).
Proof.
  intros H.
  assert (Ho : forall o, Index.Origin req = Some o -> o <> "" -> Index.origin_of req = o).
  { intros o Eo Hne. unfold Index.origin_of. rewrite Eo.
    destruct (String.eqb_spec o ""); [contradiction|reflexivity]. }
  unfold Index.cors in H.
  destruct (String.eqb_spec (Index.method req) "OPTIONS") as [Hm|Hm].
  - unfold eret in H. injection H as <- <-.
    split; [reflexivity|]. split; [exact Ho|]. split; [reflexivity|].
    intros Hn. contradiction.
  - unfold ebind, eret in H.
    destruct (next _ s) as [[handled|e] s1] eqn:Hnext; [|discriminate].
    injection H as <- <-.
    cbn [Index.headers Index.status Index.body Index.assign].
    change (fold_left _ _ (Index.headers handled))
      with (Headers.set "access-control-max-age" "86400"
              (Headers.set "access-control-allow-credentials" "true"
                 (Headers.set "access-control-allow-headers"
                    "Content-Type, Authorization"
                    (Headers.set "access-control-allow-methods"
                       "GET, POST, PUT, DELETE, OPTIONS"
                       (Headers.set "access-control-allow-origin"
                          (Index.origin_of req) (Index.headers handled)))))).
    split.
    { rewrite get_set_other by (cbn; discriminate).
      apply get_set_same. reflexivity. }
    split; [exact Ho|]. split; [apply get_set_same; reflexivity|].
    intros _. eexists. exists handled. split; [exact Hnext|].
    split; [reflexivity|]. split; [reflexivity|].
    split.
    { do 5 (rewrite get_set_other by (cbn; discriminate)).
      apply get_set_same. reflexivity. }
    split.
    { do 4 (rewrite get_set_other by (cbn; discriminate)).
      apply get_set_same. reflexivity. }
    split.
    { do 3 (rewrite get_set_other by (cbn; discriminate)).
      apply get_set_same. reflexivity. }
    split.
    { do 2 (rewrite get_set_other by (cbn; discriminate)).
      apply get_set_same. reflexivity. }
    intros name Hn. unfold cors_headers in Hn. cbn [In] in Hn.
    repeat (rewrite get_set_other
              by (cbn; intros E; apply Hn; rewrite E; cbn; tauto)).
    reflexivity.
Qed.

End CorsProperties.

(* ================================================================== *)
(** * More examples                                                    *)
(* ================================================================== *)

Lemma validated_request_is_in_range_witness :
  let data := {| Base.message := "hi"; Base.conversation_id := None;
                 Base.temperature := 3 # 2; Base.max_tokens := 100;
                 Base.stream := true |} in
  Base.ChatRequest_safeParse (chat_with (3 # 2) 100) = inr data
  /\ Base.message data <> ""
  /\ (0 <= Base.temperature data)%Q /\ (Base.temperature data <= 2)%Q
  /\ (1 <= Base.max_tokens data)%Q /\ (Base.max_tokens data <= 8192)%Q.
Proof.
  cbv zeta. split; [reflexivity|].
  apply (validated_request_is_in_range (chat_with (3 # 2) 100)). reflexivity.
Defined.

Lemma defaults_are_filled_witness :
  Base.ChatRequest_safeParse (chat_in "abc" false)
  = inr {| Base.message := "hi"; Base.conversation_id := Some "abc";
           Base.temperature := 7 # 10; Base.max_tokens := 1024;
           Base.stream := false |}.
Proof.
  apply (defaults_are_filled
           [("message", VString "hi"); ("conversation_id", VString "abc");
            ("stream", VBool false)]
           "hi" (Some "abc") None None (Some false));
    try reflexivity. discriminate.
Defined.

Lemma out_of_range_is_rejected_witness :
  in_range 0 2 (Some 3%Q) = false
  /\ in_range 1 8192 (Some 0%Q) = false
  /\ GeminiChat.handle JSON.parse JSON.Number_toString
       (answering (upstream 200 [document] EndOfData)) "conv_1"
       (context (chat_with 3 1024) (Some "key")) []
     = (Normal internal_error, [])
  /\ GeminiChat.handle JSON.parse JSON.Number_toString
       (answering (upstream 200 [document] EndOfData)) "conv_1"
       (context (chat_with 1 0) (Some "key")) []
     = (Normal internal_error, []).
Proof.
  split; [reflexivity|]. split; [reflexivity|]. split.
  - apply (out_of_range_is_rejected JSON.parse JSON.Number_toString
             (answering (upstream 200 [document] EndOfData)) "conv_1"
             (context (chat_with 3 1024) (Some "key"))
             [("message", VString "hi"); ("temperature", VNumber 3);
              ("max_tokens", VNumber 1024)]); [reflexivity|].
    left. exists 3%Q. split; reflexivity.
  - apply (out_of_range_is_rejected JSON.parse JSON.Number_toString
             (answering (upstream 200 [document] EndOfData)) "conv_1"
             (context (chat_with 1 0) (Some "key"))
             [("message", VString "hi"); ("temperature", VNumber 1);
              ("max_tokens", VNumber 0)]); [reflexivity|].
    right. exists 0%Q. split; reflexivity.
Defined.

Lemma provider_request_is_built_from_request_witness :
  exists rest,
    snd (GeminiChat.handle JSON.parse JSON.Number_toString
           (answering (upstream 200 two_reads EndOfData)) "conv_1"
           (context (chat "hi" true) (Some "key")) [])
    = GeminiChat.Fetched (call_of (valid_request true) "key") :: rest.
Proof.
  destruct (provider_request_is_built_from_request JSON.parse JSON.Number_toString
              (answering (upstream 200 two_reads EndOfData)) "conv_1"
              (context (chat "hi" true) (Some "key")) (valid_request true) "key"
              eq_refl eq_refl) as [rest E]; [discriminate|].
  exists rest. rewrite E. reflexivity.
Defined.

Lemma provider_request_conforms_witness :
  let trace :=
    snd (GeminiChat.handle JSON.parse JSON.Number_toString
           (answering (upstream 200 [document] EndOfData)) "conv_1"
           (context (chat "hi" false) (Some "key")) []) in
  In (GeminiChat.Fetched (call_of (valid_request false) "key")) trace
  /\ GeminiRequestSchema.accepts
       (GeminiChat.body (call_of (valid_request false) "key")) = true.
Proof.
  cbv zeta.
  assert (Hin : In (GeminiChat.Fetched (call_of (valid_request false) "key"))
                  (snd (GeminiChat.handle JSON.parse JSON.Number_toString
                          (answering (upstream 200 [document] EndOfData)) "conv_1"
                          (context (chat "hi" false) (Some "key")) [])))
    by (left; vm_compute; reflexivity).
  split; [exact Hin|].
  exact (proj1 (provider_request_conforms JSON.parse JSON.Number_toString
                  (answering (upstream 200 [document] EndOfData)) "conv_1"
                  (context (chat "hi" false) (Some "key"))
                  (call_of (valid_request false) "key") Hin)).
Defined.

Lemma unreachable_provider_is_500_witness :
  exists call,
    GeminiChat.handle JSON.parse JSON.Number_toString unreachable "conv_1"
      (context (chat "hi" true) (Some "key")) []
    = (Normal (Json (VObject [("success", VBool false);
                              ("error", VString "处理请求时发生内部错误")]) 500),
       [GeminiChat.Fetched call]).
Proof.
  apply (unreachable_provider_is_500 JSON.parse JSON.Number_toString unreachable
           "conv_1" (context (chat "hi" true) (Some "key")) (valid_request true)
           eq_refl eq_refl).
  intros call. eexists. reflexivity.
Defined.

Lemma handle_throws_only_from_a_translator_witness :
  let c := context (chat_in "会话" true) (Some "key") in
  let provider := answering (upstream 200 two_reads EndOfData) in
  fst (GeminiChat.handle JSON.parse JSON.Number_toString provider "conv_1" c [])
  = Throw (TypeError "Cannot convert argument to a ByteString")
  /\ exists data call response,
       getValidatedData c = Normal data
       /\ provider call = Normal response
       /\ ok response = true
       /\ snd (GeminiChat.handle JSON.parse JSON.Number_toString provider "conv_1" c [])
          = [GeminiChat.Fetched call; GeminiChat.Translated (Base.stream data)]
       /\ if Base.stream data
          then (exists reader, Web.body response = Some reader)
               /\ header_value (GeminiChat.resolve "conv_1" (Base.conversation_id data))
                  = Throw (TypeError "Cannot convert argument to a ByteString")
          else GeminiChat.handleNormalResponse JSON.parse c response
                 (GeminiChat.resolve "conv_1" (Base.conversation_id data))
               = Throw (TypeError "Cannot convert argument to a ByteString").
Proof.
  cbv zeta.
  assert (H : fst (GeminiChat.handle JSON.parse JSON.Number_toString
                     (answering (upstream 200 two_reads EndOfData)) "conv_1"
                     (context (chat_in "会话" true) (Some "key")) [])
              = Throw (TypeError "Cannot convert argument to a ByteString"))
    by (vm_compute; reflexivity).
  split; [exact H|].
  exact (handle_throws_only_from_a_translator JSON.parse JSON.Number_toString
           (answering (upstream 200 two_reads EndOfData)) "conv_1"
           (context (chat_in "会话" true) (Some "key")) _ H).
Defined.

Lemma buffered_translation_throws_exactly_when_witness :
  let response := upstream 200 ["[1, 2]"] EndOfData in
  GeminiChat.json JSON.parse response = Normal (VArray [VNumber 1; VNumber 2])
  /\ exists body message,
       GeminiChat.handleNormalResponse JSON.parse
         (context (chat "hi" false) (Some "key")) response "conv_1"
       = Normal (Json (VObject body) 200)
       /\ lookup "success" body = Some (VBool true)
       /\ lookup "conversation_id" body = Some (VString "conv_1")
       /\ lookup "message" body = Some message.
Proof.
  cbv zeta.
  assert (Hj : GeminiChat.json JSON.parse (upstream 200 ["[1, 2]"] EndOfData)
               = Normal (VArray [VNumber 1; VNumber 2])) by (vm_compute; reflexivity).
  split; [exact Hj|].
  exact (proj2 (buffered_translation_throws_exactly_when JSON.parse
                  (context (chat "hi" false) (Some "key"))
                  (upstream 200 ["[1, 2]"] EndOfData) "conv_1")
               (VArray [VNumber 1; VNumber 2]) Hj eq_refl).
Defined.

Lemma stream_without_body_is_500_witness :
  exists call,
    GeminiChat.handle JSON.parse JSON.Number_toString (answering bodiless) "conv_1"
      (context (chat "hi" true) (Some "key")) []
    = (Normal (Json (VObject [("success", VBool false);
                              ("error", VString "无法读取流式响应")]) 500),
       [GeminiChat.Fetched call; GeminiChat.Translated true]).
Proof.
  apply (stream_without_body_is_500 JSON.parse JSON.Number_toString
           (answering bodiless) "conv_1" (context (chat "hi" true) (Some "key"))
           (valid_request true) bodiless);
    try reflexivity.
Defined.

Lemma conversation_id_is_echoed_witness :
  (exists headers stream,
     fst (GeminiChat.handle JSON.parse JSON.Number_toString
            (answering (upstream 200 two_reads EndOfData)) "conv_1"
            (context (chat_in " abc " true) (Some "key")) [])
     = Normal (Streaming headers stream)
     /\ header "X-Conversation-ID" headers = Some "abc"
     /\ "abc" = normalize " abc ")
  /\ (exists body,
        fst (GeminiChat.handle JSON.parse JSON.Number_toString
               (answering (upstream 200 [document] EndOfData)) "conv_1"
               (context (chat_in "" false) (Some "key")) [])
        = Normal (Json (VObject body) 200)
        /\ lookup "conversation_id" body = Some (VString "conv_1")).
Proof.
  split.
  - apply (proj1 (conversation_id_is_echoed JSON.parse JSON.Number_toString
                    (answering (upstream 200 two_reads EndOfData)) "conv_1"
                    (context (chat_in " abc " true) (Some "key"))
                    {| Base.message := "hi"; Base.conversation_id := Some " abc ";
                       Base.temperature := 7 # 10; Base.max_tokens := 1024;
                       Base.stream := true |}
                    (upstream 200 two_reads EndOfData)
                    eq_refl eq_refl (fun _ => eq_refl) eq_refl)
                 {| Web.reads := map bytes two_reads; Web.ending := EndOfData |}
                 "abc");
      reflexivity.
  - apply (proj2 (conversation_id_is_echoed JSON.parse JSON.Number_toString
                    (answering (upstream 200 [document] EndOfData)) "conv_1"
                    (context (chat_in "" false) (Some "key"))
                    {| Base.message := "hi"; Base.conversation_id := Some "";
                       Base.temperature := 7 # 10; Base.max_tokens := 1024;
                       Base.stream := false |}
                    (upstream 200 [document] EndOfData)
                    eq_refl eq_refl (fun _ => eq_refl) eq_refl)
                 document_value);
      [reflexivity|vm_compute; reflexivity|reflexivity].
Defined.

Lemma generated_ids_are_distinct_witness :
  ConversationId.generateConversationId 1704067200000 "0.abc123defXYZ"
  = ConversationId.generateConversationId 1704067200000 "0.abc123defQRS"
  /\ ConversationId.generateConversationId 1704067200000 "0.abc123defXYZ"
     = "conv_1704067200000_abc123def"
  /\ ConversationId.substr 2 9 "0.abc123defXYZ" = ConversationId.substr 2 9 "0.abc123defQRS".
Proof.
  assert (H : ConversationId.generateConversationId 1704067200000 "0.abc123defXYZ"
              = ConversationId.generateConversationId 1704067200000 "0.abc123defQRS")
    by (vm_compute; reflexivity).
  split; [exact H|]. split; [vm_compute; reflexivity|].
  exact (proj2 (generated_ids_are_distinct _ _ _ _ H)).
Defined.

Lemma whole_line_reads_are_chunking_invariant_witness :
  aligned TextDecoder.new (map bytes line_reads) = true
  /\ GeminiChat.start JSON.parse JSON.Number_toString
       {| Web.reads := map bytes line_reads; Web.ending := EndOfData |} fresh
     = GeminiChat.start JSON.parse JSON.Number_toString
         {| Web.reads := [List.concat (map bytes line_reads)];
            Web.ending := EndOfData |} fresh
  /\ queue (snd (GeminiChat.start JSON.parse JSON.Number_toString
                   {| Web.reads := [List.concat (map bytes line_reads)];
                      Web.ending := EndOfData |} fresh))
     = [bytes "Hel"; bytes "lo"].
Proof.
  assert (H : aligned TextDecoder.new (map bytes line_reads) = true)
    by (vm_compute; reflexivity).
  split; [exact H|]. split.
  - exact (whole_line_reads_are_chunking_invariant JSON.parse JSON.Number_toString
             (map bytes line_reads) EndOfData H).
  - vm_compute. reflexivity.
Defined.

Lemma no_empty_fragment_witness :
  let reader := {| Web.reads := map bytes two_reads; Web.ending := EndOfData |} in
  forallb provider_document (read_events JSON.parse (Web.reads reader)) = true
  /\ List.length (read_events JSON.parse (Web.reads reader)) = 3%nat
  /\ (List.length (queue (snd (GeminiChat.start JSON.parse JSON.Number_toString
                                 reader fresh))) <= 3)%nat
  /\ Forall (fun fragment => fragment <> [])
       (queue (snd (GeminiChat.start JSON.parse JSON.Number_toString reader fresh))).
Proof.
  cbv zeta.
  assert (H : forallb provider_document (read_events JSON.parse (map bytes two_reads)) = true)
    by (vm_compute; reflexivity).
  assert (L : List.length (read_events JSON.parse (map bytes two_reads)) = 3%nat)
    by (vm_compute; reflexivity).
  split; [exact H|]. split; [exact L|].
  destruct (no_empty_fragment JSON.parse JSON.Number_toString
              {| Web.reads := map bytes two_reads; Web.ending := EndOfData |})
    as [Hlen Hne].
  split; [|exact (Hne H)].
  cbn [Web.reads] in Hlen. rewrite L in Hlen. exact Hlen.
Defined.


Lemma preflight_is_answered_by_the_middleware_witness :
  let req := {| Index.method := "OPTIONS"; Index.Origin := Some "https://app.example" |} in
  let next := fun _ : Headers.t =>
                fun trace : list string =>
                  (Normal {| Index.status := 200; Index.headers := [];
                             Index.body := Some tt |},
                   (trace ++ ["handled"])%list) in
  exists reply,
    Index.cors (list string) unit next req [] = (Normal reply, [])
    /\ Index.status reply = 204
    /\ Index.body reply = None
    /\ Headers.get "access-control-allow-origin" (Index.headers reply)
       = Some "https://app.example".
Proof.
  cbv zeta.
  destruct (preflight_is_answered_by_the_middleware (list string) unit
              (fun _ : Headers.t =>
                 fun trace : list string =>
                   (Normal {| Index.status := 200; Index.headers := [];
                              Index.body := Some tt |},
                    (trace ++ ["handled"])%list))
              {| Index.method := "OPTIONS"; Index.Origin := Some "https://app.example" |}
              [] eq_refl)
    as (reply & E & Hs & Hb & Ho & _).
  exists reply. split; [exact E|]. split; [exact Hs|]. split; [exact Hb|].
  exact Ho.
Defined.

Lemma every_origin_is_allowed_witness :
  let req := {| Index.method := "POST"; Index.Origin := Some "https://other.example" |} in
  let handled :=
    {| Index.status := 200;
       Index.headers := [("access-control-allow-origin", "https://app.example");
                         ("access-control-max-age", "1");
                         ("content-type", "application/json")];
       Index.body := Some tt |} in
  let next := fun _ : Headers.t =>
                fun trace : list string => (Normal handled, (trace ++ ["handled"])%list) in
  exists reply,
    Index.cors (list string) unit next req [] = (Normal reply, ["handled"])
    /\ Headers.get "Access-Control-Allow-Origin" (Index.headers reply)
       = Some "https://other.example"
    /\ Headers.get "Vary" (Index.headers reply) = Some "Origin"
    /\ Headers.get "Access-Control-Max-Age" (Index.headers reply) = Some "86400"
    /\ Headers.get "Content-Type" (Index.headers reply) = Some "application/json".
Proof.
  cbv zeta. eexists. split; [reflexivity|].
  destruct (every_origin_is_allowed (list string) unit
              (fun _ : Headers.t =>
                 fun trace : list string =>
                   (Normal {| Index.status := 200;
                              Index.headers :=
                                [("access-control-allow-origin", "https://app.example");
                                 ("access-control-max-age", "1");
                                 ("content-type", "application/json")];
                              Index.body := Some tt |},
                    (trace ++ ["handled"])%list))
              {| Index.method := "POST"; Index.Origin := Some "https://other.example" |}
              [] ["handled"] _ eq_refl) as (Ho & _ & Hv & Hrest).
  split; [exact Ho|]. split; [exact Hv|].
  destruct (Hrest ltac:(discriminate))
    as (res & handled & _ & _ & _ & _ & _ & _ & Hage & _).
  split; [exact Hage|]. reflexivity.
Defined.

Lemma whole_line_stream_is_event_texts_witness :
  let response := upstream 200 line_reads EndOfData in
  let c := context (chat "hi" true) (Some "key") in
  aligned TextDecoder.new (map bytes line_reads) = true
  /\ forallb provider_document (stream_events JSON.parse (map bytes line_reads)) = true
  /\ exists headers stream,
       fst (GeminiChat.handle JSON.parse JSON.Number_toString (answering response)
              "conv_1" c []) = Normal (Streaming headers stream)
       /\ queue stream = [bytes "Hel"; bytes "lo"]
       /\ List.concat (queue stream) = bytes "Hello".
Proof.
  cbv zeta.
  assert (Ha : aligned TextDecoder.new (map bytes line_reads) = true)
    by (vm_compute; reflexivity).
  assert (Hshape : forallb provider_document
                     (stream_events JSON.parse (map bytes line_reads)) = true)
    by (vm_compute; reflexivity).
  split; [exact Ha|]. split; [exact Hshape|].
  destruct (whole_line_stream_is_event_texts JSON.parse JSON.Number_toString
              (answering (upstream 200 line_reads EndOfData)) "conv_1"
              (context (chat "hi" true) (Some "key"))
              (valid_request true)
              (upstream 200 line_reads EndOfData)
              {| Web.reads := map bytes line_reads; Web.ending := EndOfData |}
              "conv_1"
              eq_refl eq_refl eq_refl (fun _ => eq_refl) eq_refl eq_refl eq_refl Ha)
    as (headers & stream & E1 & E2 & E3).
  exists headers, stream. split; [exact E1|]. split.
  - rewrite E2. vm_compute. reflexivity.
  - rewrite (E3 Hshape). vm_compute. reflexivity.
Defined.
